(** * CauliflowerVest escrow client: a shallow embedding

    The client of [cauliflowervest/client/base_client.py], the constants of
    [cauliflowervest/settings.py] and the two escrow-upload workflows of
    [cauliflowervest/client/mac/tkinter.py], as state-passing functions over
    an explicit world (network trace, the client's memoised metadata, the
    window's top frame). *)

From Stdlib Require Import String Ascii List ZArith Lia Bool.
From stdpp Require Import base option list gmap strings pretty.

Set Warnings "-register-all".
Local Open Scope string_scope.
Local Open Scope list_scope.

(** ** Python values *)

(** The values the client handles: what [json.loads] returns, and what a
    metadata dictionary holds.  A float is kept as a decimal mantissa and
    exponent; a JSON object keeps its pairs in document order. *)
Inductive PyVal :=
| PyNone
| PyBool (b : bool)
| PyInt (z : Z)
| PyFloat (mantissa exponent : Z)
| PyStr (s : string)
| PyList (items : list PyVal)
| PyDict (pairs : list (string * PyVal)).

(** Python truth value ([bool(v)]). *)
Definition truthy (v : PyVal) : bool :=
  match v with
  | PyNone => false
  | PyBool b => b
  | PyInt z => negb (Z.eqb z 0)
  | PyFloat m _ => negb (Z.eqb m 0)
  | PyStr s => negb (String.eqb s "")
  | PyList l => match l with [] => false | _ => true end
  | PyDict d => match d with [] => false | _ => true end
  end.

(** ** Exceptions *)

Inductive Exn :=
(* base_client.Error and its subclasses *)
| UserAbort (msg : string)
| AuthenticationError (msg : string)
| RequestError (msg : string)
| NotFoundError (msg : string)
| MetadataError (msg : string)
(* urllib2 *)
| URLError (reason : string)
| HTTPError (code : Z) (msg : string) (body : string)
(* builtins and collaborators *)
| ValueError (msg : string)
| KeyError (key : string)
| TypeError (msg : string)
| AttributeError (msg : string)
| NotImplementedError
| GlueError (msg : string)
| OtherException (cls msg : string).

(** [isinstance(e, base_client.Error)] *)
Definition isinstance_Error (e : Exn) : bool :=
  match e with
  | UserAbort _ | AuthenticationError _ | RequestError _
  | NotFoundError _ | MetadataError _ => true
  | _ => false
  end.

(** [isinstance(e, RequestError)]: [NotFoundError] subclasses it. *)
Definition isinstance_RequestError (e : Exn) : bool :=
  match e with
  | RequestError _ | NotFoundError _ => true
  | _ => false
  end.

(** [isinstance(e, urllib2.URLError)]: parent of [urllib2.HTTPError]. *)
Definition isinstance_URLError (e : Exn) : bool :=
  match e with
  | URLError _ | HTTPError _ _ _ => true
  | _ => false
  end.

Definition isinstance_HTTPError (e : Exn) : bool :=
  match e with
  | HTTPError _ _ _ => true
  | _ => false
  end.

Definition isinstance_glue_Error (e : Exn) : bool :=
  match e with
  | GlueError _ => true
  | _ => false
  end.

(** [str(e)] for the urllib2 errors the client formats into its messages:
    [HTTPError.__str__] is ['HTTP Error %s: %s' % (code, msg)] and
    [URLError.__str__] is ['<urlopen error %s>' % reason]. *)
Definition str_of_exn (e : Exn) : string :=
  match e with
  | HTTPError code msg _ => "HTTP Error " +:+ pretty code +:+ ": " +:+ msg
  | URLError reason => "<urlopen error " +:+ reason +:+ ">"
  | UserAbort m | AuthenticationError m | RequestError m | NotFoundError m
  | MetadataError m | ValueError m | TypeError m | AttributeError m
  | GlueError m | OtherException _ m => m
  | KeyError k => "'" +:+ k +:+ "'"
  | NotImplementedError => ""
  end.

(** [e.msg += ': ' + e.read()] on an [HTTPError]. *)
Definition append_body (e : Exn) : Exn :=
  match e with
  | HTTPError code msg body => HTTPError code (msg +:+ ": " +:+ body) body
  | _ => e
  end.

(** ** Requests, events and the world *)

Inductive Method := GET | PUT.

Record Request := mkRequest {
  req_method : Method;
  req_url : string;
  req_headers : gmap string string;
  req_data : option string
}.

Record Response := mkResponse { read : string }.

Inductive LogLevel := LogWarning | LogException.

Inductive Widget :=
| Label (text : string)
| Button (text command : string).

Inductive Event :=
| EvOpen (r : Request)
| EvSleep (secs : nat)
| EvLog (lvl : LogLevel) (msg : string)
| EvUpdate
| EvRunProcess (cmd : list string)
| EvCountdownStart (callback : string).

(** What the opener does with one request. *)
Inductive Outcome :=
| Responds (body : string)
| FailsHTTP (code : Z) (msg body : string)
| FailsURL (reason : string)
| FailsOther (cls msg : string).

Record World := mkWorld {
  trace : list Event;
  _metadata : option (gmap string PyVal);
  top_frame : option (list Widget)
}.

Definition world0 : World :=
  {| trace := []; _metadata := None; top_frame := None |}.

(** ** The state and exception monad *)

Inductive Result (A : Type) :=
| Returns (a : A)
| Raises (e : Exn).
Arguments Returns {A} a.
Arguments Raises {A} e.

Definition M (A : Type) : Type := World -> Result A * World.

Definition ret {A} (a : A) : M A := fun w => (Returns a, w).
Definition raise {A} (e : Exn) : M A := fun w => (Raises e, w).
Definition bind {A B} (m : M A) (k : A -> M B) : M B :=
  fun w => match m w with
           | (Returns a, w') => k a w'
           | (Raises e, w') => (Raises e, w')
           end.
Definition lift {A} (r : Result A) : M A := fun w => (r, w).

Notation "'let!' x ':=' m 'in' k" := (bind m (fun x => k))
  (at level 10, x name, m at level 100, k at level 200).
Notation "m1 ';;;' m2" := (bind m1 (fun _ => m2))
  (at level 100, m2 at level 200, right associativity).

(** [try: m  except <catches> as e: handler e] *)
Definition try_except {A} (m : M A) (catches : Exn -> bool) (handler : Exn -> M A) : M A :=
  fun w => match m w with
           | (Raises e, w') => if catches e then handler e w' else (Raises e, w')
           | r => r
           end.

(** The world after further events. *)
Definition extend (w : World) (evs : list Event) : World :=
  {| trace := trace w ++ evs; _metadata := _metadata w; top_frame := top_frame w |}.

Definition emit (e : Event) : M unit := fun w => (Returns tt, extend w [e]).

Definition time_sleep (secs : nat) : M unit := emit (EvSleep secs).
Definition logging_warning (msg : string) : M unit := emit (EvLog LogWarning msg).
Definition logging_exception (msg : string) : M unit := emit (EvLog LogException msg).

Definition get_metadata : M (option (gmap string PyVal)) :=
  fun w => (Returns (_metadata w), w).
Definition set_metadata (md : gmap string PyVal) : M unit :=
  fun w => (Returns tt, {| trace := trace w; _metadata := Some md;
                           top_frame := top_frame w |}).

(** ** Python string operations the client uses *)

Definition newline : string := String (ascii_of_nat 10) "".

(** [content.startswith(prefix)] *)
Definition startswith (content prefix : string) : bool := String.prefix prefix content.

(** [s[n:]] *)
Fixpoint slice_from (n : nat) (s : string) : string :=
  match n, s with
  | O, _ => s
  | S n', String _ rest => slice_from n' rest
  | S _, EmptyString => EmptyString
  end.

Definition upper_ascii (a : ascii) : ascii :=
  let n := nat_of_ascii a in
  if (97 <=? n)%nat && (n <=? 122)%nat then ascii_of_nat (n - 32) else a.

Definition lower_ascii (a : ascii) : ascii :=
  let n := nat_of_ascii a in
  if (65 <=? n)%nat && (n <=? 90)%nat then ascii_of_nat (n + 32) else a.

Fixpoint lower (s : string) : string :=
  match s with
  | EmptyString => EmptyString
  | String a rest => String (lower_ascii a) (lower rest)
  end.

(** [s.capitalize()] *)
Definition capitalize (s : string) : string :=
  match s with
  | EmptyString => EmptyString
  | String a rest => String (upper_ascii a) (lower rest)
  end.

Definition map_result {A B} (f : A -> B) (r : Result A) : Result B :=
  match r with
  | Returns a => Returns (f a)
  | Raises e => Raises e
  end.

(** [fmt % arg] with one [str] argument: [%s] takes the argument, [%%] is a
    literal percent sign.  Too few or too many [%s] raise [TypeError] as in
    Python.  The other conversions, which Python formats or rejects each in
    its own way, are outside this model and reported as [ValueError]: the
    properties below speak of formats on which the function returns. *)
Fixpoint percent_format (fmt : string) (arg : option string) : Result string :=
  match fmt with
  | EmptyString =>
      match arg with
      | None => Returns EmptyString
      | Some _ => Raises (TypeError "not all arguments converted during string formatting")
      end
  | String a rest =>
      if Ascii.eqb a "%" then
        match rest with
        | String b rest' =>
            if Ascii.eqb b "s" then
              match arg with
              | Some x => map_result (String.append x) (percent_format rest' None)
              | None => Raises (TypeError "not enough arguments for format string")
              end
            else if Ascii.eqb b "%" then
              map_result (String "%"%char) (percent_format rest' arg)
            else Raises (ValueError "unsupported format character")
        | EmptyString => Raises (ValueError "incomplete format")
        end
      else map_result (String a) (percent_format rest arg)
  end.

(** ** Collaborators outside this repository's sources *)

(** Result of [json.loads]: a value, or [ValueError] with its message. *)
Inductive Decoded :=
| Json (v : PyVal)
| Malformed (why : string).

(** Library functions the client calls: [util.JoinURL] of the client
    package, [urllib.quote], [urllib.urlencode] on a dictionary, and
    [json.loads]. *)
Class PyLib := {
  JoinURL : string -> list string -> string;
  urllib_quote : string -> string;
  urllib_urlencode : gmap string PyVal -> string;
  json_loads : string -> Decoded
}.

(** ** settings.py *)

Module settings.
Definition BITLOCKER_REQUIRED_PROPERTIES := ["hostname"; "cn"].
Definition DUPLICITY_REQUIRED_PROPERTIES := ["hostname"; "platform_uuid"].
Definition APPLE_FIRMWARE_REQUIRED_PROPERTIES := ["hostname"; "platform_uuid"; "serial"].
Definition LINUX_FIRMWARE_REQUIRED_PROPERTIES := ["hostname"; "machine_uuid"; "serial"].
Definition WINDOWS_FIRMWARE_REQUIRED_PROPERTIES := ["hostname"; "smbios_guid"; "serial"].
Definition FILEVAULT_REQUIRED_PROPERTIES := ["hdd_serial"; "platform_uuid"; "serial"].
Definition LUKS_REQUIRED_PROPERTIES := ["hdd_serial"; "platform_uuid"].
Definition PROVISIONING_REQUIRED_PROPERTIES := ["hdd_serial"; "platform_uuid"; "serial"].

Definition CHANGE_OWNER_ACTION := "ChangeOwner".
Definition GET_PASSPHRASE_ACTION := "RetrieveSecret".
Definition SET_PASSPHRASE_ACTION := "UploadPassphrase".
Definition MAINTENANCE_ACTION := "Maintenance".
End settings.

(** ** base_client.py *)

(** Prefix to prevent Cross Site Script Inclusion. *)
Definition JSON_PREFIX : string := ")]}'," +:+ newline.

(** The metadata key under which the passphrase is stored. *)
Definition PASSPHRASE_KEY : string := "passphrase".

Definition XSRF_PATH : string := "/xsrf-token/%s".

(** [httplib.NOT_FOUND] *)
Definition NOT_FOUND : Z := 404.

(** A client instance: the class attributes a subclass sets
    ([ESCROW_PATH], [REQUIRED_METADATA], [_GetMetadata]; [MAX_TRIES] and
    [TRY_DELAY_FACTOR] default to 5) and the attributes [__init__] stores.
    [headers] lists the pairs in the order [iteritems] yields them;
    [opener] answers a request given everything that happened before it. *)
Record Client := mkClient {
  ESCROW_PATH : string;
  REQUIRED_METADATA : list string;
  MAX_TRIES : nat;
  TRY_DELAY_FACTOR : nat;
  _GetMetadata : Result (gmap string PyVal);
  base_url : string;
  xsrf_url : string;
  escrow_url : string;
  opener : list Event -> Request -> Outcome;
  headers : list (string * string)
}.

(** [urllib2.Request(url)] *)
Definition Request_ (url : string) : Request :=
  {| req_method := GET; req_url := url; req_headers := ∅; req_data := None |}.

(** [request.add_header(k, v)] *)
Definition add_header (k v : string) (request : Request) : Request :=
  {| req_method := req_method request; req_url := req_url request;
     req_headers := <[capitalize k := v]> (req_headers request);
     req_data := req_data request |}.

(** [self.opener.open(request)] *)
Definition opener_open (self : Client) (request : Request) : M Response :=
  fun w =>
    let w' := extend w [EvOpen request] in
    match opener self (trace w) request with
    | Responds body => (Returns (mkResponse body), w')
    | FailsHTTP code msg body => (Raises (HTTPError code msg body), w')
    | FailsURL reason => (Raises (URLError reason), w')
    | FailsOther cls msg => (Raises (OtherException cls msg), w')
    end.

Section Client.
Context `{PyLib}.

(** [CauliflowerVestClient.__init__]; [ESCROW_PATH] is [None] in the base
    class. *)
Definition __init__ (ESCROW_PATH : option string) (REQUIRED_METADATA : list string)
    (MAX_TRIES TRY_DELAY_FACTOR : nat) (_GetMetadata : Result (gmap string PyVal))
    (base_url : string) (opener : list Event -> Request -> Outcome)
    (headers : list (string * string)) : Result Client :=
  match ESCROW_PATH with
  | None => Raises (ValueError "ESCROW_PATH must be set by CauliflowerVestClient subclasses.")
  | Some path =>
      Returns {| ESCROW_PATH := path; REQUIRED_METADATA := REQUIRED_METADATA;
                 MAX_TRIES := MAX_TRIES; TRY_DELAY_FACTOR := TRY_DELAY_FACTOR;
                 _GetMetadata := _GetMetadata;
                 base_url := base_url;
                 xsrf_url := JoinURL base_url [XSRF_PATH];
                 escrow_url := JoinURL base_url [path];
                 opener := opener; headers := headers |}
  end.

(** Is [e] an [HTTPError] with [400 <= e.code < 500]? *)
Definition is_4xx (e : Exn) : bool :=
  match e with
  | HTTPError code _ _ => (400 <=? code)%Z && (code <? 500)%Z
  | _ => false
  end.

(** One pass of the loop body of [_RetryRequest]: [Some response] is the
    function's [return], [None] falls through to the next [try_num]. *)
Definition retry_body (self : Client) (request : Request) (description : string)
    (retry_4xx : bool) (try_num : nat) : M (option Response) :=
  try_except
    (let! response := opener_open self request in ret (Some response))
    isinstance_URLError
    (fun e =>
       let e := if isinstance_HTTPError e then append_body e else e in
       (if is_4xx e && negb retry_4xx
        then raise (RequestError (description +:+ " failed: " +:+ str_of_exn e))
        else ret tt) ;;;
       (if Nat.eqb try_num (MAX_TRIES self - 1)
        then (logging_exception (description +:+ " failed permanently.") ;;;
              raise (RequestError (description +:+ " failed permanently: " +:+ str_of_exn e)))
        else ret tt) ;;;
       logging_warning (description +:+ " failed with (" +:+ str_of_exn e +:+ "). Retrying ...") ;;;
       time_sleep ((try_num + 1) * TRY_DELAY_FACTOR self) ;;;
       ret None).

Fixpoint retry_loop (self : Client) (request : Request) (description : string)
    (retry_4xx : bool) (tries : list nat) : M (option Response) :=
  match tries with
  | [] => ret None
  | try_num :: rest =>
      let! r := retry_body self request description retry_4xx try_num in
      match r with
      | Some response => ret (Some response)
      | None => retry_loop self request description retry_4xx rest
      end
  end.

(** [for k, v in self.headers.iteritems(): request.add_header(k, v)] *)
Definition add_headers (self : Client) (request : Request) : Request :=
  fold_left (fun r kv => add_header (fst kv) (snd kv) r) (headers self) request.

(** [_RetryRequest]: the result is [None] when [range(MAX_TRIES)] is
    empty and the function falls off its end. *)
Definition _RetryRequest (self : Client) (request : Request) (description : string)
    (retry_4xx : bool) : M (option Response) :=
  let request := add_headers self request in
  retry_loop self request description retry_4xx (seq 0 (MAX_TRIES self)).

Definition response_read (response : option Response) : M string :=
  match response with
  | Some r => ret (read r)
  | None => raise (AttributeError "'NoneType' object has no attribute 'read'")
  end.

Definition _FetchXsrfToken (self : Client) (action : string) : M string :=
  let! url := lift (percent_format (xsrf_url self) (Some action)) in
  let request := Request_ url in
  let! response := _RetryRequest self request "Fetching XSRF token" false in
  response_read response.

(** [data[key]] on a decoded JSON value; in an object the last pair with
    the key is the one [json.loads] keeps. *)
Fixpoint dict_get (key : string) (pairs : list (string * PyVal)) : option PyVal :=
  match pairs with
  | [] => None
  | (k, v) :: rest =>
      match dict_get key rest with
      | Some v' => Some v'
      | None => if String.eqb k key then Some v else None
      end
  end.

Definition getitem (data : PyVal) (key : string) : Result PyVal :=
  match data with
  | PyDict pairs =>
      match dict_get key pairs with
      | Some v => Returns v
      | None => Raises (KeyError key)
      end
  | PyList _ => Raises (TypeError "list indices must be integers, not str")
  | PyStr _ => Raises (TypeError "string indices must be integers")
  | _ => Raises (TypeError "object has no attribute '__getitem__'")
  end.

Definition loads (s : string) : Result PyVal :=
  match json_loads s with
  | Json v => Returns v
  | Malformed why => Raises (ValueError why)
  end.

(** The URL [RetrieveSecret] reads from. *)
Definition retrieve_url (self : Client) (target_id xsrf_token : string) : string :=
  JoinURL (escrow_url self) [urllib_quote target_id] +:+ "?" +:+
  urllib_urlencode {[ "xsrf-token" := PyStr xsrf_token ]}.

(** [RetrieveSecret] once it holds its token. *)
Definition retrieve_with (self : Client) (target_id xsrf_token : string) : M PyVal :=
  let url := retrieve_url self target_id xsrf_token in
  let request := Request_ url in
  let! response :=
    try_except (opener_open self request) isinstance_URLError
      (fun e =>
         let e := if isinstance_HTTPError e then append_body e else e in
         (match e with
          | HTTPError code _ _ =>
              if (code =? NOT_FOUND)%Z
              then raise (NotFoundError ("Failed to retrieve passphrase. " +:+ str_of_exn e))
              else ret tt
          | _ => ret tt
          end) ;;;
         raise (RequestError ("Failed to retrieve passphrase. " +:+ str_of_exn e))) in
  let content := read response in
  if negb (startswith content JSON_PREFIX)
  then raise (RequestError "Expected JSON prefix missing.")
  else
    let! data := lift (loads (slice_from (String.length JSON_PREFIX) content)) in
    lift (getitem data PASSPHRASE_KEY).

Definition RetrieveSecret (self : Client) (target_id : string) : M PyVal :=
  let! xsrf_token := _FetchXsrfToken self settings.GET_PASSPHRASE_ACTION in
  retrieve_with self target_id xsrf_token.

(** [not self._metadata]: unset, or an empty dictionary. *)
Definition metadata_falsy (md : option (gmap string PyVal)) : bool :=
  match md with
  | None => true
  | Some m => bool_decide (m = ∅)
  end.

(** [not self._metadata.get(key, None)] *)
Definition missing (md : gmap string PyVal) (key : string) : bool :=
  match md !! key with
  | Some v => negb (truthy v)
  | None => true
  end.

Fixpoint check_required (md : gmap string PyVal) (keys : list string) : M unit :=
  match keys with
  | [] => ret tt
  | key :: rest =>
      if missing md key
      then raise (MetadataError ("Required metadata is not found: " +:+ key))
      else check_required md rest
  end.

(** [self._metadata = self._GetMetadata()] *)
Definition load_metadata (self : Client) : M (gmap string PyVal) :=
  let! m := lift (_GetMetadata self) in
  set_metadata m ;;;
  ret m.

Definition GetAndValidateMetadata (self : Client) : M unit :=
  let! current := get_metadata in
  let! md :=
    match current with
    | Some m => if metadata_falsy current then load_metadata self else ret m
    | None => load_metadata self
    end in
  check_required md (REQUIRED_METADATA self).

Definition SetOwner (self : Client) (owner : string) : M unit :=
  let! current := get_metadata in
  (if metadata_falsy current then GetAndValidateMetadata self else ret tt) ;;;
  let! current := get_metadata in
  match current with
  | Some m => set_metadata (<["owner" := PyStr owner]> m)
  | None => raise (TypeError "'NoneType' object does not support item assignment")
  end.

(** The URL [IsKeyRotationNeeded] reads from. *)
Definition rekey_url (self : Client) (target_id tag : string) : string :=
  JoinURL (base_url self) ["/api/v1/rekey-required/"; ESCROW_PATH self; target_id]
  +:+ "?" +:+ urllib_urlencode {[ "tag" := PyStr tag ]}.

Definition IsKeyRotationNeeded (self : Client) (target_id tag : string) : M PyVal :=
  let url := rekey_url self target_id tag in
  let request := Request_ url in
  let! response :=
    try_except (opener_open self request) isinstance_URLError
      (fun e =>
         let e := if isinstance_HTTPError e then append_body e else e in
         raise (RequestError ("Failed to get status. " +:+ str_of_exn e))) in
  let content := read response in
  if negb (startswith content JSON_PREFIX)
  then raise (RequestError "Expected JSON prefix missing.")
  else lift (loads (slice_from (String.length JSON_PREFIX) content)).

(** [PutRequest(url, data=passphrase)]: the [Content-Type] header goes
    through [add_header] in [urllib2.Request.__init__]. *)
Definition PutRequest (url data : string) : Request :=
  add_header "Content-Type" "application/octet-stream"
    {| req_method := PUT; req_url := url; req_headers := ∅; req_data := Some data |}.

Definition upload_url (self : Client) (metadata : gmap string PyVal)
    (xsrf_token target_id : string) : string :=
  let parameters := metadata in
  let parameters := <["xsrf-token" := PyStr xsrf_token]> parameters in
  let parameters := <["volume_uuid" := PyStr target_id]> parameters in
  escrow_url self +:+ "?" +:+ urllib_urlencode parameters.

(** [UploadPassphrase] once it holds its token. *)
Definition upload_with (self : Client) (target_id passphrase : string)
    (retry_4xx : bool) (xsrf_token : string) : M unit :=
  let! current := get_metadata in
  (if metadata_falsy current then GetAndValidateMetadata self else ret tt) ;;;
  let! current := get_metadata in
  match current with
  | None => raise (AttributeError "'NoneType' object has no attribute 'copy'")
  | Some metadata =>
      let url := upload_url self metadata xsrf_token target_id in
      let request := PutRequest url passphrase in
      _RetryRequest self request "Uploading passphrase" retry_4xx ;;;
      ret tt
  end.

Definition UploadPassphrase (self : Client) (target_id passphrase : string)
    (retry_4xx : bool) : M unit :=
  let! xsrf_token := _FetchXsrfToken self settings.SET_PASSPHRASE_ACTION in
  upload_with self target_id passphrase retry_4xx xsrf_token.

End Client.

(** ** mac/tkinter.py: the two workflows that escrow a new passphrase *)

(** The [glue] module of the mac client, which is outside these sources
    (the messages it exports and the two volume operations, each free to
    act on the world and to raise [glue.Error]), and what a child process
    gives back to [RunProcess]: its output, its errors and its exit code. *)
Class Glue := {
  ESCROW_FAILED_MESSAGE : string;
  ENCRYPTION_FAILED_MESSAGE : string;
  ENCRYPTION_SUCCESS_MESSAGE : string;
  ApplyEncryption : Client -> string -> string -> M (string * string);
  UpdateEscrowPassphrase : string -> string -> M string;
  RunProcess_result : list string -> string * string * Z
}.

(** A window: the operator's name, the two entry fields, and what the
    subclass's [_Authenticate] does when given [self._EncryptAuth]. *)
Record Gui := mkGui {
  username : string;
  input_user : string;
  input_pass : string;
  _Authenticate : M (option Client)
}.

(** [needle in hay] on strings *)
Fixpoint contains (needle hay : string) : bool :=
  String.prefix needle hay ||
  match hay with
  | EmptyString => false
  | String _ rest => contains needle rest
  end.

Definition set_top_frame (f : list Widget) : M unit :=
  fun w => (Returns tt, {| trace := trace w; _metadata := _metadata w;
                           top_frame := Some f |}).

(** [widget.pack()] into the current top frame *)
Definition pack (x : Widget) : M unit :=
  fun w => (Returns tt, {| trace := trace w; _metadata := _metadata w;
                           top_frame := Some (default [] (top_frame w) ++ [x]) |}).

(** [_PrepTop]: the old frame is destroyed and a new one takes its place,
    with the message as its label when there is one. *)
Definition _PrepTop (message : option string) : M unit :=
  set_top_frame [] ;;;
  match message with
  | Some m => if negb (String.eqb m "")
              then (pack (Label m) ;;; emit EvUpdate)
              else ret tt
  | None => ret tt
  end.

Definition ShowFatalError (message : string) : M unit :=
  logging_exception message ;;;
  _PrepTop (Some message) ;;;
  pack (Button "OK" "quit").

Definition RunProcess `{Glue} (cmd : list string) : M (string * string * Z) :=
  emit (EvRunProcess cmd) ;;;
  ret (RunProcess_result cmd).

Section Workflows.
Context `{PyLib} `{Glue}.

Definition finder : string :=
  "/System/Library/CoreServices/Finder.app/Contents/MacOS/Finder" +:+ newline.

(** Action to encrypt an unencrypted volume.  Each [try] yields [None]
    where the source returns from inside its handler. *)
Definition _PlainVolumeAction (self : Gui) : M unit :=
  let user := input_user self in
  let passwd := input_pass self in
  let! client_ :=
    try_except (_Authenticate self) isinstance_glue_Error (fun _ => ret None) in
  match client_ with
  | None => ret tt
  | Some client_ =>
      _PrepTop (Some "Applying encryption...") ;;;
      let! applied :=
        try_except
          (let! r := ApplyEncryption client_ user passwd in ret (Some r))
          isinstance_glue_Error
          (fun _ => ShowFatalError ENCRYPTION_FAILED_MESSAGE ;;; ret None) in
      match applied with
      | None => ret tt
      | Some (volume_uuid, recovery_token) =>
          let! uploaded :=
            try_except
              (UploadPassphrase client_ volume_uuid recovery_token false ;;; ret true)
              isinstance_Error
              (fun _ => ShowFatalError ESCROW_FAILED_MESSAGE ;;; ret false) in
          if negb uploaded then ret tt
          else
            _PrepTop (Some ENCRYPTION_SUCCESS_MESSAGE) ;;;
            let! r := RunProcess ["ps"; "auwx"] in
            let '(process_list, _, rc) := r in
            if ((rc =? 0)%Z && negb (String.eqb process_list "")
                && contains finder process_list) || negb (rc =? 0)%Z
            then (pack (Button "Restart now" "_RestartNow") ;;;
                  emit (EvCountdownStart "_RestartNow"))
            else (pack (Button "OK" "quit") ;;;
                  emit (EvCountdownStart "quit"))
      end
  end.

(** Rotate the recovery key. *)
Definition _RotateRecoveryKey (self : Gui) (client_ : Client)
    (volume_uuid passwd : string) : M unit :=
  let! recovery_key :=
    try_except
      (let! k := UpdateEscrowPassphrase (username self) passwd in ret (Some k))
      isinstance_glue_Error
      (fun e => logging_warning (str_of_exn e) ;;;
                ShowFatalError (str_of_exn e) ;;; ret None) in
  match recovery_key with
  | None => ret tt
  | Some recovery_key =>
      let! uploaded :=
        try_except
          (UploadPassphrase client_ volume_uuid recovery_key false ;;; ret true)
          isinstance_Error
          (fun _ => ShowFatalError ESCROW_FAILED_MESSAGE ;;; ret false) in
      if negb uploaded then ret tt
      else
        _PrepTop (Some "Key rotated successfully.") ;;;
        pack (Button "OK" "quit")
  end.

End Workflows.

(** ** A library to run the client on

    An executable instance of [PyLib] for concrete runs: [JoinURL] joins
    parts with single slashes, [quote] and [urlencode] percent-encode, and
    the decoder reads the ASCII fragment of JSON (no [\u] escapes). *)
Module SampleLib.

Definition join_part (url part : string) : string :=
  let part := if startswith part "/" then slice_from 1 part else part in
  if String.eqb url "" || String.prefix "/" (String.rev url)
  then url +:+ part
  else url +:+ "/" +:+ part.

Definition JoinURL (base_url : string) (args : list string) : string :=
  fold_left join_part args base_url.

Definition hex_digit (n : nat) : ascii :=
  if (n <? 10)%nat then ascii_of_nat (48 + n) else ascii_of_nat (55 + n).

Definition always_safe (a : ascii) : bool :=
  let n := nat_of_ascii a in
  ((97 <=? n) && (n <=? 122) || (65 <=? n) && (n <=? 90) || (48 <=? n) && (n <=? 57)
   || (n =? 95) || (n =? 46) || (n =? 45))%nat.

Fixpoint quote_with (safe : ascii -> bool) (s : string) : string :=
  match s with
  | EmptyString => EmptyString
  | String a rest =>
      if always_safe a || safe a
      then String a (quote_with safe rest)
      else let n := nat_of_ascii a in
           String "%" (String (hex_digit (n / 16)) (String (hex_digit (n mod 16))
                                                       (quote_with safe rest)))
  end.

Definition quote (s : string) : string := quote_with (Ascii.eqb "/") s.

Fixpoint spaces_to_plus (s : string) : string :=
  match s with
  | EmptyString => EmptyString
  | String a rest => String (if Ascii.eqb a " " then "+"%char else a) (spaces_to_plus rest)
  end.

Definition quote_plus (s : string) : string :=
  spaces_to_plus (quote_with (Ascii.eqb " ") s).

Definition str_of_val (v : PyVal) : string :=
  match v with
  | PyStr s => s
  | PyInt z => pretty z
  | PyBool true => "True"
  | PyBool false => "False"
  | PyNone => "None"
  | _ => "?"
  end.

Definition urlencode (query : gmap string PyVal) : string :=
  String.concat "&"
    (map (fun kv => quote_plus (fst kv) +:+ "=" +:+ quote_plus (str_of_val (snd kv)))
         (map_to_list query)).

(** *** JSON decoder *)

Definition is_ws (a : ascii) : bool :=
  let n := nat_of_ascii a in
  ((n =? 32) || (n =? 9) || (n =? 10) || (n =? 13))%nat.

Fixpoint skip_ws (s : string) : string :=
  match s with
  | String a rest => if is_ws a then skip_ws rest else s
  | EmptyString => s
  end.

Definition head_is (c : ascii) (s : string) : option string :=
  match s with
  | String a rest => if Ascii.eqb a c then Some rest else None
  | EmptyString => None
  end.

Definition digit_of (a : ascii) : option Z :=
  let n := nat_of_ascii a in
  if ((48 <=? n) && (n <=? 57))%nat then Some (Z.of_nat (n - 48)) else None.

Fixpoint read_digits (s : string) (acc : Z) (count : nat) : Z * nat * string :=
  match s with
  | String a rest =>
      match digit_of a with
      | Some d => read_digits rest (acc * 10 + d)%Z (S count)
      | None => (acc, count, s)
      end
  | EmptyString => (acc, count, s)
  end.

Definition read_exponent (s : string) : option (Z * string) :=
  match s with
  | String a rest =>
      if Ascii.eqb a "e" || Ascii.eqb a "E" then
        let '(neg, rest) :=
          match head_is "-" rest, head_is "+" rest with
          | Some r, _ => (true, r)
          | None, Some r => (false, r)
          | None, None => (false, rest)
          end in
        let '(e, n, rest) := read_digits rest 0 0 in
        if (n =? 0)%nat then None else Some (if neg then (- e)%Z else e, rest)
      else None
  | EmptyString => None
  end.

Definition read_number (s : string) : option (PyVal * string) :=
  let '(neg, s1) := match head_is "-" s with Some r => (true, r) | None => (false, s) end in
  let sign (z : Z) := if neg then (- z)%Z else z in
  let '(i, n, s2) := read_digits s1 0 0 in
  if (n =? 0)%nat then None
  else
    let '(m, k, s3) :=
      match head_is "." s2 with
      | Some r => let '(m, k, r') := read_digits r i 0 in
                  if (k =? 0)%nat then (i, 0%nat, s2) else (m, k, r')
      | None => (i, 0%nat, s2)
      end in
    match read_exponent s3 with
    | Some (e, s4) => Some (PyFloat (sign m) (e - Z.of_nat k), s4)
    | None => if (k =? 0)%nat then Some (PyInt (sign i), s3)
              else Some (PyFloat (sign m) (- Z.of_nat k), s3)
    end.

Definition unescape (a : ascii) : option ascii :=
  let n := nat_of_ascii a in
  if (n =? 34)%nat || (n =? 92)%nat || (n =? 47)%nat then Some a
  else if (n =? 98)%nat then Some (ascii_of_nat 8)
  else if (n =? 102)%nat then Some (ascii_of_nat 12)
  else if (n =? 110)%nat then Some (ascii_of_nat 10)
  else if (n =? 114)%nat then Some (ascii_of_nat 13)
  else if (n =? 116)%nat then Some (ascii_of_nat 9)
  else None.

Definition push (a : ascii) (r : option (string * string)) : option (string * string) :=
  match r with
  | Some (x, rest) => Some (String a x, rest)
  | None => None
  end.

(** Reads a string literal after its opening quote. *)
Fixpoint read_string (s : string) : option (string * string) :=
  match s with
  | EmptyString => None
  | String a rest =>
      if (nat_of_ascii a =? 34)%nat then Some (EmptyString, rest)
      else if (nat_of_ascii a =? 92)%nat then
        match rest with
        | String c rest' =>
            match unescape c with
            | Some x => push x (read_string rest')
            | None => None
            end
        | EmptyString => None
        end
      else if (nat_of_ascii a <? 32)%nat then None
      else push a (read_string rest)
  end.

Definition quote_char : ascii := ascii_of_nat 34.

Fixpoint parse_value (fuel : nat) (s : string) {struct fuel} : option (PyVal * string) :=
  match fuel with
  | O => None
  | S fuel =>
      let s := skip_ws s in
      if String.prefix "null" s then Some (PyNone, slice_from 4 s)
      else if String.prefix "true" s then Some (PyBool true, slice_from 4 s)
      else if String.prefix "false" s then Some (PyBool false, slice_from 5 s)
      else match head_is quote_char s, head_is "[" s, head_is "{" s with
           | Some r, _, _ =>
               match read_string r with
               | Some (x, r') => Some (PyStr x, r')
               | None => None
               end
           | None, Some r, _ =>
               match head_is "]" (skip_ws r) with
               | Some r' => Some (PyList [], r')
               | None => match parse_items fuel r with
                         | Some (xs, r') => Some (PyList xs, r')
                         | None => None
                         end
               end
           | None, None, Some r =>
               match head_is "}" (skip_ws r) with
               | Some r' => Some (PyDict [], r')
               | None => match parse_members fuel r with
                         | Some (kvs, r') => Some (PyDict kvs, r')
                         | None => None
                         end
               end
           | None, None, None => read_number s
           end
  end
with parse_items (fuel : nat) (s : string) {struct fuel} : option (list PyVal * string) :=
  match fuel with
  | O => None
  | S fuel =>
      match parse_value fuel s with
      | Some (v, r) =>
          let r := skip_ws r in
          match head_is "," r, head_is "]" r with
          | Some r', _ =>
              match parse_items fuel r' with
              | Some (vs, r'') => Some (v :: vs, r'')
              | None => None
              end
          | None, Some r' => Some ([v], r')
          | None, None => None
          end
      | None => None
      end
  end
with parse_members (fuel : nat) (s : string) {struct fuel}
    : option (list (string * PyVal) * string) :=
  match fuel with
  | O => None
  | S fuel =>
      match head_is quote_char (skip_ws s) with
      | Some r =>
          match read_string r with
          | Some (k, r1) =>
              match head_is ":" (skip_ws r1) with
              | Some r2 =>
                  match parse_value fuel r2 with
                  | Some (v, r3) =>
                      let r3 := skip_ws r3 in
                      match head_is "," r3, head_is "}" r3 with
                      | Some r', _ =>
                          match parse_members fuel r' with
                          | Some (kvs, r'') => Some ((k, v) :: kvs, r'')
                          | None => None
                          end
                      | None, Some r' => Some ([(k, v)], r')
                      | None, None => None
                      end
                  | None => None
                  end
              | None => None
              end
          | None => None
          end
      | None => None
      end
  end.

Definition json_loads (s : string) : Decoded :=
  match parse_value (2 * String.length s + 2) s with
  | Some (v, rest) =>
      if String.eqb (skip_ws rest) "" then Json v
      else Malformed "Extra data"
  | None => Malformed "No JSON object could be decoded"
  end.

End SampleLib.

#[export] Instance sample_lib : PyLib := {
  JoinURL := SampleLib.JoinURL;
  urllib_quote := SampleLib.quote;
  urllib_urlencode := SampleLib.urlencode;
  json_loads := SampleLib.json_loads
}.

(** ** Reading a trace *)

Definition is_net (e : Event) : bool :=
  match e with
  | EvOpen _ | EvSleep _ => true
  | _ => false
  end.

(** The requests and sleeps of a trace, in order. *)
Definition net_events (t : list Event) : list Event := List.filter is_net t.

(** The durations slept, in order. *)
Definition sleeps (t : list Event) : list nat :=
  flat_map (fun e => match e with EvSleep n => [n] | _ => [] end) t.

(** The requests handed to the opener, in order. *)
Definition opens (t : list Event) : list Request :=
  flat_map (fun e => match e with EvOpen r => [r] | _ => [] end) t.

(** An outcome the retry loop answers with another attempt: a connection
    error, or an HTTP error that is not a 4xx (or any, under [retry_4xx]). *)
Definition retryable (retry_4xx : bool) (o : Outcome) : bool :=
  match o with
  | FailsURL _ => true
  | FailsHTTP code _ _ => negb ((400 <=? code)%Z && (code <? 500)%Z) || retry_4xx
  | _ => false
  end.

(** [str(e)] as the handlers format it, the body already appended. *)
Definition error_text (o : Outcome) : string :=
  match o with
  | FailsHTTP code msg body =>
      "HTTP Error " +:+ pretty code +:+ ": " +:+ msg +:+ ": " +:+ body
  | FailsURL reason => "<urlopen error " +:+ reason +:+ ">"
  | _ => ""
  end.

Section RetrySchedule.
Variable self : Client.
Variable request : Request.
Variable description : string.
Variable before : list Event.

(** One failed attempt [try_num] that is followed by another. *)
Definition round (history : list Event) (try_num : nat) : list Event :=
  [EvOpen request;
   EvLog LogWarning (description +:+ " failed with (" +:+
                     error_text (opener self history request) +:+ "). Retrying ...");
   EvSleep ((try_num + 1) * TRY_DELAY_FACTOR self)].

(** What happens after [before] while the first [n] attempts fail and are
    retried. *)
Fixpoint rounds (n : nat) : list Event :=
  match n with
  | O => []
  | S k => rounds k ++ round (before ++ rounds k) k
  end.

(** What the opener answers attempt [k] when all earlier ones were
    retried. *)
Definition attempt_outcome (k : nat) : Outcome :=
  opener self (before ++ rounds k) request.

(** [n] attempts from [try_num] on, a sleep between each two. *)
Fixpoint schedule (try_num n : nat) : list Event :=
  match n with
  | O => []
  | S n' =>
      EvOpen request ::
      match n' with
      | O => []
      | S _ => EvSleep ((try_num + 1) * TRY_DELAY_FACTOR self) :: schedule (S try_num) n'
      end
  end.

(** How one pass of the loop body of [_RetryRequest] can end. *)
Inductive pass (retry_4xx : bool) (try_num : nat) (w : World)
  : Result (option Response) * World -> Prop :=
| pass_success body :
    opener self (trace w) request = Responds body ->
    pass retry_4xx try_num w
      (Returns (Some (mkResponse body)), extend w [EvOpen request])
| pass_other cls msg :
    opener self (trace w) request = FailsOther cls msg ->
    pass retry_4xx try_num w
      (Raises (OtherException cls msg), extend w [EvOpen request])
| pass_4xx code msg body :
    opener self (trace w) request = FailsHTTP code msg body ->
    retryable retry_4xx (FailsHTTP code msg body) = false ->
    pass retry_4xx try_num w
      (Raises (RequestError (description +:+ " failed: " +:+
                             error_text (FailsHTTP code msg body))),
       extend w [EvOpen request])
| pass_retry :
    retryable retry_4xx (opener self (trace w) request) = true ->
    try_num <> MAX_TRIES self - 1 ->
    pass retry_4xx try_num w
      (Returns None, extend w (round (trace w) try_num))
| pass_last :
    retryable retry_4xx (opener self (trace w) request) = true ->
    try_num = MAX_TRIES self - 1 ->
    pass retry_4xx try_num w
      (Raises (RequestError (description +:+ " failed permanently: " +:+
                             error_text (opener self (trace w) request))),
       extend w [EvOpen request;
                 EvLog LogException (description +:+ " failed permanently.")]).
End RetrySchedule.

(** ** Clients and servers to run *)

Module Examples.

(** The facts of a machine that has all the FileVault properties. *)
Definition machine : gmap string PyVal :=
  {[ "hdd_serial" := PyStr "WD-1"; "platform_uuid" := PyStr "U-7";
     "serial" := PyStr "C02X" ]}.

(** A FileVault client of [https://cv.example.com], as [__init__] builds
    it from the base class defaults. *)
Definition new_client (opener : list Event -> Request -> Outcome)
    (metadata : Result (gmap string PyVal)) : Client :=
  {| ESCROW_PATH := "/filevault";
     REQUIRED_METADATA := settings.FILEVAULT_REQUIRED_PROPERTIES;
     MAX_TRIES := 5; TRY_DELAY_FACTOR := 5;
     _GetMetadata := metadata;
     base_url := "https://cv.example.com";
     xsrf_url := "https://cv.example.com/xsrf-token/%s";
     escrow_url := "https://cv.example.com/filevault";
     opener := opener; headers := [("authorization", "Bearer t0")] |}.

(** A server no connection reaches. *)
Definition down : list Event -> Request -> Outcome :=
  fun _ _ => FailsURL "timed out".

(** A server that refuses every request. *)
Definition forbidding : list Event -> Request -> Outcome :=
  fun _ _ => FailsHTTP 403 "Forbidden" "no access".

Definition is_token_request (r : Request) : bool :=
  String.prefix "https://cv.example.com/xsrf-token/" (req_url r).

(** A server that hands out the token ["tok"] and answers everything
    else with [other]. *)
Definition token_then (other : list Event -> Request -> Outcome)
    : list Event -> Request -> Outcome :=
  fun history r => if is_token_request r then Responds "tok" else other history r.


(** The escrow answers every read with [body]. *)
Definition answering (body : string) : list Event -> Request -> Outcome :=
  token_then (fun _ _ => Responds body).

Definition dq : string := String (ascii_of_nat 34) EmptyString.

(** The JSON object with the one member [passphrase]. *)
Definition passphrase_json (secret : string) : string :=
  "{" +:+ dq +:+ "passphrase" +:+ dq +:+ ": " +:+ dq +:+ secret +:+ dq +:+ "}".

(** The escrow fails every read once, with 503, and answers it with
    [body] when it is asked again. *)
Definition asked_before (r : Request) (history : list Event) : bool :=
  existsb (fun e => match e with
                    | EvOpen r' => String.eqb (req_url r') (req_url r)
                    | _ => false
                    end) history.

Definition flaky (body : string) : list Event -> Request -> Outcome :=
  token_then (fun history r =>
                if asked_before r history then Responds body
                else FailsHTTP 503 "Service Unavailable" "try later").

(** A server that takes the request and never answers: reading the
    response times out, and that exception is no [urllib2.URLError]. *)
Definition stalling : list Event -> Request -> Outcome :=
  fun _ _ => FailsOther "socket.timeout" "timed out".

(** The escrow hands out the token and then stalls on every read. *)
Definition stalling_reads : list Event -> Request -> Outcome :=
  token_then stalling.



End Examples.

(** ** Metadata in force *)

(** The dictionary [GetAndValidateMetadata] checks: the memoised one when
    it is set and not empty, else what [_GetMetadata] returns. *)
Definition effective_metadata (self : Client) (w : World)
    (md : gmap string PyVal) : Prop :=
  if metadata_falsy (_metadata w)
  then _GetMetadata self = Returns md
  else _metadata w = Some md.

(** The key is absent, or maps to an empty or otherwise falsy value. *)
Definition absent_or_falsy (md : gmap string PyVal) (key : string) : Prop :=
  md !! key = None \/ exists v, md !! key = Some v /\ truthy v = false.

(** ** The direct GETs, by answer *)

Section Answers.
Context `{PyLib}.

(** What [RetrieveSecret] makes of the opener's answer to its one GET. *)
Definition retrieved (o : Outcome) : Result PyVal :=
  match o with
  | Responds content =>
      if startswith content JSON_PREFIX
      then match json_loads (slice_from (String.length JSON_PREFIX) content) with
           | Json data => getitem data PASSPHRASE_KEY
           | Malformed why => Raises (ValueError why)
           end
      else Raises (RequestError "Expected JSON prefix missing.")
  | FailsHTTP code msg body =>
      if (code =? 404)%Z
      then Raises (NotFoundError ("Failed to retrieve passphrase. " +:+
                                  error_text (FailsHTTP code msg body)))
      else Raises (RequestError ("Failed to retrieve passphrase. " +:+
                                 error_text (FailsHTTP code msg body)))
  | FailsURL reason =>
      Raises (RequestError ("Failed to retrieve passphrase. " +:+
                            error_text (FailsURL reason)))
  | FailsOther cls msg => Raises (OtherException cls msg)
  end.

(** What [IsKeyRotationNeeded] makes of the opener's answer to its GET. *)
Definition rekey_status (o : Outcome) : Result PyVal :=
  match o with
  | Responds content =>
      if startswith content JSON_PREFIX
      then match json_loads (slice_from (String.length JSON_PREFIX) content) with
           | Json data => Returns data
           | Malformed why => Raises (ValueError why)
           end
      else Raises (RequestError "Expected JSON prefix missing.")
  | FailsHTTP _ _ _ | FailsURL _ =>
      Raises (RequestError ("Failed to get status. " +:+ error_text o))
  | FailsOther cls msg => Raises (OtherException cls msg)
  end.
End Answers.

(** ** What escapes the token fetch *)

(** The exceptions [_FetchXsrfToken] can raise: [RequestError] from the
    retry loop, what the opener raises outside [URLError], an error of
    [self.xsrf_url % action], and [AttributeError] on a [None] response. *)
Definition fetch_error (e : Exn) : bool :=
  match e with
  | RequestError _ | OtherException _ _ | TypeError _ | ValueError _
  | AttributeError _ => true
  | _ => false
  end.

(** ** Token requests *)

(** [r] asks the token endpoint for a token scoped to [action]. *)
Definition token_request (self : Client) (action : string) (r : Request) : Prop :=
  exists url, percent_format (xsrf_url self) (Some action) = Returns url /\
              req_url r = url.

(** What may escape [RetrieveSecret] and [IsKeyRotationNeeded] besides the
    client's own errors: what the token fetch lets through, and what
    decoding the body and the lookup of the passphrase raise. *)
Definition raw_error (e : Exn) : bool :=
  match e with
  | OtherException _ _ | TypeError _ | ValueError _ | AttributeError _
  | KeyError _ => true
  | _ => false
  end.

(** ** What the operator is shown *)

(** The top frame [ShowFatalError] leaves. *)
Definition fatal_screen (message : string) : list Widget :=
  (if negb (String.eqb message "") then [Label message] else []) ++
  [Button "OK" "quit"].

(** The events [ShowFatalError] adds. *)
Definition fatal_events (message : string) : list Event :=
  EvLog LogException message ::
  (if negb (String.eqb message "") then [EvUpdate] else []).

(** The messages logged as exceptions, in order. *)
Definition logged_exceptions (t : list Event) : list string :=
  flat_map (fun e => match e with EvLog LogException m => [m] | _ => [] end) t.

(** A [glue] module to run the workflows on: encryption and key rotation
    succeed. *)
#[export] Instance sample_glue : Glue := {
  ESCROW_FAILED_MESSAGE := "Escrow of the recovery key failed.";
  ENCRYPTION_FAILED_MESSAGE := "Encryption was not enabled.";
  ENCRYPTION_SUCCESS_MESSAGE := "Encryption enabled.";
  ApplyEncryption := fun _ _ _ => ret ("vol-1", "recovery-1");
  UpdateEscrowPassphrase := fun _ _ => ret "recovery-2";
  RunProcess_result := fun _ => ("", "", 0%Z)
}.

(** A window whose operator is authenticated as a client of [opener]. *)
Definition sample_gui (opener : list Event -> Request -> Outcome) : Gui :=
  {| username := "kim"; input_user := "kim"; input_pass := "pw";
     _Authenticate := ret (Some (Examples.new_client opener (Returns Examples.machine))) |}.

(** ** Further readings of answers and formats *)

(** The opener raised a [urllib2.URLError]: a connection error or an HTTP
    error of any status. *)
Definition is_url_error (o : Outcome) : bool :=
  match o with
  | FailsURL _ | FailsHTTP _ _ _ => true
  | _ => false
  end.

(** No percent sign in [s]. *)
Fixpoint no_percent (s : string) : bool :=
  match s with
  | EmptyString => true
  | String a rest => negb (Ascii.eqb a "%") && no_percent rest
  end.

(** The query parameters of the upload: the metadata, then the token, then
    the volume. *)
Definition upload_parameters (metadata : gmap string PyVal)
    (xsrf_token target_id : string) : gmap string PyVal :=
  <["volume_uuid" := PyStr target_id]> (<["xsrf-token" := PyStr xsrf_token]> metadata).

(** The world with its memoised metadata replaced. *)
Definition with_metadata (w : World) (md : gmap string PyVal) : World :=
  {| trace := trace w; _metadata := Some md; top_frame := top_frame w |}.

(** ** mac/tkinter.py: Countdown *)

Module Countdown.

(** What the countdown thread does, in order: it sets the text of its
    label, sleeps, and at the end calls its termination callback. *)
Inductive Step :=
| SetText (text : string)
| Sleep (secs : nat)
| Terminate.

(** The attributes [__init__] stores; [original_text] is the text the label
    had then. *)
Record t := mk {
  seconds : Z;
  original_text : string
}.

(** [range(start, 0, -1)] *)
Definition range_down (start : Z) : list Z :=
  map (fun k => (start - Z.of_nat k)%Z) (seq 0 (Z.to_nat start)).

Definition run (self : t) : list Step :=
  flat_map (fun remaining =>
              [SetText (original_text self +:+ " (" +:+ pretty remaining +:+ ")");
               Sleep 1])
           (range_down (seconds self))
  ++ [Terminate].

(** The texts the label is given, in order. *)
Definition texts (steps : list Step) : list string :=
  flat_map (fun s => match s with SetText t => [t] | _ => [] end) steps.

(** The seconds slept in all. *)
Definition slept (steps : list Step) : nat :=
  list_sum (flat_map (fun s => match s with Sleep n => [n] | _ => [] end) steps).

End Countdown.

(** ** base_client.py: GetOauthCredentials *)

Module OAuth.

Record Credentials := mkCredentials { access_token : string }.

(** What the function does to the outside, in order. *)
Inductive Step :=
| StartRedirectServer
| OpenBrowser (url : string)
| HandleRequest
| Exchange (redirect_uri : string)
| LogInfo (msg : string).

(** The two settings, and what [oauth2client] and the operator supply: the
    address the redirect server got, the authorize URL of the flow for a
    redirect URI, the query the redirect handler received, and the result
    of exchanging it. *)
Record Env := mkEnv {
  OAUTH_CLIENT_ID : string;
  OAUTH_CLIENT_SECRET : string;
  server_address : string * Z;
  step1_get_authorize_url : string -> string;
  query_params : gmap string string;
  step2_exchange : gmap string string -> Result Credentials
}.

(** [settings.OAUTH_CLIENT_ID] as [settings.py] has it. *)
Definition settings_OAUTH_CLIENT_ID : string := "".

Definition RuntimeError (msg : string) : Exn := OtherException "RuntimeError" msg.

(** [isinstance(e, RuntimeError)]: [NotImplementedError] subclasses it. *)
Definition isinstance_RuntimeError (e : Exn) : bool :=
  match e with
  | OtherException cls _ => String.eqb cls "RuntimeError"
  | NotImplementedError => true
  | _ => false
  end.

Definition isinstance_FlowExchangeError (e : Exn) : bool :=
  match e with
  | OtherException cls _ => String.eqb cls "FlowExchangeError"
  | _ => false
  end.

(** ['http://%s:%s/' % httpd.server_address] *)
Definition redirect_uri (env : Env) : string :=
  "http://" +:+ fst (server_address env) +:+ ":" +:+ pretty (snd (server_address env))
  +:+ "/".

Definition GetOauthCredentials (env : Env) : Result Credentials * list Step :=
  if String.eqb (OAUTH_CLIENT_ID env) ""
  then (Raises (RuntimeError "Missing OAUTH_CLIENT_ID setting!"), [])
  else if String.eqb (OAUTH_CLIENT_SECRET env) ""
  then (Raises (RuntimeError "Missing OAUTH_CLIENT_SECRET setting!"), [])
  else
    let steps := [StartRedirectServer;
                  OpenBrowser (step1_get_authorize_url env (redirect_uri env));
                  HandleRequest] in
    match query_params env !! "error" with
    | Some _ =>
        (Raises (AuthenticationError "Authentication request was rejected."), steps)
    | None =>
        match step2_exchange env (query_params env) with
        | Raises e =>
            if isinstance_FlowExchangeError e
            then (Raises (AuthenticationError
                            ("Authentication has failed: " +:+ str_of_exn e)),
                  steps ++ [Exchange (redirect_uri env)])
            else (Raises e, steps ++ [Exchange (redirect_uri env)])
        | Returns credentials =>
            (Returns credentials,
             steps ++ [Exchange (redirect_uri env); LogInfo "Authentication successful!"])
        end
    end.

End OAuth.

(** ** mac/tkinter.py: GuiOauth._Authenticate *)

(** A new client object has no metadata yet. *)
Definition new_object : M unit :=
  fun w => (Returns tt, {| trace := trace w; _metadata := None; top_frame := top_frame w |}).

(** [GuiOauth._Authenticate].  [BuildOauth2Opener], which sets up [ssl]
    and [urllib2] objects, and the [FileVaultClient] class of the mac
    client come as functions; [error_func] is the callback the caller
    passes.  The steps of [GetOauthCredentials] on the browser are its own
    record, not part of the world's trace. *)
Definition GuiOauth_Authenticate (env : OAuth.Env)
    (BuildOauth2Opener : OAuth.Credentials -> list Event -> Request -> Outcome)
    (FileVaultClient : string -> (list Event -> Request -> Outcome) -> Client)
    (server_url : string) (error_func : string -> M unit) : M (option Client) :=
  _PrepTop (Some "Logging in...") ;;;
  let! credentials :=
    try_except
      (let! c := lift (fst (OAuth.GetOauthCredentials env)) in ret (Some c))
      (fun e => OAuth.isinstance_RuntimeError e ||
                match e with AuthenticationError _ => true | _ => false end)
      (fun e => error_func (str_of_exn e) ;;; ret None) in
  match credentials with
  | None => ret None
  | Some credentials =>
      let opener := BuildOauth2Opener credentials in
      let client_ := FileVaultClient server_url opener in
      new_object ;;;
      let! validated :=
        try_except
          (GetAndValidateMetadata client_ ;;; ret true)
          (fun e => match e with MetadataError _ => true | _ => false end)
          (fun e => error_func (str_of_exn e) ;;; ret false) in
      if validated then ret (Some client_) else ret None
  end.

(** * Properties *)

(** ** The world only grows *)

Lemma extend_nil w : extend w [] = w.
Proof. destruct w; unfold extend; simpl. by rewrite app_nil_r. Qed.

Lemma extend_extend w a b : extend (extend w a) b = extend w (a ++ b).
Proof. unfold extend; simpl. by rewrite <- app_assoc. Qed.

Lemma trace_extend w a : trace (extend w a) = trace w ++ a.
Proof. reflexivity. Qed.

Lemma net_events_app a b : net_events (a ++ b) = net_events a ++ net_events b.
Proof. apply List.filter_app. Qed.

Lemma sleeps_net_events t : sleeps (net_events t) = sleeps t.
Proof.
  induction t as [|e t IH]; [done|].
  destruct e; simpl; rewrite ?IH; reflexivity.
Qed.

Lemma opens_net_events t : opens (net_events t) = opens t.
Proof.
  induction t as [|e t IH]; [done|].
  destruct e; simpl; rewrite ?IH; reflexivity.
Qed.

(** ** One pass of the retry loop *)

Section RetryBody.
Variable self : Client.
Variable request : Request.
Variable description : string.

Lemma retry_body_success try_num retry_4xx w body :
  opener self (trace w) request = Responds body ->
  retry_body self request description retry_4xx try_num w
  = (Returns (Some (mkResponse body)), extend w [EvOpen request]).
Proof.
  intros Ho. unfold retry_body, try_except, bind, opener_open, ret.
  by rewrite Ho.
Qed.

Lemma retry_body_other try_num retry_4xx w cls msg :
  opener self (trace w) request = FailsOther cls msg ->
  retry_body self request description retry_4xx try_num w
  = (Raises (OtherException cls msg), extend w [EvOpen request]).
Proof.
  intros Ho. unfold retry_body, try_except, bind, opener_open, ret.
  by rewrite Ho.
Qed.

Lemma retry_body_4xx try_num w code msg body :
  opener self (trace w) request = FailsHTTP code msg body ->
  (400 <= code < 500)%Z ->
  retry_body self request description false try_num w
  = (Raises (RequestError (description +:+ " failed: " +:+
                           error_text (FailsHTTP code msg body))),
     extend w [EvOpen request]).
Proof.
  intros Ho Hc. unfold retry_body, try_except, bind, opener_open, ret.
  rewrite Ho; simpl.
  assert ((400 <=? code)%Z && (code <? 500)%Z = true) as ->.
  { apply andb_true_iff; split; [apply Z.leb_le | apply Z.ltb_lt]; lia. }
  reflexivity.
Qed.

Lemma retry_body_retry try_num retry_4xx w :
  retryable retry_4xx (opener self (trace w) request) = true ->
  try_num <> MAX_TRIES self - 1 ->
  retry_body self request description retry_4xx try_num w
  = (Returns None, extend w (round self request description (trace w) try_num)).
Proof.
  intros Hr Hn. unfold retry_body, try_except, bind, opener_open, ret, round.
  apply Nat.eqb_neq in Hn.
  destruct (opener self (trace w) request) as [b|code msg body|reason|c m] eqn:Ho;
    simpl in Hr; try discriminate; simpl.
  - destruct ((400 <=? code)%Z && (code <? 500)%Z); simpl in *.
    + subst retry_4xx; simpl. rewrite Hn; simpl.
      unfold logging_warning, time_sleep, emit; simpl.
      by rewrite !extend_extend.
    + rewrite Hn; simpl.
      unfold logging_warning, time_sleep, emit; simpl.
      by rewrite !extend_extend.
  - rewrite Hn; simpl.
    unfold logging_warning, time_sleep, emit; simpl.
    by rewrite !extend_extend.
Qed.

Lemma retry_body_last try_num retry_4xx w :
  retryable retry_4xx (opener self (trace w) request) = true ->
  try_num = MAX_TRIES self - 1 ->
  retry_body self request description retry_4xx try_num w
  = (Raises (RequestError (description +:+ " failed permanently: " +:+
                           error_text (opener self (trace w) request))),
     extend w [EvOpen request;
               EvLog LogException (description +:+ " failed permanently.")]).
Proof.
  intros Hr Hn. unfold retry_body, try_except, bind, opener_open, ret.
  apply Nat.eqb_eq in Hn.
  destruct (opener self (trace w) request) as [b|code msg body|reason|c m] eqn:Ho;
    simpl in Hr; try discriminate; simpl.
  - destruct ((400 <=? code)%Z && (code <? 500)%Z); simpl in *.
    + subst retry_4xx; simpl. rewrite Hn; simpl.
      unfold logging_exception, emit, raise; simpl.
      by rewrite !extend_extend.
    + rewrite Hn; simpl.
      unfold logging_exception, emit, raise; simpl.
      by rewrite !extend_extend.
  - rewrite Hn; simpl.
    unfold logging_exception, emit, raise; simpl.
    by rewrite !extend_extend.
Qed.
End RetryBody.

(** ** The loop *)

Section RetryLoop.
Variable self : Client.
Variable request : Request.
Variable description : string.

Local Abbreviation body := (retry_body self request description).
Local Abbreviation loop := (retry_loop self request description).

Lemma retry_loop_cons retry_4xx try_num rest w :
  loop retry_4xx (try_num :: rest) w =
  match body retry_4xx try_num w with
  | (Returns (Some response), w') => (Returns (Some response), w')
  | (Returns None, w') => loop retry_4xx rest w'
  | (Raises e, w') => (Raises e, w')
  end.
Proof.
  simpl. unfold bind at 1.
  destruct (body retry_4xx try_num w) as [[[r|]|e] w']; reflexivity.
Qed.

Lemma retry_body_pass retry_4xx try_num w :
  pass self request description retry_4xx try_num w (body retry_4xx try_num w).
Proof.
  destruct (opener self (trace w) request) as [b|code msg b|reason|c m] eqn:Ho.
  - rewrite (retry_body_success _ _ _ _ _ _ _ Ho). by constructor.
  - destruct (retryable retry_4xx (FailsHTTP code msg b)) eqn:Hr.
    + destruct (Nat.eq_dec try_num (MAX_TRIES self - 1)) as [He|Hne].
      * rewrite retry_body_last by (rewrite ?Ho; done).
        apply pass_last; rewrite ?Ho; done.
      * rewrite retry_body_retry by (rewrite ?Ho; done).
        apply pass_retry; rewrite ?Ho; done.
    + simpl in Hr. apply orb_false_iff in Hr as [Hc ->].
      apply negb_false_iff, andb_true_iff in Hc as [H1 H2].
      apply Z.leb_le in H1. apply Z.ltb_lt in H2.
      rewrite (retry_body_4xx _ _ _ _ _ _ _ _ Ho) by lia.
      eapply pass_4xx; [done|]. simpl.
      apply orb_false_iff; split; [|done].
      apply negb_false_iff, andb_true_iff; split; [apply Z.leb_le|apply Z.ltb_lt]; lia.
  - destruct (Nat.eq_dec try_num (MAX_TRIES self - 1)) as [He|Hne].
    + rewrite retry_body_last by (rewrite ?Ho; done).
      apply pass_last; rewrite ?Ho; done.
    + rewrite retry_body_retry by (rewrite ?Ho; done).
      apply pass_retry; rewrite ?Ho; done.
  - rewrite (retry_body_other _ _ _ _ _ _ _ _ Ho). by constructor.
Qed.
End RetryLoop.

Section RetryRuns.
Variable self : Client.
Variable request : Request.
Variable description : string.

Local Abbreviation body := (retry_body self request description).
Local Abbreviation loop := (retry_loop self request description).

(** While attempts fail and are retried, the loop runs through [rounds]. *)
Lemma retry_loop_rounds retry_4xx w n :
  n < MAX_TRIES self ->
  (forall k, k < n ->
     retryable retry_4xx (attempt_outcome self request description (trace w) k) = true) ->
  loop retry_4xx (seq 0 (MAX_TRIES self)) w
  = loop retry_4xx (seq n (MAX_TRIES self - n))
      (extend w (rounds self request description (trace w) n)).
Proof.
  induction n as [|n IH]; intros Hlt Hall.
  - simpl. by rewrite Nat.sub_0_r, extend_nil.
  - rewrite IH by (try lia; intros; apply Hall; lia).
    replace (MAX_TRIES self - n) with (S (MAX_TRIES self - S n)) by lia.
    cbn [seq]. rewrite retry_loop_cons.
    rewrite retry_body_retry; [| apply (Hall n); lia | lia].
    rewrite extend_extend. reflexivity.
Qed.

Lemma net_events_round h k :
  net_events (round self request description h k)
  = [EvOpen request; EvSleep ((k + 1) * TRY_DELAY_FACTOR self)].
Proof. reflexivity. Qed.

(** The shape of every run: a number of attempts, a sleep between each
    two, nothing else on the network. *)
Lemma retry_loop_shape retry_4xx len : forall a w,
  a + len = MAX_TRIES self ->
  exists n delta,
    n <= len /\ (0 < len -> 0 < n) /\
    snd (loop retry_4xx (seq a len) w) = extend w delta /\
    net_events delta = schedule self request a n.
Proof.
  induction len as [|len IH]; intros a w Hsum.
  - exists 0, []. simpl. rewrite extend_nil. repeat split; auto; lia.
  - cbn [seq]. rewrite retry_loop_cons.
    destruct (retry_body_pass self request description retry_4xx a w)
      as [b Ho|c m Ho|code msg b Ho Hr|Hr Hne|Hr He].
    1-3: exists 1, [EvOpen request]; repeat split; auto; lia.
    + destruct (IH (S a) (extend w (round self request description (trace w) a)))
        as (n & delta & Hn & Hpos & Hw & Hnet); [lia|].
      assert (0 < len) as Hlen by lia. specialize (Hpos Hlen).
      exists (S n), (round self request description (trace w) a ++ delta).
      repeat split; [lia | lia | |].
      * rewrite Hw. apply extend_extend.
      * rewrite net_events_app, net_events_round, Hnet.
        destruct n; [lia|]. reflexivity.
    + exists 1, [EvOpen request;
                 EvLog LogException (description +:+ " failed permanently.")].
      repeat split; auto; lia.
Qed.

(** A response comes from the last request of the run. *)
Lemma retry_loop_returns retry_4xx tries : forall w response w',
  loop retry_4xx tries w = (Returns (Some response), w') ->
  exists delta,
    w' = extend w (delta ++ [EvOpen request]) /\
    opener self (trace w ++ delta) request = Responds (read response) /\
    Forall (fun r => r = request) (opens delta).
Proof.
  induction tries as [|t tries IH]; intros w response w' Hrun.
  - discriminate.
  - rewrite retry_loop_cons in Hrun.
    destruct (retry_body_pass self request description retry_4xx t w)
      as [b Ho|c m Ho|code msg b Ho Hr|Hr Hne|Hr He]; try discriminate.
    + injection Hrun as <- <-. exists []. rewrite app_nil_r. by repeat split.
    + apply IH in Hrun as (delta & -> & Ho & Hall).
      exists (round self request description (trace w) t ++ delta).
      rewrite extend_extend, <- app_assoc. split; [done|].
      split; [by rewrite trace_extend, <- app_assoc in Ho|].
      unfold opens in *. rewrite flat_map_app. simpl. by constructor.
Qed.

(** Whatever the run does, it only extends the trace, and every request
    in the extension is [request]. *)
Lemma retry_loop_extends retry_4xx tries : forall w,
  exists delta,
    snd (loop retry_4xx tries w) = extend w delta /\
    Forall (fun r => r = request) (opens delta).
Proof.
  induction tries as [|t tries IH]; intros w.
  - exists []. simpl. rewrite extend_nil. by split.
  - rewrite retry_loop_cons.
    destruct (retry_body_pass self request description retry_4xx t w)
      as [b Ho|c m Ho|code msg b Ho Hr|Hr Hne|Hr He].
    1-3: exists [EvOpen request]; split; [done | by repeat constructor].
    + destruct (IH (extend w (round self request description (trace w) t)))
        as (delta & Hw & Hall).
      exists (round self request description (trace w) t ++ delta).
      rewrite Hw, extend_extend. split; [done|].
      unfold opens in *. rewrite flat_map_app. simpl. by constructor.
    + eexists. split; [done | by repeat constructor].
Qed.

(** The loop raises nothing but [RequestError] and what the opener raises
    outside [URLError]. *)
Lemma retry_loop_raises retry_4xx tries : forall w e w',
  loop retry_4xx tries w = (Raises e, w') ->
  (exists msg, e = RequestError msg) \/ (exists cls msg, e = OtherException cls msg).
Proof.
  induction tries as [|t tries IH]; intros w e w' Hrun.
  - discriminate.
  - rewrite retry_loop_cons in Hrun.
    destruct (retry_body_pass self request description retry_4xx t w)
      as [b Ho|c m Ho|code msg b Ho Hr|Hr Hne|Hr He]; try discriminate.
    + injection Hrun as <- <-. right; eauto.
    + injection Hrun as <- <-. left; eauto.
    + eauto.
    + injection Hrun as <- <-. left; eauto.
Qed.

(** When every attempt fails and is retried, the last one raises. *)
Lemma retry_loop_exhausted retry_4xx w m :
  MAX_TRIES self = S m ->
  (forall k, k <= m ->
     retryable retry_4xx (attempt_outcome self request description (trace w) k) = true) ->
  loop retry_4xx (seq 0 (MAX_TRIES self)) w
  = (Raises (RequestError (description +:+ " failed permanently: " +:+
               error_text (attempt_outcome self request description (trace w) m))),
     extend w (rounds self request description (trace w) m ++
               [EvOpen request;
                EvLog LogException (description +:+ " failed permanently.")])).
Proof.
  intros Hmax Hall.
  rewrite (retry_loop_rounds retry_4xx w m) by (try lia; intros; apply Hall; lia).
  replace (MAX_TRIES self - m) with 1 by lia.
  cbn [seq]. rewrite retry_loop_cons.
  rewrite retry_body_last; [| apply (Hall m); lia | simpl; lia].
  by rewrite extend_extend.
Qed.
End RetryRuns.

Example init_builds_new_client o md :
  __init__ (Some "/filevault") settings.FILEVAULT_REQUIRED_PROPERTIES 5 5 md
           "https://cv.example.com" o [("authorization", "Bearer t0")]
  = Returns (Examples.new_client o md).
Proof. reflexivity. Qed.

(** ** The schedule of a run *)

Section Schedule.
Variable self : Client.
Variable request : Request.
Variable description : string.

Local Abbreviation step :=
  (fun k => [EvOpen request; EvSleep ((k + 1) * TRY_DELAY_FACTOR self)]).

Lemma net_events_rounds before n :
  net_events (rounds self request description before n) = flat_map step (seq 0 n).
Proof.
  induction n as [|n IH]; [done|].
  cbn [rounds]. rewrite net_events_app, IH, seq_S, flat_map_app. reflexivity.
Qed.

Lemma schedule_flat_map n : forall a,
  schedule self request a (S n) = flat_map step (seq a n) ++ [EvOpen request].
Proof.
  induction n as [|n IH]; intros a; [done|].
  change (schedule self request a (S (S n)))
    with (EvOpen request :: EvSleep ((a + 1) * TRY_DELAY_FACTOR self)
            :: schedule self request (S a) (S n)).
  by rewrite IH.
Qed.

Lemma net_events_exhausted before m :
  net_events (rounds self request description before m ++
              [EvOpen request;
               EvLog LogException (description +:+ " failed permanently.")])
  = schedule self request 0 (S m).
Proof. by rewrite net_events_app, net_events_rounds, schedule_flat_map. Qed.

Lemma retry_loop_starts retry_4xx t rest w :
  exists delta,
    snd (retry_loop self request description retry_4xx (t :: rest) w)
    = extend w (EvOpen request :: delta).
Proof.
  rewrite retry_loop_cons.
  destruct (retry_body_pass self request description retry_4xx t w)
    as [b Ho|c m Ho|code msg b Ho Hr|Hr Hne|Hr He].
  1-3: by exists [].
  - destruct (retry_loop_extends self request description retry_4xx rest
                (extend w (round self request description (trace w) t)))
      as (delta & -> & _).
    rewrite extend_extend. eexists. reflexivity.
  - eexists. reflexivity.
Qed.
End Schedule.

(** ** The retry transport *)

(** C1, as amended. [_RetryRequest] with [retry_4xx=False] retries the
    failures the opener raises as [urllib2.URLError], or as [HTTPError]
    with a status outside [400, 500): at most [MAX_TRIES] attempts are
    made, with a sleep only between two attempts; such a failure on attempt
    [n] is followed by a sleep of [(n+1) * TRY_DELAY_FACTOR] seconds and
    then the next attempt; when all [MAX_TRIES] attempts fail so, the call
    raises [RequestError] with the text [failed permanently] and the last
    error; and with 5 tries and factor 5 against connection errors the
    sleeps are 5, 10, 15 and 20 seconds.  A failure the opener raises
    outside [URLError] is not retried: it leaves the call as it is, after
    that attempt and without a sleep. *)
Theorem retry_request_backoff (self : Client) (request : Request)
    (description : string) (w : World) :
  let sent := add_headers self request in
  let run := _RetryRequest self request description false w in
  let outcome := attempt_outcome self sent description (trace w) in
  (forall o,
     retryable false o = true <->
     (exists reason, o = FailsURL reason) \/
     (exists code msg body, o = FailsHTTP code msg body /\ ~ (400 <= code < 500)%Z)) /\
  (forall n cls msg,
     n < MAX_TRIES self ->
     (forall k, k < n -> retryable false (outcome k) = true) ->
     outcome n = FailsOther cls msg ->
     run = (Raises (OtherException cls msg),
            extend w (rounds self sent description (trace w) n ++ [EvOpen sent]))) /\
  (exists n delta,
     n <= MAX_TRIES self /\ snd run = extend w delta /\
     net_events delta = schedule self sent 0 n) /\
  (forall n,
     S n < MAX_TRIES self ->
     (forall k, k <= n -> retryable false (outcome k) = true) ->
     exists rest,
       trace (snd run) =
       trace w ++ rounds self sent description (trace w) n ++
       [EvOpen sent;
        EvLog LogWarning (description +:+ " failed with (" +:+
                          error_text (outcome n) +:+ "). Retrying ...");
        EvSleep ((n + 1) * TRY_DELAY_FACTOR self);
        EvOpen sent] ++ rest) /\
  (forall m,
     MAX_TRIES self = S m ->
     (forall k, k <= m -> retryable false (outcome k) = true) ->
     fst run = Raises (RequestError (description +:+ " failed permanently: " +:+
                                     error_text (outcome m))) /\
     exists delta,
       snd run = extend w delta /\
       net_events delta = schedule self sent 0 (MAX_TRIES self)) /\
  (MAX_TRIES self = 5 -> TRY_DELAY_FACTOR self = 5 ->
   (forall k, k < 5 -> exists reason, outcome k = FailsURL reason) ->
   exists delta reason,
     snd run = extend w delta /\
     sleeps delta = [5; 10; 15; 20] /\
     length (opens delta) = 5 /\
     fst run = Raises (RequestError (description +:+ " failed permanently: " +:+
                                     "<urlopen error " +:+ reason +:+ ">"))).
Proof.
  intros sent run outcome.
  assert (forall m,
     MAX_TRIES self = S m ->
     (forall k, k <= m -> retryable false (outcome k) = true) ->
     fst run = Raises (RequestError (description +:+ " failed permanently: " +:+
                                     error_text (outcome m))) /\
     exists delta,
       snd run = extend w delta /\
       net_events delta = schedule self sent 0 (MAX_TRIES self)) as Hexhaust.
  { intros m Hmax Hall. subst run. unfold _RetryRequest. fold sent.
    rewrite (retry_loop_exhausted self sent description false w m Hmax Hall).
    split; [done|]. eexists. split; [reflexivity|].
    rewrite Hmax. apply net_events_exhausted. }
  split; [|split; [|split; [|split; [|split]]]].
  - intros o. destruct o as [b|code msg b|reason|cls msg]; cbn [retryable].
    + split; [discriminate | intros [[? [=]]|(? & ? & ? & [=] & _)]].
    + rewrite orb_false_r, negb_true_iff, andb_false_iff, Z.leb_gt, Z.ltb_ge. split.
      * intros Hc. right. exists code, msg, b. split; [done | lia].
      * intros [[? [=]]|(? & ? & ? & [= <- _ _] & Hc)]. lia.
    + split; [intros _; left; by eexists | done].
    + split; [discriminate | intros [[? [=]]|(? & ? & ? & [=] & _)]].
  - intros n cls msg Hlt Hall Ho. subst run. unfold _RetryRequest. fold sent.
    rewrite (retry_loop_rounds self sent description false w n Hlt Hall).
    replace (MAX_TRIES self - n) with (S (MAX_TRIES self - S n)) by lia.
    cbn [seq]. rewrite retry_loop_cons.
    rewrite (retry_body_other self sent description n false
               (extend w (rounds self sent description (trace w) n)) cls msg Ho).
    by rewrite extend_extend.
  - subst run. unfold _RetryRequest. fold sent.
    destruct (retry_loop_shape self sent description false (MAX_TRIES self) 0 w)
      as (n & delta & Hn & _ & Hw & Hnet); [done|].
    by exists n, delta.
  - intros n Hlt Hall. subst run. unfold _RetryRequest. fold sent.
    rewrite (retry_loop_rounds self sent description false w (S n))
      by (try lia; intros; apply Hall; lia).
    replace (MAX_TRIES self - S n) with (S (MAX_TRIES self - S (S n))) by lia.
    cbn [seq].
    destruct (retry_loop_starts self sent description false (S n)
                (seq (S (S n)) (MAX_TRIES self - S (S n)))
                (extend w (rounds self sent description (trace w) (S n))))
      as (delta & ->).
    exists delta. rewrite extend_extend, trace_extend. cbn [rounds].
    unfold round. rewrite <- !app_assoc. reflexivity.
  - exact Hexhaust.
  - intros Hmax Hf Hall.
    assert (forall k, k <= 4 -> retryable false (outcome k) = true) as Hretry.
    { intros k Hk. destruct (Hall k) as [reason ->]; [lia | done]. }
    destruct (Hexhaust 4 Hmax Hretry) as (Hres & delta & Hw & Hnet).
    destruct (Hall 4) as [reason Hlast]; [lia|].
    exists delta, reason. split; [done|].
    rewrite <- (sleeps_net_events delta), <- (opens_net_events delta), Hnet, Hmax.
    cbn [schedule sleeps opens flat_map app]. rewrite Hf.
    split; [reflexivity|]. split; [reflexivity|].
    rewrite Hres, Hlast. reflexivity.
Qed.

Lemma retry_request_backoff_witness :
  let self := Examples.new_client Examples.down (Returns Examples.machine) in
  let run := _RetryRequest self (Request_ "https://cv.example.com/filevault")
               "Uploading passphrase" false world0 in
  sleeps (trace (snd run)) = [5; 10; 15; 20] /\
  length (opens (trace (snd run))) = 5 /\
  fst run = Raises (RequestError
    "Uploading passphrase failed permanently: <urlopen error timed out>").
Proof.
  intros self run.
  destruct (retry_request_backoff self (Request_ "https://cv.example.com/filevault")
              "Uploading passphrase" world0) as (_ & _ & _ & _ & _ & Hdefault).
  destruct Hdefault as (delta & reason & Hw & Hs & Ho & Hr).
  - reflexivity.
  - reflexivity.
  - intros k _. exists "timed out". reflexivity.
  - subst run. rewrite Hw. simpl. rewrite Hs, Ho. split; [done|]. split; [done|].
    vm_compute. reflexivity.
Defined.

(** C1 as stated fails on a failure that is no [URLError]: when reading
    the response times out, the call with five tries at hand makes one
    attempt, sleeps for nothing and raises no [RequestError]; the timeout
    itself comes out. *)
Lemma timeout_outside_urlerror_is_not_retried :
  let self := Examples.new_client Examples.stalling (Returns Examples.machine) in
  let request := Request_ "https://cv.example.com/filevault" in
  let run := _RetryRequest self request "Uploading passphrase" false world0 in
  MAX_TRIES self = 5 /\
  opener self [] (add_headers self request) = FailsOther "socket.timeout" "timed out" /\
  fst run = Raises (OtherException "socket.timeout" "timed out") /\
  opens (trace (snd run)) = [add_headers self request] /\
  sleeps (trace (snd run)) = [].
Proof. vm_compute. repeat split; reflexivity. Qed.

(** C2. [_RetryRequest] with [retry_4xx=False]: a response with a status in
    [400, 500) ends the call at once with [RequestError] carrying the status
    and the body; no sleep and no attempt follows it.  Met on the first
    attempt, the run is that one request and nothing else. *)
Theorem retry_request_4xx_fails_at_once (self : Client) (request : Request)
    (description : string) (w : World) (n : nat) (code : Z) (msg body : string) :
  let sent := add_headers self request in
  let outcome := attempt_outcome self sent description (trace w) in
  n < MAX_TRIES self ->
  (forall k, k < n -> retryable false (outcome k) = true) ->
  outcome n = FailsHTTP code msg body ->
  (400 <= code < 500)%Z ->
  _RetryRequest self request description false w
  = (Raises (RequestError (description +:+ " failed: HTTP Error " +:+ pretty code
                           +:+ ": " +:+ msg +:+ ": " +:+ body)),
     extend w (rounds self sent description (trace w) n ++ [EvOpen sent])) /\
  (n = 0 ->
   opens (trace (snd (_RetryRequest self request description false w)))
   = opens (trace w) ++ [sent] /\
   sleeps (trace (snd (_RetryRequest self request description false w)))
   = sleeps (trace w)).
Proof.
  intros sent outcome Hlt Hall Ho Hcode.
  assert (_RetryRequest self request description false w
    = (Raises (RequestError (description +:+ " failed: HTTP Error " +:+ pretty code
                             +:+ ": " +:+ msg +:+ ": " +:+ body)),
       extend w (rounds self sent description (trace w) n ++ [EvOpen sent]))) as Hrun.
  { unfold _RetryRequest. fold sent.
    rewrite (retry_loop_rounds self sent description false w n Hlt Hall).
    replace (MAX_TRIES self - n) with (S (MAX_TRIES self - S n)) by lia.
    cbn [seq]. rewrite retry_loop_cons.
    rewrite (retry_body_4xx self sent description n _ code msg body); [| exact Ho | exact Hcode].
    by rewrite extend_extend. }
  split; [exact Hrun|].
  intros ->. rewrite Hrun. simpl.
  unfold opens, sleeps. rewrite !flat_map_app. simpl. by rewrite app_nil_r.
Qed.

Lemma retry_request_4xx_fails_at_once_witness :
  let self := Examples.new_client Examples.forbidding (Returns Examples.machine) in
  let request := Request_ "https://cv.example.com/xsrf-token/UploadPassphrase" in
  0 < MAX_TRIES self /\
  attempt_outcome self (add_headers self request) "Fetching XSRF token" [] 0
  = FailsHTTP 403 "Forbidden" "no access" /\
  (400 <= 403 < 500)%Z /\
  _RetryRequest self request "Fetching XSRF token" false world0
  = (Raises (RequestError
       "Fetching XSRF token failed: HTTP Error 403: Forbidden: no access"),
     extend world0 [EvOpen (add_headers self request)]).
Proof.
  intros self request.
  split; [simpl; lia|]. split; [reflexivity|]. split; [lia|].
  apply (retry_request_4xx_fails_at_once self request "Fetching XSRF token" world0 0
           403 "Forbidden" "no access"); [simpl; lia | intros k Hk; lia | reflexivity | lia].
Defined.

(** ** Metadata validation *)

Lemma missing_absent_or_falsy md key :
  missing md key = true <-> absent_or_falsy md key.
Proof.
  unfold missing, absent_or_falsy. destruct (md !! key) as [v|].
  - rewrite negb_true_iff. split.
    + intros Hv. right. by exists v.
    + intros [?|(v' & [= <-] & Hv)]; done.
  - split; auto.
Qed.

Lemma check_required_first md keys : forall w,
  snd (check_required md keys w) = w /\
  ((fst (check_required md keys w) = Returns tt /\
    Forall (fun k => missing md k = false) keys) \/
   (exists earlier key later,
      keys = earlier ++ key :: later /\
      Forall (fun k => missing md k = false) earlier /\
      missing md key = true /\
      fst (check_required md keys w)
      = Raises (MetadataError ("Required metadata is not found: " +:+ key)))).
Proof.
  induction keys as [|key keys IH]; intros w.
  - split; [done|]. left. by split.
  - cbn [check_required]. destruct (missing md key) eqn:Hk.
    + split; [done|]. right. exists [], key, keys. by repeat split.
    + destruct (IH w) as [Hw [[Hok Hall]|(earlier & k & later & -> & Hall & Hmiss & Hres)]].
      * split; [done|]. left. split; [done|]. by constructor.
      * split; [done|]. right. exists (key :: earlier), k, later.
        repeat split; [by constructor | done | done].
Qed.

Lemma check_required_world md keys w w' :
  fst (check_required md keys w) = fst (check_required md keys w').
Proof.
  induction keys as [|key keys IH]; [done|].
  cbn [check_required]. by destruct (missing md key).
Qed.

Lemma GetAndValidateMetadata_checks self w md :
  effective_metadata self w md ->
  fst (GetAndValidateMetadata self w)
  = fst (check_required md (REQUIRED_METADATA self) w).
Proof.
  unfold effective_metadata, GetAndValidateMetadata, bind, get_metadata, load_metadata.
  destruct (_metadata w) as [m|] eqn:Hm; simpl.
  - destruct (bool_decide (m = ∅)).
    + intros ->. unfold bind, lift, set_metadata, ret. simpl.
      apply check_required_world.
    + intros [= ->]. reflexivity.
  - intros ->. unfold bind, lift, set_metadata, ret. simpl.
    apply check_required_world.
Qed.

(** C3. [GetAndValidateMetadata] raises [MetadataError] exactly when a
    required key is absent from the metadata or maps to an empty or falsy
    value, and the error names the first such key in the order of
    [REQUIRED_METADATA]; with [hostname] = "h1" and [serial] = "" under
    the required list [hostname, serial] it names [serial]. *)
Theorem metadata_validation (self : Client) (w : World) (md : gmap string PyVal) :
  effective_metadata self w md ->
  let result := fst (GetAndValidateMetadata self w) in
  ((exists msg, result = Raises (MetadataError msg)) <->
   (exists key, In key (REQUIRED_METADATA self) /\ absent_or_falsy md key)) /\
  (forall msg,
     result = Raises (MetadataError msg) ->
     exists earlier key later,
       REQUIRED_METADATA self = earlier ++ key :: later /\
       Forall (fun k => ~ absent_or_falsy md k) earlier /\
       absent_or_falsy md key /\
       msg = "Required metadata is not found: " +:+ key) /\
  ((forall key, In key (REQUIRED_METADATA self) -> ~ absent_or_falsy md key) ->
   result = Returns tt) /\
  (REQUIRED_METADATA self = ["hostname"; "serial"] ->
   md !! "hostname" = Some (PyStr "h1") ->
   md !! "serial" = Some (PyStr "") ->
   result = Raises (MetadataError "Required metadata is not found: serial")).
Proof.
  intros Heff result. subst result.
  rewrite (GetAndValidateMetadata_checks self w md Heff).
  assert (forall keys, Forall (fun k => missing md k = false) keys ->
                       Forall (fun k => ~ absent_or_falsy md k) keys) as Hnot.
  { intros keys HF. eapply List.Forall_impl; [|exact HF]. intros k Hk Habs.
    apply missing_absent_or_falsy in Habs. congruence. }
  destruct (check_required_first md (REQUIRED_METADATA self) w)
    as [_ [[Hok Hall]|(earlier & key & later & Hkeys & Hall & Hmiss & Hres)]].
  - rewrite Hok. apply Hnot in Hall. rewrite List.Forall_forall in Hall.
    split; [|split; [|split]].
    + split; [intros [? [=]]|]. intros (key & Hin & Habs). by destruct (Hall key Hin).
    + intros ? [=].
    + done.
    + intros Hreq _ Hserial. exfalso. apply (Hall "serial").
      * rewrite Hreq. simpl. auto.
      * right. by exists (PyStr "").
  - rewrite Hres. apply missing_absent_or_falsy in Hmiss.
    split; [|split; [|split]].
    + split; [|by eauto]. intros _. exists key. split; [|done].
      rewrite Hkeys. apply in_or_app. right. by left.
    + intros msg [= <-]. exists earlier, key, later. repeat split; auto.
    + intros Hnone. exfalso. apply (Hnone key); [|done].
      rewrite Hkeys. apply in_or_app. right. by left.
    + intros Hreq Hhost Hserial. do 3 f_equal.
      rewrite Hreq in Hkeys.
      destruct earlier as [|k1 [|k2 earlier]].
      * injection Hkeys as <- _. exfalso.
        destruct Hmiss as [Hn|(v & Hv & Ht)]; [congruence|].
        rewrite Hhost in Hv. by injection Hv as <-.
      * by injection Hkeys as _ <- _.
      * injection Hkeys as _ _ Hkeys. by destruct earlier.
Qed.

Lemma metadata_validation_witness :
  let self := {| ESCROW_PATH := "/filevault";
                 REQUIRED_METADATA := ["hostname"; "serial"];
                 MAX_TRIES := 5; TRY_DELAY_FACTOR := 5;
                 _GetMetadata :=
                   Returns {[ "hostname" := PyStr "h1"; "serial" := PyStr "";
                              "owner" := PyStr "kim" ]};
                 base_url := "https://cv.example.com";
                 xsrf_url := "https://cv.example.com/xsrf-token/%s";
                 escrow_url := "https://cv.example.com/filevault";
                 opener := Examples.down; headers := [] |} in
  let md : gmap string PyVal :=
    {[ "hostname" := PyStr "h1"; "serial" := PyStr ""; "owner" := PyStr "kim" ]} in
  effective_metadata self world0 md /\
  fst (GetAndValidateMetadata self world0)
  = Raises (MetadataError "Required metadata is not found: serial").
Proof.
  intros self md.
  assert (effective_metadata self world0 md) as Heff by reflexivity.
  split; [exact Heff|].
  destruct (metadata_validation self world0 md Heff) as (_ & _ & _ & Hcase).
  apply Hcase; [reflexivity | vm_compute; reflexivity | vm_compute; reflexivity].
Defined.

(** ** Sequencing *)

Lemma bind_returns {A B} (m : M A) (k : A -> M B) w a w1 :
  m w = (Returns a, w1) -> bind m k w = k a w1.
Proof. intros Hm. unfold bind. by rewrite Hm. Qed.

Lemma bind_raises {A B} (m : M A) (k : A -> M B) w e w1 :
  m w = (Raises e, w1) -> bind m k w = (Raises e, w1).
Proof. intros Hm. unfold bind. by rewrite Hm. Qed.

(** ** Strings *)

Lemma append_cons a p rest : String a p +:+ rest = String a (p +:+ rest).
Proof. reflexivity. Qed.

Lemma prefix_app p rest : String.prefix p (p +:+ rest) = true.
Proof.
  induction p as [|a p IH]; [by destruct rest|].
  rewrite append_cons. cbn [String.prefix].
  destruct (ascii_dec a a); [exact IH | congruence].
Qed.

Lemma slice_from_app p rest : slice_from (String.length p) (p +:+ rest) = rest.
Proof.
  induction p as [|a p IH]; [by destruct rest|].
  rewrite append_cons. exact IH.
Qed.


(** ** Lookup in a decoded object *)

Lemma dict_get_absent key pairs :
  Forall (fun kv => fst kv <> key) pairs -> dict_get key pairs = None.
Proof.
  induction pairs as [|[k v] pairs IH]; [done|].
  intros Hall. inversion Hall as [|? ? Hk Hrest]; subst. cbn [dict_get].
  rewrite IH by done. simpl in Hk. apply String.eqb_neq in Hk. by rewrite Hk.
Qed.


(** ** RetrieveSecret *)

Section Retrieve.
Context `{PyLib}.
Variable self : Client.
Variable target_id : string.

Lemma retrieve_with_run token w :
  let request := Request_ (retrieve_url self target_id token) in
  retrieve_with self target_id token w
  = (retrieved (opener self (trace w) request), extend w [EvOpen request]).
Proof.
  intros request. unfold retrieve_with. fold request.
  unfold bind at 1. unfold try_except, opener_open.
  destruct (opener self (trace w) request) as [content|code msg body|reason|cls msg];
    simpl; try reflexivity.
  - destruct (startswith content JSON_PREFIX); simpl; [|reflexivity].
    unfold bind, lift, loads.
    destruct (json_loads _); reflexivity.
  - unfold NOT_FOUND. destruct (code =? 404)%Z; reflexivity.
Qed.

Lemma RetrieveSecret_run w token w1 :
  _FetchXsrfToken self settings.GET_PASSPHRASE_ACTION w = (Returns token, w1) ->
  let request := Request_ (retrieve_url self target_id token) in
  RetrieveSecret self target_id w
  = (retrieved (opener self (trace w1) request), extend w1 [EvOpen request]).
Proof.
  intros Htok request. unfold RetrieveSecret.
  rewrite (bind_returns _ _ _ _ _ Htok). apply retrieve_with_run.
Qed.


End Retrieve.



(** ** The token fetch *)

Lemma add_headers_method self request :
  req_method (add_headers self request) = req_method request.
Proof.
  unfold add_headers. generalize (headers self). intros hs. revert request.
  induction hs as [|kv hs IH]; intros request; [done|].
  simpl. by rewrite IH.
Qed.

Lemma add_headers_url self request :
  req_url (add_headers self request) = req_url request.
Proof.
  unfold add_headers. generalize (headers self). intros hs. revert request.
  induction hs as [|kv hs IH]; intros request; [done|].
  simpl. by rewrite IH.
Qed.

Lemma RetryRequest_raises self request description retry_4xx w e w' :
  _RetryRequest self request description retry_4xx w = (Raises e, w') ->
  (exists msg, e = RequestError msg) \/ (exists cls msg, e = OtherException cls msg).
Proof. apply retry_loop_raises. Qed.

Lemma percent_format_raises fmt : forall arg e,
  percent_format fmt arg = Raises e -> fetch_error e = true.
Proof.
  assert (forall (f : string -> string) (r : Result string) e,
            (forall e', r = Raises e' -> fetch_error e' = true) ->
            map_result f r = Raises e -> fetch_error e = true) as Hmap.
  { intros f [s|e'] e He; [discriminate|]. intros [= <-]. by apply He. }
  cut ((forall arg e, percent_format fmt arg = Raises e -> fetch_error e = true) /\
       (forall a arg e, percent_format (String a fmt) arg = Raises e ->
                        fetch_error e = true)); [tauto|].
  induction fmt as [|b fmt [IH1 IH2]].
  - split.
    + intros [x|] e; [|discriminate]. by intros [= <-].
    + intros a arg e. cbn [percent_format].
      destruct (Ascii.eqb a "%"); [by intros [= <-]|].
      apply Hmap. intros e'. destruct arg; [|discriminate]. by intros [= <-].
  - split; [apply IH2|].
    intros a arg e. cbn [percent_format]. fold (percent_format fmt).
    destruct (Ascii.eqb a "%").
    + destruct (Ascii.eqb b "s").
      * destruct arg; [|by intros [= <-]]. apply Hmap, IH1.
      * destruct (Ascii.eqb b "%"); [apply Hmap, IH1 | by intros [= <-]].
    + apply Hmap. intros e'. apply IH2.
Qed.

Lemma FetchXsrfToken_returns self action w token w1 :
  _FetchXsrfToken self action w = (Returns token, w1) ->
  exists url before,
    percent_format (xsrf_url self) (Some action) = Returns url /\
    w1 = extend w (before ++ [EvOpen (add_headers self (Request_ url))]) /\
    opener self (trace w ++ before) (add_headers self (Request_ url)) = Responds token /\
    Forall (fun r => r = add_headers self (Request_ url)) (opens before).
Proof.
  unfold _FetchXsrfToken, bind at 1, lift.
  destruct (percent_format (xsrf_url self) (Some action)) as [url|e]; [|discriminate].
  unfold bind, _RetryRequest.
  destruct (retry_loop self (add_headers self (Request_ url)) "Fetching XSRF token"
              false (seq 0 (MAX_TRIES self)) w) as [[[response|]|e] w2] eqn:Hrun;
    simpl; try discriminate.
  intros [= <- <-].
  apply retry_loop_returns in Hrun as (before & -> & Ho & Hall).
  by exists url, before.
Qed.

Lemma FetchXsrfToken_raises self action w e w1 :
  _FetchXsrfToken self action w = (Raises e, w1) ->
  fetch_error e = true.
Proof.
  unfold _FetchXsrfToken, bind at 1, lift.
  destruct (percent_format (xsrf_url self) (Some action)) as [url|e0] eqn:Hfmt.
  - unfold bind.
    destruct (_RetryRequest self (Request_ url) "Fetching XSRF token" false w)
      as [[[response|]|e1] w2] eqn:Hrun; simpl; try discriminate.
    + by intros [= <- <-].
    + intros [= <- <-].
      by apply RetryRequest_raises in Hrun as [[msg ->]|(cls & msg & ->)].
  - intros [= <- <-]. by apply percent_format_raises in Hfmt.
Qed.

(** ** Validation leaves the network alone *)

Lemma check_required_pure md keys w : snd (check_required md keys w) = w.
Proof.
  induction keys as [|key keys IH]; [done|].
  cbn [check_required]. by destruct (missing md key).
Qed.

Lemma GetAndValidateMetadata_trace self w :
  trace (snd (GetAndValidateMetadata self w)) = trace w.
Proof.
  unfold GetAndValidateMetadata, bind at 1, get_metadata.
  assert (forall w0, trace w0 = trace w ->
            trace (snd (bind (load_metadata self)
                          (fun md => check_required md (REQUIRED_METADATA self)) w0))
            = trace w) as Hload.
  { intros w0 Hw0. unfold bind, load_metadata, lift, set_metadata, ret.
    destruct (_GetMetadata self) as [m|e]; simpl; [|done].
    by rewrite check_required_pure. }
  destruct (_metadata w) as [m|]; [|by apply Hload].
  destruct (metadata_falsy (Some m)); [by apply Hload|].
  unfold bind, ret. simpl. by rewrite check_required_pure.
Qed.

(** ** UploadPassphrase *)

Section UploadOrder.
Context `{PyLib}.

(** C10. [UploadPassphrase] fetches its XSRF token before it gathers and
    validates metadata: when it raises [MetadataError] the token request has
    been sent and answered, validation ran in the world the fetch left, and
    no PUT was sent: every request of the call is the GET of the token. *)
Theorem upload_metadata_error_follows_token_fetch (self : Client)
    (target_id passphrase : string) (retry_4xx : bool) (w w' : World) (msg : string) :
  UploadPassphrase self target_id passphrase retry_4xx w
  = (Raises (MetadataError msg), w') ->
  exists token url before,
    percent_format (xsrf_url self) (Some "UploadPassphrase") = Returns url /\
    let fetch := add_headers self (Request_ url) in
    let w1 := extend w (before ++ [EvOpen fetch]) in
    _FetchXsrfToken self settings.SET_PASSPHRASE_ACTION w = (Returns token, w1) /\
    opener self (trace w ++ before) fetch = Responds token /\
    GetAndValidateMetadata self w1 = (Raises (MetadataError msg), w') /\
    trace w' = trace w ++ before ++ [EvOpen fetch] /\
    req_method fetch = GET /\
    Forall (fun r => r = fetch) (opens (before ++ [EvOpen fetch])).
Proof.
  intros Hrun. unfold UploadPassphrase in Hrun.
  destruct (_FetchXsrfToken self settings.SET_PASSPHRASE_ACTION w)
    as [[token|e] w1] eqn:Hfetch.
  2:{ rewrite (bind_raises _ _ _ _ _ Hfetch) in Hrun. injection Hrun as -> _.
      by apply FetchXsrfToken_raises in Hfetch. }
  rewrite (bind_returns _ _ _ _ _ Hfetch) in Hrun.
  destruct (FetchXsrfToken_returns _ _ _ _ _ Hfetch) as (url & before & Hfmt & -> & Ho & Hall).
  exists token, url, before. split; [exact Hfmt|]. cbn zeta.
  set (fetch := add_headers self (Request_ url)) in *.
  set (w1 := extend w (before ++ [EvOpen fetch])) in *.
  split; [done|]. split; [exact Ho|].
  assert (GetAndValidateMetadata self w1 = (Raises (MetadataError msg), w')) as Hval.
  { unfold upload_with, bind at 1, get_metadata in Hrun.
    assert (forall md w2, _metadata w2 = Some md ->
              bind (_RetryRequest self
                      (PutRequest (upload_url self md token target_id) passphrase)
                      "Uploading passphrase" retry_4xx) (fun _ => ret tt) w2
              <> (Raises (MetadataError msg), w')) as Hput.
    { intros md w2 _ Hbad. unfold bind in Hbad.
      destruct (_RetryRequest self _ _ _ w2) as [[r|e] w3] eqn:Hretry; [discriminate|].
      injection Hbad as -> _.
      by apply RetryRequest_raises in Hretry as [[? [=]]|(? & ? & [=])]. }
    destruct (metadata_falsy (_metadata w1)).
    - unfold bind at 1 in Hrun.
      destruct (GetAndValidateMetadata self w1) as [[[]|e] w2] eqn:Hv.
      + exfalso. unfold bind at 1, get_metadata in Hrun.
        destruct (_metadata w2) as [md|] eqn:Hmd; [|discriminate].
        by apply (Hput md w2 Hmd).
      + by injection Hrun as -> ->.
    - exfalso. unfold bind at 1, ret in Hrun. unfold bind at 1, get_metadata in Hrun.
      destruct (_metadata w1) as [md|] eqn:Hmd; [|discriminate].
      by apply (Hput md w1 Hmd). }
  split; [exact Hval|].
  split.
  { pose proof (GetAndValidateMetadata_trace self w1) as Ht.
    rewrite Hval in Ht. simpl in Ht. rewrite Ht. reflexivity. }
  split.
  { subst fetch. by rewrite add_headers_method. }
  unfold opens in *. rewrite flat_map_app. apply Forall_app. split; [exact Hall|].
  by repeat constructor.
Qed.
End UploadOrder.

Lemma upload_metadata_error_follows_token_fetch_witness :
  let self := Examples.new_client (Examples.answering "")
                (Returns {[ "hdd_serial" := PyStr "WD-1"; "serial" := PyStr "C02X" ]}) in
  let run := UploadPassphrase self "vol-1" "p1" false world0 in
  run = (Raises (MetadataError "Required metadata is not found: platform_uuid"), snd run) /\
  exists token url before,
    percent_format (xsrf_url self) (Some "UploadPassphrase") = Returns url /\
    let fetch := add_headers self (Request_ url) in
    let w1 := extend world0 (before ++ [EvOpen fetch]) in
    _FetchXsrfToken self settings.SET_PASSPHRASE_ACTION world0 = (Returns token, w1) /\
    opener self (trace world0 ++ before) fetch = Responds token /\
    GetAndValidateMetadata self w1
    = (Raises (MetadataError "Required metadata is not found: platform_uuid"), snd run) /\
    trace (snd run) = trace world0 ++ before ++ [EvOpen fetch] /\
    req_method fetch = GET /\
    Forall (fun r => r = fetch) (opens (before ++ [EvOpen fetch])).
Proof.
  intros self run.
  assert (run = (Raises (MetadataError "Required metadata is not found: platform_uuid"),
                 snd run)) as Hrun by (vm_compute; reflexivity).
  split; [exact Hrun|].
  exact (upload_metadata_error_follows_token_fetch self "vol-1" "p1" false world0
           (snd run) "Required metadata is not found: platform_uuid" Hrun).
Defined.

(** ** How the operations start *)

Lemma RetryRequest_starts self request description retry_4xx w :
  0 < MAX_TRIES self ->
  exists rest,
    snd (_RetryRequest self request description retry_4xx w)
    = extend w (EvOpen (add_headers self request) :: rest).
Proof.
  intros Hmax. unfold _RetryRequest.
  replace (MAX_TRIES self) with (S (MAX_TRIES self - 1)) by lia. cbn [seq].
  apply retry_loop_starts.
Qed.

Lemma RetryRequest_retries self request description retry_4xx w :
  1 < MAX_TRIES self ->
  retryable retry_4xx (opener self (trace w) (add_headers self request)) = true ->
  exists rest,
    snd (_RetryRequest self request description retry_4xx w)
    = extend w (round self (add_headers self request) description (trace w) 0 ++
                EvOpen (add_headers self request) :: rest).
Proof.
  intros Hmax Hr. unfold _RetryRequest.
  rewrite (retry_loop_rounds self (add_headers self request) description retry_4xx w 1).
  - replace (MAX_TRIES self - 1) with (S (MAX_TRIES self - 2)) by lia. cbn [seq].
    destruct (retry_loop_starts self (add_headers self request) description retry_4xx 1
                (seq 2 (MAX_TRIES self - 2))
                (extend w (rounds self (add_headers self request) description (trace w) 1)))
      as (rest & ->).
    exists rest. rewrite extend_extend. cbn [rounds]. rewrite app_nil_r. reflexivity.
  - lia.
  - intros k Hk. replace k with 0 by lia.
    unfold attempt_outcome. cbn [rounds]. rewrite app_nil_r. exact Hr.
Qed.

Lemma response_read_world response w : snd (response_read response w) = w.
Proof. by destruct response. Qed.

Lemma FetchXsrfToken_run self action url w :
  percent_format (xsrf_url self) (Some action) = Returns url ->
  _FetchXsrfToken self action w
  = bind (_RetryRequest self (Request_ url) "Fetching XSRF token" false) response_read w.
Proof. intros Hfmt. unfold _FetchXsrfToken, bind at 1, lift. by rewrite Hfmt. Qed.

Lemma bind_world {A B} (m : M A) (k : A -> M B) w :
  (forall a w1, exists delta, snd (k a w1) = extend w1 delta) ->
  exists delta, snd (bind m k w) = extend (snd (m w)) delta.
Proof.
  intros Hk. unfold bind. destruct (m w) as [[a|e] w1]; simpl.
  - apply Hk.
  - exists []. by rewrite extend_nil.
Qed.

Lemma FetchXsrfToken_starts self action url w :
  percent_format (xsrf_url self) (Some action) = Returns url ->
  0 < MAX_TRIES self ->
  exists rest,
    snd (_FetchXsrfToken self action w)
    = extend w (EvOpen (add_headers self (Request_ url)) :: rest).
Proof.
  intros Hfmt Hmax. rewrite (FetchXsrfToken_run self action url w Hfmt).
  destruct (bind_world (_RetryRequest self (Request_ url) "Fetching XSRF token" false)
              response_read w) as (delta & ->).
  { intros a w1. exists []. by rewrite response_read_world, extend_nil. }
  destruct (RetryRequest_starts self (Request_ url) "Fetching XSRF token" false w Hmax)
    as (rest & ->).
  exists (rest ++ delta). by rewrite extend_extend.
Qed.

Lemma RetryRequest_extends self request description retry_4xx w :
  exists delta, snd (_RetryRequest self request description retry_4xx w) = extend w delta.
Proof.
  destruct (retry_loop_extends self (add_headers self request) description retry_4xx
              (seq 0 (MAX_TRIES self)) w) as (delta & Hw & _).
  by exists delta.
Qed.

Lemma GetAndValidateMetadata_extends self w :
  exists md, snd (GetAndValidateMetadata self w)
             = {| trace := trace w; _metadata := md; top_frame := top_frame w |}.
Proof.
  unfold GetAndValidateMetadata, bind at 1, get_metadata.
  assert (exists md, snd (bind (load_metadata self)
                            (fun md => check_required md (REQUIRED_METADATA self)) w)
            = {| trace := trace w; _metadata := md; top_frame := top_frame w |}) as Hload.
  { unfold bind, load_metadata, lift, set_metadata, ret.
    destruct (_GetMetadata self) as [m|e]; simpl.
    - rewrite check_required_pure. by eexists.
    - exists (_metadata w). by destruct w. }
  destruct (_metadata w) as [m|] eqn:Hm; [|exact Hload].
  destruct (metadata_falsy (Some m)); [exact Hload|].
  unfold bind, ret. simpl. rewrite check_required_pure.
  exists (Some m). destruct w; simpl in *; by subst.
Qed.

(** ** What a run of the operations is made of *)

Lemma FetchXsrfToken_requests self action url w :
  percent_format (xsrf_url self) (Some action) = Returns url ->
  exists delta,
    snd (_FetchXsrfToken self action w) = extend w delta /\
    Forall (fun r => r = add_headers self (Request_ url)) (opens delta).
Proof.
  intros Hfmt. rewrite (FetchXsrfToken_run self action url w Hfmt).
  unfold bind, _RetryRequest.
  destruct (retry_loop_extends self (add_headers self (Request_ url))
              "Fetching XSRF token" false (seq 0 (MAX_TRIES self)) w)
    as (delta & Hw & Hall).
  destruct (retry_loop _ _ _ _ _ w) as [[r|e] w1]; simpl in Hw; subst w1.
  - exists delta. by rewrite response_read_world.
  - by exists delta.
Qed.

Lemma FetchXsrfToken_no_tries self action url w :
  percent_format (xsrf_url self) (Some action) = Returns url ->
  MAX_TRIES self = 0 ->
  _FetchXsrfToken self action w
  = (Raises (AttributeError "'NoneType' object has no attribute 'read'"), w).
Proof.
  intros Hfmt Hmax. rewrite (FetchXsrfToken_run self action url w Hfmt).
  unfold bind, _RetryRequest. by rewrite Hmax.
Qed.

Lemma FetchXsrfToken_returns_tries self action w token w1 :
  _FetchXsrfToken self action w = (Returns token, w1) -> 0 < MAX_TRIES self.
Proof.
  intros Hfetch. destruct (MAX_TRIES self) eqn:Hmax; [|lia]. exfalso.
  destruct (FetchXsrfToken_returns _ _ _ _ _ Hfetch) as (url & before & Hfmt & _).
  by rewrite (FetchXsrfToken_no_tries self action url w Hfmt Hmax) in Hfetch.
Qed.

Lemma RetryRequest_other self request description retry_4xx w cls msg :
  0 < MAX_TRIES self ->
  opener self (trace w) (add_headers self request) = FailsOther cls msg ->
  _RetryRequest self request description retry_4xx w
  = (Raises (OtherException cls msg), extend w [EvOpen (add_headers self request)]).
Proof.
  intros Hmax Ho. unfold _RetryRequest.
  replace (MAX_TRIES self) with (S (MAX_TRIES self - 1)) by lia. cbn [seq].
  rewrite retry_loop_cons.
  by rewrite (retry_body_other self (add_headers self request) description 0 retry_4xx
                w cls msg Ho).
Qed.

Lemma RetryRequest_4xx self request description w code msg body :
  0 < MAX_TRIES self ->
  opener self (trace w) (add_headers self request) = FailsHTTP code msg body ->
  (400 <= code < 500)%Z ->
  _RetryRequest self request description false w
  = (Raises (RequestError (description +:+ " failed: " +:+
                           error_text (FailsHTTP code msg body))),
     extend w [EvOpen (add_headers self request)]).
Proof.
  intros Hmax Ho Hcode. unfold _RetryRequest.
  replace (MAX_TRIES self) with (S (MAX_TRIES self - 1)) by lia. cbn [seq].
  rewrite retry_loop_cons.
  by rewrite (retry_body_4xx self (add_headers self request) description 0 w
                code msg body Ho Hcode).
Qed.

(** What the loop raises is [RequestError], or what the opener raised
    outside [URLError] on the last attempt. *)
Lemma retry_loop_raises_from self request description retry_4xx tries : forall w e w',
  retry_loop self request description retry_4xx tries w = (Raises e, w') ->
  (exists msg, e = RequestError msg) \/
  (exists cls msg delta,
     e = OtherException cls msg /\
     opener self (trace w ++ delta) request = FailsOther cls msg).
Proof.
  induction tries as [|t tries IH]; intros w e w' Hrun.
  - discriminate.
  - rewrite retry_loop_cons in Hrun.
    destruct (retry_body_pass self request description retry_4xx t w)
      as [b Ho|c m Ho|code msg b Ho Hr|Hr Hne|Hr He]; try discriminate.
    + injection Hrun as <- <-. right. exists c, m, []. by rewrite app_nil_r.
    + injection Hrun as <- <-. left; eauto.
    + apply IH in Hrun as [Hreq|(cls & msg & delta & -> & Ho)]; [by left|].
      right. exists cls, msg, (round self request description (trace w) t ++ delta).
      split; [done|]. by rewrite trace_extend, <- app_assoc in Ho.
    + injection Hrun as <- <-. left; eauto.
Qed.

Lemma retryable_spec retry_4xx o :
  retryable retry_4xx o = true <->
  (exists reason, o = FailsURL reason) \/
  (exists code msg body,
     o = FailsHTTP code msg body /\ (retry_4xx = true \/ ~ (400 <= code < 500)%Z)).
Proof.
  destruct o as [b|code msg b|reason|cls msg]; cbn [retryable].
  - split; [discriminate | intros [[? [=]]|(? & ? & ? & [=] & _)]].
  - rewrite orb_true_iff, negb_true_iff, andb_false_iff, Z.leb_gt, Z.ltb_ge. split.
    + intros [Hc|Hr]; right; exists code, msg, b; (split; [done|]); [right; lia | by left].
    + intros [[? [=]]|(? & ? & ? & [= <- _ _] & [Hr|Hc])]; [by right | left; lia].
  - split; [intros _; left; by eexists | done].
  - split; [discriminate | intros [[? [=]]|(? & ? & ? & [=] & _)]].
Qed.

Lemma metadata_falsy_loaded (md : gmap string PyVal) :
  md <> ∅ -> metadata_falsy (Some md) = false.
Proof. intros Hne. unfold metadata_falsy. by apply bool_decide_eq_false_2. Qed.

Lemma GetAndValidateMetadata_loaded self w md :
  _metadata w = Some md -> md <> ∅ ->
  GetAndValidateMetadata self w = (fst (check_required md (REQUIRED_METADATA self) w), w).
Proof.
  intros Hmd Hne. unfold GetAndValidateMetadata, bind at 1, get_metadata.
  rewrite Hmd, (metadata_falsy_loaded md Hne). unfold bind, ret.
  pose proof (check_required_pure md (REQUIRED_METADATA self) w) as Hw.
  destruct (check_required md (REQUIRED_METADATA self) w) as [r w']. simpl in *.
  by subst w'.
Qed.

Lemma GetAndValidateMetadata_gathers self w md :
  metadata_falsy (_metadata w) = true -> _GetMetadata self = Returns md ->
  GetAndValidateMetadata self w
  = (fst (check_required md (REQUIRED_METADATA self) w), with_metadata w md).
Proof.
  intros Hf Hg. unfold GetAndValidateMetadata, bind at 1, get_metadata.
  assert (bind (load_metadata self)
            (fun md0 => check_required md0 (REQUIRED_METADATA self)) w
          = (fst (check_required md (REQUIRED_METADATA self) w), with_metadata w md))
    as Hload.
  { unfold bind, load_metadata, lift, set_metadata, ret. rewrite Hg. simpl.
    fold (with_metadata w md).
    pose proof (check_required_pure md (REQUIRED_METADATA self) (with_metadata w md)) as Hw.
    rewrite (check_required_world md _ w (with_metadata w md)).
    destruct (check_required md (REQUIRED_METADATA self) (with_metadata w md)) as [r w'].
    simpl in *. by subst w'. }
  destruct (_metadata w) as [m|]; [|exact Hload].
  by rewrite Hf.
Qed.

Lemma check_required_ok md keys w :
  Forall (fun key => ~ absent_or_falsy md key) keys ->
  check_required md keys w = (Returns tt, w).
Proof.
  induction keys as [|key keys IH]; intros Hall; [done|].
  inversion Hall as [|? ? Hk Hrest]; subst. cbn [check_required].
  destruct (missing md key) eqn:Hm; [|by apply IH].
  by apply missing_absent_or_falsy in Hm.
Qed.

Lemma check_required_missing md earlier key later w :
  Forall (fun k => ~ absent_or_falsy md k) earlier ->
  absent_or_falsy md key ->
  check_required md (earlier ++ key :: later) w
  = (Raises (MetadataError ("Required metadata is not found: " +:+ key)), w).
Proof.
  intros Hall Hkey. induction earlier as [|k earlier IH]; cbn [app check_required].
  - apply missing_absent_or_falsy in Hkey. by rewrite Hkey.
  - inversion Hall as [|? ? Hk Hrest]; subst.
    destruct (missing md k) eqn:Hm; [by apply missing_absent_or_falsy in Hm|].
    by apply IH.
Qed.

Lemma with_metadata_same w md : _metadata w = Some md -> with_metadata w md = w.
Proof. destruct w as [t m f]. simpl. by intros ->. Qed.

Section Upload.
Context `{PyLib}.

Lemma upload_with_loaded self target_id passphrase retry_4xx token w md :
  _metadata w = Some md -> md <> ∅ ->
  upload_with self target_id passphrase retry_4xx token w
  = bind (_RetryRequest self (PutRequest (upload_url self md token target_id) passphrase)
            "Uploading passphrase" retry_4xx) (fun _ => ret tt) w.
Proof.
  intros Hmd Hne. unfold upload_with, bind at 1, get_metadata.
  rewrite Hmd, (metadata_falsy_loaded md Hne).
  unfold bind at 1, ret. unfold bind at 1, get_metadata. by rewrite Hmd.
Qed.

Lemma upload_with_trace self target_id passphrase retry_4xx token w :
  exists delta,
    trace (snd (upload_with self target_id passphrase retry_4xx token w))
    = trace w ++ delta.
Proof.
  unfold upload_with, bind at 1, get_metadata.
  assert (forall w1, trace w1 = trace w ->
            exists delta,
              trace (snd (bind get_metadata
                (fun current =>
                   match current with
                   | None => raise (AttributeError
                               "'NoneType' object has no attribute 'copy'")
                   | Some metadata =>
                       bind (_RetryRequest self
                               (PutRequest (upload_url self metadata token target_id)
                                  passphrase) "Uploading passphrase" retry_4xx)
                            (fun _ => ret tt)
                   end) w1)) = trace w ++ delta) as Hrest.
  { intros w1 Hw1. unfold bind at 1, get_metadata.
    destruct (_metadata w1) as [md|].
    - unfold bind.
      destruct (RetryRequest_extends self
                  (PutRequest (upload_url self md token target_id) passphrase)
                  "Uploading passphrase" retry_4xx w1) as (delta & Hd).
      destruct (_RetryRequest self _ _ _ w1) as [[r|e] w2]; simpl in *;
        subst w2; exists delta; by rewrite trace_extend, Hw1.
    - exists []. simpl. by rewrite app_nil_r. }
  destruct (metadata_falsy (_metadata w)).
  - unfold bind at 1.
    destruct (GetAndValidateMetadata_extends self w) as (md & Hv).
    destruct (GetAndValidateMetadata self w) as [[[]|e] w1]; simpl in Hv; subst w1.
    + by apply Hrest.
    + exists []. simpl. by rewrite app_nil_r.
  - unfold bind at 1, ret. by apply Hrest.
Qed.

Lemma IsKeyRotationNeeded_run self target_id tag w :
  let request := Request_ (rekey_url self target_id tag) in
  IsKeyRotationNeeded self target_id tag w
  = (rekey_status (opener self (trace w) request), extend w [EvOpen request]).
Proof.
  intros request. unfold IsKeyRotationNeeded. fold request.
  unfold bind at 1. unfold try_except, opener_open.
  destruct (opener self (trace w) request) as [content|code msg body|reason|cls msg];
    simpl; try reflexivity.
  destruct (startswith content JSON_PREFIX); simpl; [|reflexivity].
  unfold lift, loads. destruct (json_loads _); reflexivity.
Qed.

Lemma upload_with_run self target_id passphrase retry_4xx token w md :
  effective_metadata self w md ->
  (metadata_falsy (_metadata w) = true ->
   Forall (fun key => ~ absent_or_falsy md key) (REQUIRED_METADATA self)) ->
  upload_with self target_id passphrase retry_4xx token w
  = bind (_RetryRequest self (PutRequest (upload_url self md token target_id) passphrase)
            "Uploading passphrase" retry_4xx) (fun _ => ret tt) (with_metadata w md).
Proof.
  unfold effective_metadata. intros Heff Hreq.
  destruct (metadata_falsy (_metadata w)) eqn:Hf.
  - unfold upload_with, bind at 1, get_metadata. rewrite Hf. unfold bind at 1.
    rewrite (GetAndValidateMetadata_gathers self w md Hf Heff).
    rewrite check_required_ok by auto. cbn [fst].
    unfold bind at 1, get_metadata. reflexivity.
  - rewrite (with_metadata_same w md Heff).
    apply upload_with_loaded; [exact Heff|].
    rewrite Heff in Hf. unfold metadata_falsy in Hf.
    by apply bool_decide_eq_false_1 in Hf.
Qed.

(** Whatever [UploadPassphrase] does once it holds its token, the
    requests it sends are all the one PUT. *)
Lemma upload_with_requests self target_id passphrase retry_4xx token w :
  exists md delta,
    trace (snd (upload_with self target_id passphrase retry_4xx token w))
    = trace w ++ delta /\
    Forall (fun r => r = add_headers self
                          (PutRequest (upload_url self md token target_id) passphrase))
      (opens delta).
Proof.
  unfold upload_with, bind at 1, get_metadata.
  assert (forall w1, trace w1 = trace w ->
            exists md delta,
              trace (snd (bind get_metadata
                (fun current =>
                   match current with
                   | None => raise (AttributeError
                               "'NoneType' object has no attribute 'copy'")
                   | Some metadata =>
                       bind (_RetryRequest self
                               (PutRequest (upload_url self metadata token target_id)
                                  passphrase) "Uploading passphrase" retry_4xx)
                            (fun _ => ret tt)
                   end) w1)) = trace w ++ delta /\
              Forall (fun r => r = add_headers self
                                    (PutRequest (upload_url self md token target_id)
                                       passphrase)) (opens delta)) as Hrest.
  { intros w1 Hw1. unfold bind at 1, get_metadata.
    destruct (_metadata w1) as [md|].
    - unfold bind, _RetryRequest.
      destruct (retry_loop_extends self
                  (add_headers self
                     (PutRequest (upload_url self md token target_id) passphrase))
                  "Uploading passphrase" retry_4xx (seq 0 (MAX_TRIES self)) w1)
        as (delta & Hd & Hall).
      exists md, delta.
      destruct (retry_loop _ _ _ _ _ w1) as [[r|e] w2]; simpl in *; subst w2;
        (split; [by rewrite trace_extend, Hw1 | exact Hall]).
    - exists ∅, []. simpl. split; [by rewrite app_nil_r | constructor]. }
  destruct (metadata_falsy (_metadata w)).
  - unfold bind at 1.
    destruct (GetAndValidateMetadata_extends self w) as (md & Hv).
    destruct (GetAndValidateMetadata self w) as [[[]|e] w1]; simpl in Hv; subst w1.
    + by apply Hrest.
    + exists ∅, []. simpl. split; [by rewrite app_nil_r | constructor].
  - unfold bind at 1, ret. by apply Hrest.
Qed.

(** C6, as amended. [RetrieveSecret] and [UploadPassphrase] ask for an
    XSRF token for their own action name ([RetrieveSecret] and
    [UploadPassphrase], which differ) before anything else, on every call
    on which [xsrf_url] formats with that name: with [MAX_TRIES = 0] the
    call sends nothing, otherwise its first request is the GET of the token
    URL; every request before the token is answered is that GET; and the
    GET of [RetrieveSecret] and the PUT of [UploadPassphrase] carry, as
    their [xsrf-token] parameter, the token the opener answered to this
    call's own fetch, in whatever world the call starts.
    [IsKeyRotationNeeded] fetches no token: its one request is the GET of
    the rekey-required URL, whose only parameter is the tag. *)
Theorem token_fetched_by_retrieve_and_upload (self : Client) (target_id : string)
    (w : World) :
  settings.GET_PASSPHRASE_ACTION = "RetrieveSecret" /\
  settings.SET_PASSPHRASE_ACTION = "UploadPassphrase" /\
  settings.GET_PASSPHRASE_ACTION <> settings.SET_PASSPHRASE_ACTION /\
  (forall url,
     percent_format (xsrf_url self) (Some "RetrieveSecret") = Returns url ->
     let fetch := add_headers self (Request_ url) in
     let run := RetrieveSecret self target_id w in
     (req_url fetch = url /\ req_method fetch = GET) /\
     (MAX_TRIES self = 0 -> snd run = w) /\
     (0 < MAX_TRIES self ->
      exists rest, trace (snd run) = trace w ++ EvOpen fetch :: rest) /\
     ((exists token before,
         opener self (trace w ++ before) fetch = Responds token /\
         Forall (fun r => r = fetch) (opens before) /\
         trace (snd run)
         = trace w ++ before ++
           [EvOpen fetch;
            EvOpen (Request_ (JoinURL (escrow_url self) [urllib_quote target_id]
                              +:+ "?" +:+
                              urllib_urlencode {[ "xsrf-token" := PyStr token ]}))]) \/
      (exists e delta,
         run = (Raises e, extend w delta) /\
         Forall (fun r => r = fetch) (opens delta)))) /\
  (forall passphrase retry_4xx url,
     percent_format (xsrf_url self) (Some "UploadPassphrase") = Returns url ->
     let fetch := add_headers self (Request_ url) in
     let run := UploadPassphrase self target_id passphrase retry_4xx w in
     (req_url fetch = url /\ req_method fetch = GET) /\
     (MAX_TRIES self = 0 -> snd run = w) /\
     (0 < MAX_TRIES self ->
      exists rest, trace (snd run) = trace w ++ EvOpen fetch :: rest) /\
     ((exists token before md delta,
         opener self (trace w ++ before) fetch = Responds token /\
         Forall (fun r => r = fetch) (opens before) /\
         trace (snd run) = trace w ++ before ++ EvOpen fetch :: delta /\
         Forall (fun r =>
                   r = add_headers self
                         (PutRequest
                            (escrow_url self +:+ "?" +:+
                             urllib_urlencode
                               (<["volume_uuid" := PyStr target_id]>
                                  (<["xsrf-token" := PyStr token]> md)))
                            passphrase))
           (opens delta)) \/
      (exists e delta,
         run = (Raises e, extend w delta) /\
         Forall (fun r => r = fetch) (opens delta)))) /\
  (forall tag,
     trace (snd (IsKeyRotationNeeded self target_id tag w))
     = trace w ++
       [EvOpen (Request_ (JoinURL (base_url self)
                            ["/api/v1/rekey-required/"; ESCROW_PATH self; target_id]
                          +:+ "?" +:+ urllib_urlencode {[ "tag" := PyStr tag ]}))]).
Proof.
  split; [reflexivity|]. split; [reflexivity|]. split; [discriminate|].
  split; [|split].
  - intros url Hfmt fetch run.
    split; [split; [apply add_headers_url | apply add_headers_method]|].
    split; [|split].
    + intros Hmax. subst run. unfold RetrieveSecret.
      by rewrite (bind_raises _ _ _ _ _
                    (FetchXsrfToken_no_tries self _ url w Hfmt Hmax)).
    + intros Hmax. subst run. unfold RetrieveSecret.
      destruct (bind_world (_FetchXsrfToken self settings.GET_PASSPHRASE_ACTION)
                  (fun x => retrieve_with self target_id x) w) as (delta & ->).
      { intros token w1. rewrite retrieve_with_run. by eexists. }
      destruct (FetchXsrfToken_starts self settings.GET_PASSPHRASE_ACTION url w Hfmt Hmax)
        as (rest & ->).
      exists (rest ++ delta). by rewrite extend_extend.
    + destruct (_FetchXsrfToken self settings.GET_PASSPHRASE_ACTION w)
        as [[token|e] w1] eqn:Hfetch.
      * left.
        destruct (FetchXsrfToken_returns _ _ _ _ _ Hfetch)
          as (url' & before & Hfmt' & -> & Ho & Hall).
        assert (url' = url) as ->.
        { change settings.GET_PASSPHRASE_ACTION with "RetrieveSecret" in Hfmt'.
          congruence. }
        exists token, before. split; [exact Ho|]. split; [exact Hall|].
        subst run. rewrite (RetrieveSecret_run self target_id w token _ Hfetch).
        cbn [snd]. rewrite !trace_extend, <- !app_assoc. reflexivity.
      * right. subst run. unfold RetrieveSecret.
        rewrite (bind_raises _ _ _ _ _ Hfetch).
        destruct (FetchXsrfToken_requests self settings.GET_PASSPHRASE_ACTION url w Hfmt)
          as (delta & Hw & Hall).
        rewrite Hfetch in Hw. simpl in Hw. subst w1. by exists e, delta.
  - intros passphrase retry_4xx url Hfmt fetch run.
    split; [split; [apply add_headers_url | apply add_headers_method]|].
    split; [|split].
    + intros Hmax. subst run. unfold UploadPassphrase.
      by rewrite (bind_raises _ _ _ _ _
                    (FetchXsrfToken_no_tries self _ url w Hfmt Hmax)).
    + intros Hmax. subst run. unfold UploadPassphrase, bind.
      destruct (FetchXsrfToken_starts self settings.SET_PASSPHRASE_ACTION url w Hfmt Hmax)
        as (rest & Hw).
      destruct (_FetchXsrfToken self settings.SET_PASSPHRASE_ACTION w) as [[token|e] w1];
        simpl in Hw; subst w1.
      * destruct (upload_with_trace self target_id passphrase retry_4xx token
                    (extend w (EvOpen (add_headers self (Request_ url)) :: rest)))
          as (delta & ->).
        exists (rest ++ delta). rewrite trace_extend. by rewrite <- app_assoc.
      * by exists rest.
    + destruct (_FetchXsrfToken self settings.SET_PASSPHRASE_ACTION w)
        as [[token|e] w1] eqn:Hfetch.
      * left.
        destruct (FetchXsrfToken_returns _ _ _ _ _ Hfetch)
          as (url' & before & Hfmt' & -> & Ho & Hall).
        assert (url' = url) as ->.
        { change settings.SET_PASSPHRASE_ACTION with "UploadPassphrase" in Hfmt'.
          congruence. }
        subst run. unfold UploadPassphrase. rewrite (bind_returns _ _ _ _ _ Hfetch).
        destruct (upload_with_requests self target_id passphrase retry_4xx token
                    (extend w (before ++ [EvOpen (add_headers self (Request_ url))])))
          as (md & delta & Ht & Hput).
        exists token, before, md, delta. split; [exact Ho|]. split; [exact Hall|].
        split; [|exact Hput].
        rewrite Ht, trace_extend, <- !app_assoc. reflexivity.
      * right. subst run. unfold UploadPassphrase.
        rewrite (bind_raises _ _ _ _ _ Hfetch).
        destruct (FetchXsrfToken_requests self settings.SET_PASSPHRASE_ACTION url w Hfmt)
          as (delta & Hw & Hall).
        rewrite Hfetch in Hw. simpl in Hw. subst w1. by exists e, delta.
  - intros tag. by rewrite IsKeyRotationNeeded_run.
Qed.
End Upload.

Lemma token_fetched_by_retrieve_and_upload_witness :
  let self := Examples.new_client
                (Examples.answering (JSON_PREFIX +:+ Examples.passphrase_json "p1"))
                (Returns Examples.machine) in
  let fetch :=
    add_headers self (Request_ "https://cv.example.com/xsrf-token/RetrieveSecret") in
  percent_format (xsrf_url self) (Some "RetrieveSecret")
  = Returns "https://cv.example.com/xsrf-token/RetrieveSecret" /\
  0 < MAX_TRIES self /\
  (exists rest,
     trace (snd (RetrieveSecret self "vol-1" world0))
     = trace world0 ++ EvOpen fetch :: rest) /\
  opens (trace (snd (RetrieveSecret self "vol-1" world0)))
  = [fetch; Request_ "https://cv.example.com/filevault/vol-1?xsrf-token=tok"].
Proof.
  intros self fetch.
  assert (percent_format (xsrf_url self) (Some "RetrieveSecret")
          = Returns "https://cv.example.com/xsrf-token/RetrieveSecret") as Hfmt
    by reflexivity.
  assert (0 < MAX_TRIES self) as Hmax by (simpl; lia).
  split; [exact Hfmt|]. split; [exact Hmax|]. split.
  - destruct (token_fetched_by_retrieve_and_upload self "vol-1" world0)
      as (_ & _ & _ & Hget & _).
    destruct (Hget _ Hfmt) as (_ & _ & Hfirst & _). exact (Hfirst Hmax).
  - vm_compute. reflexivity.
Defined.

(** C6 as stated fails on [IsKeyRotationNeeded]: the call below
    sends one request, to the rekey-required URL, and that is a token
    request for no action name. *)
Lemma rekey_check_fetches_no_token :
  let self := Examples.new_client (Examples.answering (JSON_PREFIX +:+ "true"))
                (Returns Examples.machine) in
  let run := IsKeyRotationNeeded self "vol-1" "default" world0 in
  let sent :=
    Request_ "https://cv.example.com/api/v1/rekey-required/filevault/vol-1?tag=default" in
  fst run = Returns (PyBool true) /\
  trace (snd run) = [EvOpen sent] /\
  (forall action, ~ token_request self action sent).
Proof.
  intros self run sent.
  split; [vm_compute; reflexivity|]. split; [vm_compute; reflexivity|].
  intros action (url & Hfmt & Hurl).
  cbn in Hfmt. injection Hfmt as <-. discriminate Hurl.
Qed.

(** ** Which requests are retried *)

Section Retried.
Context `{PyLib}.

(** C7, as amended. The token fetch and the upload PUT go through
    [_RetryRequest], on a client with stored metadata as on a fresh one
    whose metadata validates: a failure the opener raises as [URLError],
    or as [HTTPError] outside [400, 500) (any [HTTPError] under
    [retry_4xx]), is followed by its sleep and another attempt; a failure
    raised outside [URLError] ends the call at once.  The GETs of
    [RetrieveSecret] and [IsKeyRotationNeeded] are handed to the opener
    once: whatever it answers, the call adds that one request and nothing
    else, no sleep and no second attempt; a [URLError] or an [HTTPError]
    raises [RequestError] ([NotFoundError] for a 404 of [RetrieveSecret]),
    and a failure outside [URLError] comes out as it is. *)
Theorem reads_are_sent_once (self : Client) (target_id : string) (w : World) :
  (forall retry_4xx o,
     retryable retry_4xx o = true <->
     (exists reason, o = FailsURL reason) \/
     (exists code msg body,
        o = FailsHTTP code msg body /\
        (retry_4xx = true \/ ~ (400 <= code < 500)%Z))) /\
  (forall action url,
     percent_format (xsrf_url self) (Some action) = Returns url ->
     let fetch := add_headers self (Request_ url) in
     _FetchXsrfToken self action w
     = bind (_RetryRequest self (Request_ url) "Fetching XSRF token" false)
         response_read w /\
     (1 < MAX_TRIES self ->
      retryable false (opener self (trace w) fetch) = true ->
      exists rest,
        trace (snd (_FetchXsrfToken self action w))
        = trace w ++ round self fetch "Fetching XSRF token" (trace w) 0 ++
          EvOpen fetch :: rest) /\
     (0 < MAX_TRIES self ->
      forall cls msg,
        opener self (trace w) fetch = FailsOther cls msg ->
        _FetchXsrfToken self action w
        = (Raises (OtherException cls msg), extend w [EvOpen fetch]))) /\
  (forall passphrase retry_4xx token md,
     effective_metadata self w md ->
     (metadata_falsy (_metadata w) = true ->
      Forall (fun key => ~ absent_or_falsy md key) (REQUIRED_METADATA self)) ->
     let request := PutRequest (upload_url self md token target_id) passphrase in
     let put := add_headers self request in
     upload_with self target_id passphrase retry_4xx token w
     = bind (_RetryRequest self request "Uploading passphrase" retry_4xx)
         (fun _ => ret tt) (with_metadata w md) /\
     (1 < MAX_TRIES self ->
      retryable retry_4xx (opener self (trace w) put) = true ->
      exists rest,
        trace (snd (upload_with self target_id passphrase retry_4xx token w))
        = trace w ++ round self put "Uploading passphrase" (trace w) 0 ++
          EvOpen put :: rest) /\
     (0 < MAX_TRIES self ->
      forall cls msg,
        opener self (trace w) put = FailsOther cls msg ->
        upload_with self target_id passphrase retry_4xx token w
        = (Raises (OtherException cls msg),
           extend (with_metadata w md) [EvOpen put]))) /\
  (forall token w1,
     _FetchXsrfToken self settings.GET_PASSPHRASE_ACTION w = (Returns token, w1) ->
     let get := Request_ (retrieve_url self target_id token) in
     let run := RetrieveSecret self target_id w in
     snd run = extend w1 [EvOpen get] /\
     (forall reason,
        opener self (trace w1) get = FailsURL reason ->
        fst run = Raises (RequestError ("Failed to retrieve passphrase. <urlopen error "
                                        +:+ reason +:+ ">"))) /\
     (forall code msg body,
        opener self (trace w1) get = FailsHTTP code msg body ->
        code <> 404%Z ->
        fst run = Raises (RequestError ("Failed to retrieve passphrase. HTTP Error "
                                        +:+ pretty code +:+ ": " +:+ msg +:+ ": "
                                        +:+ body))) /\
     (forall msg body,
        opener self (trace w1) get = FailsHTTP 404 msg body ->
        fst run = Raises (NotFoundError ("Failed to retrieve passphrase. HTTP Error 404: "
                                         +:+ msg +:+ ": " +:+ body))) /\
     (forall cls msg,
        opener self (trace w1) get = FailsOther cls msg ->
        fst run = Raises (OtherException cls msg))) /\
  (forall tag,
     let get := Request_ (rekey_url self target_id tag) in
     let run := IsKeyRotationNeeded self target_id tag w in
     snd run = extend w [EvOpen get] /\
     (forall reason,
        opener self (trace w) get = FailsURL reason ->
        fst run = Raises (RequestError ("Failed to get status. <urlopen error "
                                        +:+ reason +:+ ">"))) /\
     (forall code msg body,
        opener self (trace w) get = FailsHTTP code msg body ->
        fst run = Raises (RequestError ("Failed to get status. HTTP Error "
                                        +:+ pretty code +:+ ": " +:+ msg +:+ ": "
                                        +:+ body))) /\
     (forall cls msg,
        opener self (trace w) get = FailsOther cls msg ->
        fst run = Raises (OtherException cls msg))).
Proof.
  split; [exact retryable_spec|]. split; [|split; [|split]].
  - intros action url Hfmt fetch.
    split; [exact (FetchXsrfToken_run self action url w Hfmt)|]. split.
    + intros Hmax Hr.
      rewrite (FetchXsrfToken_run self action url w Hfmt).
      destruct (bind_world (_RetryRequest self (Request_ url) "Fetching XSRF token" false)
                  response_read w) as (delta & ->).
      { intros a w1. exists []. by rewrite response_read_world, extend_nil. }
      destruct (RetryRequest_retries self (Request_ url) "Fetching XSRF token" false w
                  Hmax Hr) as (rest & ->).
      exists (rest ++ delta). rewrite extend_extend, trace_extend.
      by rewrite <- !app_assoc.
    + intros Hmax cls msg Ho.
      rewrite (FetchXsrfToken_run self action url w Hfmt). unfold bind.
      by rewrite (RetryRequest_other self (Request_ url) "Fetching XSRF token" false w
                    cls msg Hmax Ho).
  - intros passphrase retry_4xx token md Heff Hreq request put.
    assert (upload_with self target_id passphrase retry_4xx token w
            = bind (_RetryRequest self request "Uploading passphrase" retry_4xx)
                (fun _ => ret tt) (with_metadata w md)) as Hrun
      by exact (upload_with_run self target_id passphrase retry_4xx token w md Heff Hreq).
    split; [exact Hrun|]. split.
    + intros Hmax Hr. rewrite Hrun.
      destruct (bind_world (_RetryRequest self request "Uploading passphrase" retry_4xx)
                  (fun _ => ret tt) (with_metadata w md)) as (delta & ->).
      { intros a w1. exists []. by rewrite extend_nil. }
      destruct (RetryRequest_retries self request "Uploading passphrase" retry_4xx
                  (with_metadata w md) Hmax Hr) as (rest & ->).
      exists (rest ++ delta). rewrite extend_extend, trace_extend.
      cbn [with_metadata trace]. by rewrite <- !app_assoc.
    + intros Hmax cls msg Ho. rewrite Hrun. unfold bind.
      by rewrite (RetryRequest_other self request "Uploading passphrase" retry_4xx
                    (with_metadata w md) cls msg Hmax Ho).
  - intros token w1 Htok get run. subst run.
    rewrite (RetrieveSecret_run self target_id w token w1 Htok). fold get. cbn [fst snd].
    split; [reflexivity|]. split; [|split; [|split]].
    + by intros reason ->.
    + intros code msg body -> Hcode. cbn [retrieved].
      apply Z.eqb_neq in Hcode. by rewrite Hcode.
    + by intros msg body ->.
    + by intros cls msg ->.
  - intros tag get run. subst run. rewrite IsKeyRotationNeeded_run. fold get.
    cbn [fst snd]. split; [reflexivity|]. split; [|split].
    + by intros reason ->.
    + by intros code msg body ->.
    + by intros cls msg ->.
Qed.
End Retried.

Lemma reads_are_sent_once_witness :
  let body := JSON_PREFIX +:+ Examples.passphrase_json "p1" in
  let self := Examples.new_client (Examples.flaky body) (Returns Examples.machine) in
  let get := Request_ (rekey_url self "vol-1" "default") in
  opener self (trace world0) get = FailsHTTP 503 "Service Unavailable" "try later" /\
  IsKeyRotationNeeded self "vol-1" "default" world0
  = (Raises (RequestError
       "Failed to get status. HTTP Error 503: Service Unavailable: try later"),
     extend world0 [EvOpen get]).
Proof.
  intros body self get.
  assert (opener self (trace world0) get
          = FailsHTTP 503 "Service Unavailable" "try later") as Ho
    by (vm_compute; reflexivity).
  split; [exact Ho|].
  destruct (reads_are_sent_once self "vol-1" world0) as (_ & _ & _ & _ & Hrekey).
  destruct (Hrekey "default") as (Hw & _ & Hhttp & _).
  rewrite (surjective_pairing (IsKeyRotationNeeded self "vol-1" "default" world0)).
  fold get in Hw, Hhttp. rewrite Hw, (Hhttp _ _ _ Ho). reflexivity.
Defined.

(** C7 as stated fails on the GET of [RetrieveSecret]: against a
    server that fails a read once with 503 and would answer it the second
    time, the call raises after one attempt and without a sleep, where
    [_RetryRequest] on the same request in the same world gets the
    response. *)
Lemma retrieve_secret_gives_up_at_once :
  let body := JSON_PREFIX +:+ Examples.passphrase_json "p1" in
  let self := Examples.new_client (Examples.flaky body) (Returns Examples.machine) in
  let get := Request_ "https://cv.example.com/filevault/vol-1?xsrf-token=tok" in
  let fetch :=
    add_headers self (Request_ "https://cv.example.com/xsrf-token/RetrieveSecret") in
  let run := RetrieveSecret self "vol-1" world0 in
  MAX_TRIES self = 5 /\
  fst run = Raises (RequestError
    "Failed to retrieve passphrase. HTTP Error 503: Service Unavailable: try later") /\
  opens (trace (snd run)) = [fetch; get] /\
  sleeps (trace (snd run)) = [] /\
  fst (_RetryRequest self (Request_ (req_url get)) "Retrieving"
         false (extend world0 [EvOpen fetch]))
  = Returns (Some (mkResponse body)).
Proof. vm_compute. repeat split; reflexivity. Qed.

(** ** What escapes the operations *)

Lemma fetch_error_classes e :
  fetch_error e = true ->
  isinstance_URLError e = false /\
  (isinstance_RequestError e = true \/ raw_error e = true).
Proof. destruct e; try discriminate; intros _; split; auto. Qed.

Lemma GetAndValidateMetadata_raises self w e w' :
  GetAndValidateMetadata self w = (Raises e, w') ->
  (exists msg, e = MetadataError msg) \/ _GetMetadata self = Raises e.
Proof.
  unfold GetAndValidateMetadata, bind at 1, get_metadata.
  assert (forall md w0, check_required md (REQUIRED_METADATA self) w0 = (Raises e, w') ->
                        exists msg, e = MetadataError msg) as Hcheck.
  { intros md w0. induction (REQUIRED_METADATA self) as [|key keys IH]; [discriminate|].
    cbn [check_required]. destruct (missing md key); [|exact IH].
    intros [= <- _]. by eexists. }
  assert (bind (load_metadata self)
            (fun md => check_required md (REQUIRED_METADATA self)) w = (Raises e, w') ->
          (exists msg, e = MetadataError msg) \/ _GetMetadata self = Raises e) as Hload.
  { unfold bind, load_metadata, lift, set_metadata, ret.
    destruct (_GetMetadata self) as [m|e0]; simpl.
    - intros Hc. left. by eapply Hcheck.
    - intros [= <- _]. by right. }
  destruct (_metadata w) as [m|]; [|exact Hload].
  destruct (metadata_falsy (Some m)); [exact Hload|].
  unfold bind, ret. simpl. intros Hc. left. by eapply Hcheck.
Qed.

Section Escapes.
Context `{PyLib}.

Lemma retrieved_raises o e :
  retrieved o = Raises e ->
  isinstance_URLError e = false /\
  (isinstance_RequestError e = true \/ raw_error e = true).
Proof.
  destruct o as [content|code msg body|reason|cls m]; cbn [retrieved].
  - destruct (startswith content JSON_PREFIX); [|intros [= <-]; auto].
    destruct (json_loads _) as [data|why]; [|intros [= <-]; auto].
    unfold getitem. destruct data; try (intros [= <-]; auto).
    destruct (dict_get _ _); [discriminate | intros [= <-]; auto].
  - destruct (code =? 404)%Z; intros [= <-]; auto.
  - intros [= <-]; auto.
  - intros [= <-]; auto.
Qed.

Lemma rekey_status_raises o e :
  rekey_status o = Raises e ->
  isinstance_URLError e = false /\
  (isinstance_RequestError e = true \/ raw_error e = true).
Proof.
  destruct o as [content|code msg body|reason|cls m]; cbn [rekey_status].
  - destruct (startswith content JSON_PREFIX); [|intros [= <-]; auto].
    destruct (json_loads _) as [data|why]; [discriminate | intros [= <-]; auto].
  - intros [= <-]; auto.
  - intros [= <-]; auto.
  - intros [= <-]; auto.
Qed.

(** C9, as amended. No [URLError] or [HTTPError] of the opener leaves
    [RetrieveSecret], [IsKeyRotationNeeded] or [UploadPassphrase] as it is:
    the retry loop and the two direct GETs raise it again as
    [RequestError], or [NotFoundError] for a 404 of [RetrieveSecret]; a
    body without the prefix raises [RequestError], and a required metadata
    key that is missing [MetadataError].  Exceptions nobody catches come
    out unchanged: [ValueError] when the body after the prefix is not JSON,
    [KeyError] when the decoded object has no member [passphrase],
    [TypeError] when the decoded value is no object, what the opener
    raises outside [URLError], and what [_GetMetadata] raises. *)
Theorem opener_errors_are_wrapped (self : Client) (target_id : string) (w : World) :
  (forall e,
     fst (RetrieveSecret self target_id w) = Raises e ->
     isinstance_URLError e = false /\
     (isinstance_RequestError e = true \/ raw_error e = true)) /\
  (forall tag e,
     fst (IsKeyRotationNeeded self target_id tag w) = Raises e ->
     isinstance_URLError e = false /\
     (isinstance_RequestError e = true \/ raw_error e = true)) /\
  (forall passphrase retry_4xx e,
     fst (UploadPassphrase self target_id passphrase retry_4xx w) = Raises e ->
     (exists msg, e = RequestError msg) \/ (exists msg, e = MetadataError msg) \/
     raw_error e = true \/ _GetMetadata self = Raises e) /\
  (forall request description retry_4xx e w',
     _RetryRequest self request description retry_4xx w = (Raises e, w') ->
     (exists msg, e = RequestError msg) \/
     (exists cls msg delta,
        e = OtherException cls msg /\
        opener self (trace w ++ delta) (add_headers self request) = FailsOther cls msg)) /\
  (forall token w1,
     _FetchXsrfToken self settings.GET_PASSPHRASE_ACTION w = (Returns token, w1) ->
     let answer := opener self (trace w1) (Request_ (retrieve_url self target_id token)) in
     let result := fst (RetrieveSecret self target_id w) in
     (forall msg body,
        answer = FailsHTTP 404 msg body ->
        result = Raises (NotFoundError ("Failed to retrieve passphrase. HTTP Error 404: "
                                        +:+ msg +:+ ": " +:+ body))) /\
     (forall code msg body,
        answer = FailsHTTP code msg body -> code <> 404%Z ->
        result = Raises (RequestError ("Failed to retrieve passphrase. HTTP Error "
                                       +:+ pretty code +:+ ": " +:+ msg +:+ ": "
                                       +:+ body))) /\
     (forall reason,
        answer = FailsURL reason ->
        result = Raises (RequestError ("Failed to retrieve passphrase. <urlopen error "
                                       +:+ reason +:+ ">"))) /\
     (forall cls msg,
        answer = FailsOther cls msg -> result = Raises (OtherException cls msg)) /\
     (forall content,
        answer = Responds content -> startswith content JSON_PREFIX = false ->
        result = Raises (RequestError "Expected JSON prefix missing.")) /\
     (forall rest why,
        answer = Responds (JSON_PREFIX +:+ rest) -> json_loads rest = Malformed why ->
        result = Raises (ValueError why)) /\
     (forall rest pairs,
        answer = Responds (JSON_PREFIX +:+ rest) -> json_loads rest = Json (PyDict pairs) ->
        Forall (fun kv => fst kv <> "passphrase") pairs ->
        result = Raises (KeyError "passphrase")) /\
     (forall rest data,
        answer = Responds (JSON_PREFIX +:+ rest) -> json_loads rest = Json data ->
        (forall pairs, data <> PyDict pairs) ->
        exists msg, result = Raises (TypeError msg))) /\
  (forall tag,
     let answer := opener self (trace w) (Request_ (rekey_url self target_id tag)) in
     let result := fst (IsKeyRotationNeeded self target_id tag w) in
     (forall code msg body,
        answer = FailsHTTP code msg body ->
        result = Raises (RequestError ("Failed to get status. HTTP Error "
                                       +:+ pretty code +:+ ": " +:+ msg +:+ ": "
                                       +:+ body))) /\
     (forall reason,
        answer = FailsURL reason ->
        result = Raises (RequestError ("Failed to get status. <urlopen error "
                                       +:+ reason +:+ ">"))) /\
     (forall cls msg,
        answer = FailsOther cls msg -> result = Raises (OtherException cls msg)) /\
     (forall content,
        answer = Responds content -> startswith content JSON_PREFIX = false ->
        result = Raises (RequestError "Expected JSON prefix missing.")) /\
     (forall rest why,
        answer = Responds (JSON_PREFIX +:+ rest) -> json_loads rest = Malformed why ->
        result = Raises (ValueError why))) /\
  (forall passphrase retry_4xx token w1,
     _FetchXsrfToken self settings.SET_PASSPHRASE_ACTION w = (Returns token, w1) ->
     let result := fst (UploadPassphrase self target_id passphrase retry_4xx w) in
     (forall e,
        metadata_falsy (_metadata w1) = true -> _GetMetadata self = Raises e ->
        result = Raises e) /\
     (forall md earlier key later,
        metadata_falsy (_metadata w1) = true -> _GetMetadata self = Returns md ->
        REQUIRED_METADATA self = earlier ++ key :: later ->
        Forall (fun k => ~ absent_or_falsy md k) earlier ->
        absent_or_falsy md key ->
        result = Raises (MetadataError ("Required metadata is not found: " +:+ key))) /\
     (forall md,
        effective_metadata self w1 md ->
        (metadata_falsy (_metadata w1) = true ->
         Forall (fun key => ~ absent_or_falsy md key) (REQUIRED_METADATA self)) ->
        let answer :=
          opener self (trace w1)
            (add_headers self (PutRequest (upload_url self md token target_id)
                                 passphrase)) in
        (forall cls msg,
           answer = FailsOther cls msg -> result = Raises (OtherException cls msg)) /\
        (forall code msg body,
           answer = FailsHTTP code msg body -> (400 <= code < 500)%Z ->
           retry_4xx = false ->
           result = Raises (RequestError ("Uploading passphrase failed: HTTP Error "
                                          +:+ pretty code +:+ ": " +:+ msg +:+ ": "
                                          +:+ body))))) /\
  (forall url cls msg,
     0 < MAX_TRIES self ->
     (percent_format (xsrf_url self) (Some "RetrieveSecret") = Returns url ->
      opener self (trace w) (add_headers self (Request_ url)) = FailsOther cls msg ->
      fst (RetrieveSecret self target_id w) = Raises (OtherException cls msg)) /\
     (forall passphrase retry_4xx,
        percent_format (xsrf_url self) (Some "UploadPassphrase") = Returns url ->
        opener self (trace w) (add_headers self (Request_ url)) = FailsOther cls msg ->
        fst (UploadPassphrase self target_id passphrase retry_4xx w)
        = Raises (OtherException cls msg))).
Proof.
  assert (forall rest,
            startswith (JSON_PREFIX +:+ rest) JSON_PREFIX = true /\
            slice_from (String.length JSON_PREFIX) (JSON_PREFIX +:+ rest) = rest) as Hstrip.
  { intros rest. unfold startswith. by rewrite prefix_app, slice_from_app. }
  split; [|split; [|split; [|split; [|split; [|split; [|split]]]]]].
  - intros e. unfold RetrieveSecret, bind.
    destruct (_FetchXsrfToken self settings.GET_PASSPHRASE_ACTION w)
      as [[token|e0] w1] eqn:Hfetch.
    + rewrite retrieve_with_run. cbn [fst]. apply retrieved_raises.
    + intros [= <-]. apply fetch_error_classes.
      by eapply FetchXsrfToken_raises.
  - intros tag e. rewrite IsKeyRotationNeeded_run. cbn [fst]. apply rekey_status_raises.
  - intros passphrase retry_4xx e. unfold UploadPassphrase, bind at 1.
    destruct (_FetchXsrfToken self settings.SET_PASSPHRASE_ACTION w)
      as [[token|e0] w1] eqn:Hfetch.
    2:{ intros [= <-]. apply FetchXsrfToken_raises in Hfetch.
        destruct e0; try discriminate; eauto. }
    unfold upload_with, bind at 1, get_metadata.
    assert (forall w2,
              fst (bind get_metadata
                (fun current =>
                   match current with
                   | None => raise (AttributeError
                               "'NoneType' object has no attribute 'copy'")
                   | Some metadata =>
                       bind (_RetryRequest self
                               (PutRequest (upload_url self metadata token target_id)
                                  passphrase) "Uploading passphrase" retry_4xx)
                            (fun _ => ret tt)
                   end) w2) = Raises e ->
              (exists msg, e = RequestError msg) \/ (exists msg, e = MetadataError msg) \/
              raw_error e = true \/ _GetMetadata self = Raises e) as Hrest.
    { intros w2. unfold bind at 1, get_metadata.
      destruct (_metadata w2) as [md|]; [|intros [= <-]; auto].
      unfold bind.
      destruct (_RetryRequest self _ _ _ w2) as [[r|e1] w3] eqn:Hretry; [discriminate|].
      intros [= <-].
      apply RetryRequest_raises in Hretry as [[msg ->]|(cls & msg & ->)]; eauto. }
    destruct (metadata_falsy (_metadata w1)).
    + unfold bind at 1.
      destruct (GetAndValidateMetadata self w1) as [[[]|e1] w2] eqn:Hv; [apply Hrest|].
      intros [= <-].
      apply GetAndValidateMetadata_raises in Hv as [[msg ->]|Hg]; eauto.
    + unfold bind at 1, ret. apply Hrest.
  - intros request description retry_4xx e w'. apply retry_loop_raises_from.
  - intros token w1 Htok answer result. subst answer result.
    rewrite (RetrieveSecret_run self target_id w token w1 Htok). cbn [fst].
    split; [|split; [|split; [|split; [|split; [|split; [|split]]]]]].
    + by intros msg body ->.
    + intros code msg body -> Hcode. cbn [retrieved].
      apply Z.eqb_neq in Hcode. by rewrite Hcode.
    + by intros reason ->.
    + by intros cls msg ->.
    + intros content -> Hp. cbn [retrieved]. by rewrite Hp.
    + intros rest why -> Hj. cbn [retrieved].
      destruct (Hstrip rest) as [-> ->]. by rewrite Hj.
    + intros rest pairs -> Hj Hnone. cbn [retrieved].
      destruct (Hstrip rest) as [-> ->]. rewrite Hj.
      unfold getitem, PASSPHRASE_KEY. by rewrite dict_get_absent.
    + intros rest data -> Hj Hdata. cbn [retrieved].
      destruct (Hstrip rest) as [-> ->]. rewrite Hj.
      destruct data; try (by eexists). by destruct (Hdata pairs).
  - intros tag answer result. subst answer result.
    rewrite IsKeyRotationNeeded_run. cbn [fst].
    split; [|split; [|split; [|split]]].
    + by intros code msg body ->.
    + by intros reason ->.
    + by intros cls msg ->.
    + intros content -> Hp. cbn [rekey_status]. by rewrite Hp.
    + intros rest why -> Hj. cbn [rekey_status].
      destruct (Hstrip rest) as [-> ->]. by rewrite Hj.
  - intros passphrase retry_4xx token w1 Htok result. subst result.
    unfold UploadPassphrase. rewrite (bind_returns _ _ _ _ _ Htok).
    pose proof (FetchXsrfToken_returns_tries _ _ _ _ _ Htok) as Hmax.
    split; [|split].
    + intros e Hf Hg. unfold upload_with, bind at 1, get_metadata. rewrite Hf.
      unfold bind at 1.
      assert (GetAndValidateMetadata self w1 = (Raises e, w1)) as ->; [|done].
      unfold GetAndValidateMetadata, bind at 1, get_metadata.
      assert (bind (load_metadata self)
                (fun md0 => check_required md0 (REQUIRED_METADATA self)) w1
              = (Raises e, w1)) as Hload.
      { unfold bind, load_metadata, lift. by rewrite Hg. }
      destruct (_metadata w1) as [m|]; [|exact Hload]. by rewrite Hf.
    + intros md earlier key later Hf Hg Hreq Hearlier Hkey.
      unfold upload_with, bind at 1, get_metadata. rewrite Hf. unfold bind at 1.
      rewrite (GetAndValidateMetadata_gathers self w1 md Hf Hg), Hreq.
      by rewrite check_required_missing.
    + intros md Heff Hok.
      rewrite (upload_with_run self target_id passphrase retry_4xx token w1 md Heff Hok).
      split.
      * intros cls msg Ho. unfold bind.
        by rewrite (RetryRequest_other self _ "Uploading passphrase" retry_4xx
                      (with_metadata w1 md) cls msg Hmax Ho).
      * intros code msg body Ho Hcode ->. unfold bind.
        by rewrite (RetryRequest_4xx self _ "Uploading passphrase"
                      (with_metadata w1 md) code msg body Hmax Ho Hcode).
  - intros url cls msg Hmax. split.
    + intros Hfmt Ho. unfold RetrieveSecret.
      assert (_FetchXsrfToken self settings.GET_PASSPHRASE_ACTION w
              = (Raises (OtherException cls msg),
                 extend w [EvOpen (add_headers self (Request_ url))])) as Hfetch.
      { rewrite (FetchXsrfToken_run self settings.GET_PASSPHRASE_ACTION url w Hfmt). unfold bind.
        by rewrite (RetryRequest_other self (Request_ url) "Fetching XSRF token" false w
                      cls msg Hmax Ho). }
      by rewrite (bind_raises _ _ _ _ _ Hfetch).
    + intros passphrase retry_4xx Hfmt Ho. unfold UploadPassphrase.
      assert (_FetchXsrfToken self settings.SET_PASSPHRASE_ACTION w
              = (Raises (OtherException cls msg),
                 extend w [EvOpen (add_headers self (Request_ url))])) as Hfetch.
      { rewrite (FetchXsrfToken_run self settings.SET_PASSPHRASE_ACTION url w Hfmt). unfold bind.
        by rewrite (RetryRequest_other self (Request_ url) "Fetching XSRF token" false w
                      cls msg Hmax Ho). }
      by rewrite (bind_raises _ _ _ _ _ Hfetch).
Qed.
End Escapes.

Lemma opener_errors_are_wrapped_witness :
  let self := Examples.new_client (Examples.answering (JSON_PREFIX +:+ "{}"))
                (Returns Examples.machine) in
  let w1 := snd (_FetchXsrfToken self settings.GET_PASSPHRASE_ACTION world0) in
  _FetchXsrfToken self settings.GET_PASSPHRASE_ACTION world0 = (Returns "tok", w1) /\
  opener self (trace w1) (Request_ (retrieve_url self "vol-1" "tok"))
  = Responds (JSON_PREFIX +:+ "{}") /\
  json_loads "{}" = Json (PyDict []) /\
  fst (RetrieveSecret self "vol-1" world0) = Raises (KeyError "passphrase").
Proof.
  intros self w1.
  assert (_FetchXsrfToken self settings.GET_PASSPHRASE_ACTION world0
          = (Returns "tok", w1)) as Htok by (vm_compute; reflexivity).
  assert (opener self (trace w1) (Request_ (retrieve_url self "vol-1" "tok"))
          = Responds (JSON_PREFIX +:+ "{}")) as Ho by (vm_compute; reflexivity).
  assert (json_loads "{}" = Json (PyDict [])) as Hj by (vm_compute; reflexivity).
  split; [exact Htok|]. split; [exact Ho|]. split; [exact Hj|].
  destruct (opener_errors_are_wrapped self "vol-1" world0) as (_ & _ & _ & _ & Hget & _).
  pose proof (Hget "tok" w1 Htok) as Hcases. cbv zeta in Hcases.
  destruct Hcases as (_ & _ & _ & _ & _ & _ & Hkey & _).
  apply (Hkey "{}" [] Ho Hj). constructor.
Defined.

(** C9 as stated fails on [RetrieveSecret]: a body that is not JSON
    after the prefix lets [ValueError] out, and one that has no passphrase
    member lets [KeyError] out; neither is an error of the client. *)
Lemma undecodable_body_escapes :
  let garbled := Examples.new_client (Examples.answering (JSON_PREFIX +:+ "not json"))
                   (Returns Examples.machine) in
  let keyless := Examples.new_client (Examples.answering (JSON_PREFIX +:+ "{}"))
                   (Returns Examples.machine) in
  fst (RetrieveSecret garbled "vol-1" world0)
  = Raises (ValueError "No JSON object could be decoded") /\
  isinstance_Error (ValueError "No JSON object could be decoded") = false /\
  fst (RetrieveSecret keyless "vol-1" world0) = Raises (KeyError "passphrase") /\
  isinstance_Error (KeyError "passphrase") = false.
Proof. vm_compute. repeat split; reflexivity. Qed.

(** ** The workflows *)

Lemma ShowFatalError_run message w :
  ShowFatalError message w
  = (Returns tt, {| trace := trace w ++ fatal_events message;
                    _metadata := _metadata w;
                    top_frame := Some (fatal_screen message) |}).
Proof.
  unfold ShowFatalError, _PrepTop, fatal_events, fatal_screen, bind, logging_exception,
    emit, set_top_frame, pack, extend, ret.
  simpl. destruct (negb (message =? "")%string); simpl;
    by rewrite <- ?app_assoc.
Qed.

Lemma try_except_returns {A} (m : M A) catches handler w a w1 :
  m w = (Returns a, w1) -> try_except m catches handler w = (Returns a, w1).
Proof. intros Hm. unfold try_except. by rewrite Hm. Qed.

Lemma try_except_caught {A} (m : M A) catches handler w e w1 :
  m w = (Raises e, w1) -> catches e = true ->
  try_except m catches handler w = handler e w1.
Proof. intros Hm Hc. unfold try_except. by rewrite Hm, Hc. Qed.

Section Screens.
Context `{PyLib} `{Glue}.

(** C8, as amended. When the local key rotation has succeeded and the
    upload then fails with an error of the client, the rotate-key workflow
    shows the generic escrow-failed message of [glue], and the
    encrypt-new-volume workflow shows the same screen and logs the same
    message when its upload fails. *)
Theorem upload_failure_shows_escrow_failed (self : Gui) (w : World) :
  (forall client_ volume_uuid passwd recovery_key w1 e w2,
     UpdateEscrowPassphrase (username self) passwd w = (Returns recovery_key, w1) ->
     UploadPassphrase client_ volume_uuid recovery_key false w1 = (Raises e, w2) ->
     isinstance_Error e = true ->
     _RotateRecoveryKey self client_ volume_uuid passwd w
     = (Returns tt, {| trace := trace w2 ++ fatal_events ESCROW_FAILED_MESSAGE;
                       _metadata := _metadata w2;
                       top_frame := Some (fatal_screen ESCROW_FAILED_MESSAGE) |})) /\
  (forall client_ w0 volume_uuid recovery_token w1 e w2,
     _Authenticate self w = (Returns (Some client_), w0) ->
     ApplyEncryption client_ (input_user self) (input_pass self)
       (snd (_PrepTop (Some "Applying encryption...") w0))
     = (Returns (volume_uuid, recovery_token), w1) ->
     UploadPassphrase client_ volume_uuid recovery_token false w1 = (Raises e, w2) ->
     isinstance_Error e = true ->
     _PlainVolumeAction self w
     = (Returns tt, {| trace := trace w2 ++ fatal_events ESCROW_FAILED_MESSAGE;
                       _metadata := _metadata w2;
                       top_frame := Some (fatal_screen ESCROW_FAILED_MESSAGE) |})).
Proof.
  split.
  - intros client_ volume_uuid passwd recovery_key w1 e w2 Hrot Hup He.
    unfold _RotateRecoveryKey. unfold bind at 1.
    erewrite try_except_returns; [|by rewrite (bind_returns _ _ _ _ _ Hrot)].
    unfold bind at 1.
    erewrite try_except_caught; [| by rewrite (bind_raises _ _ _ _ _ Hup) | exact He].
    unfold bind at 1. rewrite ShowFatalError_run. reflexivity.
  - intros client_ w0 volume_uuid recovery_token w1 e w2 Hauth Happly Hup He.
    unfold _PlainVolumeAction. unfold bind at 1.
    rewrite (try_except_returns _ _ _ _ _ _ Hauth).
    unfold bind at 1.
    destruct (_PrepTop (Some "Applying encryption...") w0) as [[[]|e0] w0'] eqn:Hprep.
    2:{ exfalso. revert Hprep. unfold _PrepTop, bind, set_top_frame, pack, emit, ret.
        simpl. discriminate. }
    simpl in Happly.
    unfold bind at 1.
    erewrite try_except_returns; [|by rewrite (bind_returns _ _ _ _ _ Happly)].
    unfold bind at 1.
    erewrite try_except_caught; [| by rewrite (bind_raises _ _ _ _ _ Hup) | exact He].
    unfold bind at 1. rewrite ShowFatalError_run. reflexivity.
Qed.
End Screens.

Lemma upload_failure_shows_escrow_failed_witness :
  let self := sample_gui Examples.down in
  let client_ := Examples.new_client Examples.down (Returns Examples.machine) in
  let w2 := snd (UploadPassphrase client_ "vol-1" "recovery-2" false world0) in
  UpdateEscrowPassphrase (username self) "pw" world0 = (Returns "recovery-2", world0) /\
  UploadPassphrase client_ "vol-1" "recovery-2" false world0
  = (Raises (RequestError
       "Fetching XSRF token failed permanently: <urlopen error timed out>"), w2) /\
  top_frame (snd (_RotateRecoveryKey self client_ "vol-1" "pw" world0))
  = Some [Label "Escrow of the recovery key failed."; Button "OK" "quit"].
Proof.
  intros self client_ w2.
  assert (UpdateEscrowPassphrase (username self) "pw" world0
          = (Returns "recovery-2", world0)) as Hrot by reflexivity.
  assert (UploadPassphrase client_ "vol-1" "recovery-2" false world0
          = (Raises (RequestError
               "Fetching XSRF token failed permanently: <urlopen error timed out>"), w2))
    as Hup by (vm_compute; reflexivity).
  split; [exact Hrot|]. split; [exact Hup|].
  destruct (upload_failure_shows_escrow_failed self world0) as (Hrotate & _).
  rewrite (Hrotate client_ "vol-1" "pw" "recovery-2" world0 _ w2 Hrot Hup eq_refl).
  reflexivity.
Defined.

(** C8 as stated fails: with the local key already rotated, a
    failed upload leaves the operator the very screen, and the log the very
    message, that a failed upload leaves in the encrypt-new-volume
    workflow. *)
Lemma rotation_failure_is_not_told_apart :
  let self := sample_gui Examples.down in
  let client_ := Examples.new_client Examples.down (Returns Examples.machine) in
  let rotated := _RotateRecoveryKey self client_ "vol-1" "pw" world0 in
  let encrypted := _PlainVolumeAction self world0 in
  fst (UpdateEscrowPassphrase "kim" "pw" world0) = Returns "recovery-2" /\
  top_frame (snd rotated)
  = Some [Label "Escrow of the recovery key failed."; Button "OK" "quit"] /\
  top_frame (snd encrypted) = top_frame (snd rotated) /\
  last (logged_exceptions (trace (snd rotated)))
  = Some "Escrow of the recovery key failed." /\
  last (logged_exceptions (trace (snd encrypted)))
  = last (logged_exceptions (trace (snd rotated))).
Proof. vm_compute. repeat split; reflexivity. Qed.

(** * Further properties of the code *)

(** ** The retry transport, beyond the claims *)

(** X1. [_RetryRequest] returns the response of the first attempt the opener
    answers: after [n] failures that were retried, an answer to attempt [n]
    is returned at once, with no sleep and no request after it. *)
Theorem retry_request_returns_first_answer (self : Client) (request : Request)
    (description : string) (retry_4xx : bool) (w : World) (n : nat) (body : string) :
  let sent := add_headers self request in
  let outcome := attempt_outcome self sent description (trace w) in
  n < MAX_TRIES self ->
  (forall k, k < n -> retryable retry_4xx (outcome k) = true) ->
  outcome n = Responds body ->
  _RetryRequest self request description retry_4xx w
  = (Returns (Some (mkResponse body)),
     extend w (rounds self sent description (trace w) n ++ [EvOpen sent])).
Proof.
  intros sent outcome Hlt Hall Ho. unfold _RetryRequest. fold sent.
  rewrite (retry_loop_rounds self sent description retry_4xx w n Hlt Hall).
  replace (MAX_TRIES self - n) with (S (MAX_TRIES self - S n)) by lia.
  cbn [seq]. rewrite retry_loop_cons.
  rewrite (retry_body_success self sent description n retry_4xx
             (extend w (rounds self sent description (trace w) n)) body Ho).
  by rewrite extend_extend.
Qed.

Lemma retry_request_returns_first_answer_witness :
  let self := Examples.new_client (Examples.flaky "done") (Returns Examples.machine) in
  let request := Request_ "https://cv.example.com/filevault" in
  let sent := add_headers self request in
  1 < MAX_TRIES self /\
  retryable false (attempt_outcome self sent "Uploading passphrase" [] 0) = true /\
  attempt_outcome self sent "Uploading passphrase" [] 1 = Responds "done" /\
  _RetryRequest self request "Uploading passphrase" false world0
  = (Returns (Some (mkResponse "done")),
     extend world0 (rounds self sent "Uploading passphrase" [] 1 ++ [EvOpen sent])).
Proof.
  intros self request sent.
  assert (retryable false (attempt_outcome self sent "Uploading passphrase" [] 0) = true)
    as H0 by (vm_compute; reflexivity).
  assert (attempt_outcome self sent "Uploading passphrase" [] 1 = Responds "done")
    as H1 by (vm_compute; reflexivity).
  split; [simpl; lia|]. split; [exact H0|]. split; [exact H1|].
  apply (retry_request_returns_first_answer self request "Uploading passphrase" false
           world0 1 "done"); [simpl; lia | | exact H1].
  intros k Hk. replace k with 0 by lia. exact H0.
Defined.

Lemma sleeps_schedule self request n : forall a,
  sleeps (schedule self request a (S n))
  = map (fun k => (k + 1) * TRY_DELAY_FACTOR self) (seq a n).
Proof.
  induction n as [|n IH]; intros a; [done|].
  change (schedule self request a (S (S n)))
    with (EvOpen request :: EvSleep ((a + 1) * TRY_DELAY_FACTOR self)
            :: schedule self request (S a) (S n)).
  cbn [sleeps flat_map app seq map]. f_equal. apply IH.
Qed.

Lemma opens_schedule self request n : forall a,
  opens (schedule self request a n) = repeat request n.
Proof.
  induction n as [|n IH]; intros a; [done|].
  destruct n as [|n]; [done|].
  change (schedule self request a (S (S n)))
    with (EvOpen request :: EvSleep ((a + 1) * TRY_DELAY_FACTOR self)
            :: schedule self request (S a) (S n)).
  cbn [opens flat_map app]. change (repeat request (S (S n)))
    with (request :: repeat request (S n)). f_equal. apply IH.
Qed.

(** X2. Under [retry_4xx=True] a 4xx answer is retried like any other
    failure: when every attempt ends in an HTTP error of whatever status or
    a connection error, all [MAX_TRIES] attempts are made, with the sleeps
    of the schedule between them, and the call raises the permanent
    failure with the last error. *)
Theorem retry_4xx_retries_client_errors (self : Client) (request : Request)
    (description : string) (w : World) (m : nat) :
  let sent := add_headers self request in
  let outcome := attempt_outcome self sent description (trace w) in
  MAX_TRIES self = S m ->
  (forall k, k <= m -> is_url_error (outcome k) = true) ->
  exists delta,
    _RetryRequest self request description true w
    = (Raises (RequestError (description +:+ " failed permanently: " +:+
                             error_text (outcome m))),
       extend w delta) /\
    opens delta = repeat sent (MAX_TRIES self) /\
    sleeps delta = map (fun k => (k + 1) * TRY_DELAY_FACTOR self) (seq 0 m).
Proof.
  intros sent outcome Hmax Hall.
  assert (forall k, k <= m -> retryable true (outcome k) = true) as Hretry.
  { intros k Hk. specialize (Hall k Hk).
    destruct (outcome k); try discriminate; [apply orb_true_r | done]. }
  eexists. split.
  - unfold _RetryRequest. fold sent.
    apply (retry_loop_exhausted self sent description true w m Hmax Hretry).
  - rewrite <- (opens_net_events (_ ++ _)), <- (sleeps_net_events (_ ++ _)).
    rewrite net_events_exhausted, Hmax.
    split; [apply opens_schedule | apply sleeps_schedule].
Qed.

Lemma retry_4xx_retries_client_errors_witness :
  let self := Examples.new_client Examples.forbidding (Returns Examples.machine) in
  let request := Request_ "https://cv.example.com/filevault" in
  MAX_TRIES self = 5 /\
  exists delta,
    _RetryRequest self request "Uploading passphrase" true world0
    = (Raises (RequestError
         "Uploading passphrase failed permanently: HTTP Error 403: Forbidden: no access"),
       extend world0 delta) /\
    opens delta = repeat (add_headers self request) 5 /\
    sleeps delta = [5; 10; 15; 20].
Proof.
  intros self request. split; [reflexivity|].
  apply (retry_4xx_retries_client_errors self request "Uploading passphrase" world0 4);
    [reflexivity | intros k _; reflexivity].
Defined.

(** X3. With [MAX_TRIES = 0] the loop body never runs: [_RetryRequest]
    sends nothing and returns [None], so the token fetch raises
    [AttributeError] when it reads the response, and [RetrieveSecret] and
    [UploadPassphrase] end there, with no request sent. *)
Theorem no_tries_no_requests `{PyLib} (self : Client) (w : World) :
  MAX_TRIES self = 0 ->
  (forall request description retry_4xx,
     _RetryRequest self request description retry_4xx w = (Returns None, w)) /\
  (forall action url,
     percent_format (xsrf_url self) (Some action) = Returns url ->
     _FetchXsrfToken self action w
     = (Raises (AttributeError "'NoneType' object has no attribute 'read'"), w)) /\
  (forall target_id url,
     percent_format (xsrf_url self) (Some "RetrieveSecret") = Returns url ->
     RetrieveSecret self target_id w
     = (Raises (AttributeError "'NoneType' object has no attribute 'read'"), w)) /\
  (forall target_id passphrase retry_4xx url,
     percent_format (xsrf_url self) (Some "UploadPassphrase") = Returns url ->
     UploadPassphrase self target_id passphrase retry_4xx w
     = (Raises (AttributeError "'NoneType' object has no attribute 'read'"), w)).
Proof.
  intros Hmax.
  assert (forall request description retry_4xx,
            _RetryRequest self request description retry_4xx w = (Returns None, w))
    as Hretry.
  { intros. unfold _RetryRequest. by rewrite Hmax. }
  assert (forall action url,
     percent_format (xsrf_url self) (Some action) = Returns url ->
     _FetchXsrfToken self action w
     = (Raises (AttributeError "'NoneType' object has no attribute 'read'"), w))
    as Hfetch.
  { intros action url Hfmt. rewrite (FetchXsrfToken_run self action url w Hfmt).
    unfold bind. by rewrite Hretry. }
  split; [exact Hretry|]. split; [exact Hfetch|]. split.
  - intros target_id url Hfmt. unfold RetrieveSecret.
    apply bind_raises. by apply (Hfetch _ url).
  - intros target_id passphrase retry_4xx url Hfmt. unfold UploadPassphrase.
    apply bind_raises. by apply (Hfetch _ url).
Qed.

Lemma no_tries_no_requests_witness :
  let self := {| ESCROW_PATH := "/filevault";
                 REQUIRED_METADATA := settings.FILEVAULT_REQUIRED_PROPERTIES;
                 MAX_TRIES := 0; TRY_DELAY_FACTOR := 5;
                 _GetMetadata := Returns Examples.machine;
                 base_url := "https://cv.example.com";
                 xsrf_url := "https://cv.example.com/xsrf-token/%s";
                 escrow_url := "https://cv.example.com/filevault";
                 opener := Examples.answering "x"; headers := [] |} in
  MAX_TRIES self = 0 /\
  UploadPassphrase self "vol-1" "p1" false world0
  = (Raises (AttributeError "'NoneType' object has no attribute 'read'"), world0).
Proof.
  intros self. split; [reflexivity|].
  destruct (no_tries_no_requests self world0 eq_refl) as (_ & _ & _ & Hup).
  apply (Hup "vol-1" "p1" false "https://cv.example.com/xsrf-token/UploadPassphrase").
  reflexivity.
Defined.

(** ** Headers *)

Lemma add_header_fold hs : forall request,
  fold_left (fun r kv => add_header (fst kv) (snd kv) r) hs request
  = {| req_method := req_method request; req_url := req_url request;
       req_headers := fold_left (fun m kv => <[capitalize (fst kv) := snd kv]> m) hs
                        (req_headers request);
       req_data := req_data request |}.
Proof.
  induction hs as [|kv hs IH]; intros request; [by destruct request|].
  cbn [fold_left]. by rewrite IH.
Qed.

Lemma fold_insert_other (hs : list (string * string)) (name : string) :
  forall m : gmap string string,
  Forall (fun kv => capitalize (fst kv) <> name) hs ->
  fold_left (fun m kv => <[capitalize (fst kv) := snd kv]> m) hs m !! name = m !! name.
Proof.
  induction hs as [|kv hs IH]; intros m Hall; [done|].
  inversion Hall as [|? ? Hkv Hrest]; subst. cbn [fold_left].
  rewrite IH by done. by apply lookup_insert_ne.
Qed.

Lemma add_headers_data self request :
  req_data (add_headers self request) = req_data request.
Proof. unfold add_headers. by rewrite add_header_fold. Qed.

(** X4. The request [_RetryRequest] sends is the caller's request with each
    pair of [self.headers] added under its capitalised name: URL, method
    and body are the caller's, a header the client does not name is kept,
    and of the pairs whose names capitalise alike the last one is sent. *)
Theorem sent_request_carries_client_headers (self : Client) (request : Request) :
  let sent := add_headers self request in
  req_url sent = req_url request /\
  req_method sent = req_method request /\
  req_data sent = req_data request /\
  (forall name,
     Forall (fun kv => capitalize (fst kv) <> name) (headers self) ->
     req_headers sent !! name = req_headers request !! name) /\
  (forall earlier k v later,
     headers self = earlier ++ (k, v) :: later ->
     Forall (fun kv => capitalize (fst kv) <> capitalize k) later ->
     req_headers sent !! capitalize k = Some v).
Proof.
  intros sent. subst sent. unfold add_headers. rewrite add_header_fold. cbn.
  split; [done|]. split; [done|]. split; [done|]. split.
  - intros name Hall. by apply fold_insert_other.
  - intros earlier k v later -> Hlater.
    rewrite fold_left_app. cbn [fold_left fst snd].
    rewrite fold_insert_other by done. apply lookup_insert_eq.
Qed.

Lemma sent_request_carries_client_headers_witness :
  let self := Examples.new_client Examples.down (Returns Examples.machine) in
  let sent := add_headers self (PutRequest "https://cv.example.com/filevault" "p1") in
  headers self = [] ++ ("authorization", "Bearer t0") :: [] /\
  req_headers sent !! "Authorization" = Some "Bearer t0" /\
  req_headers sent !! "Content-type" = Some "application/octet-stream".
Proof.
  intros self sent.
  destruct (sent_request_carries_client_headers self
              (PutRequest "https://cv.example.com/filevault" "p1"))
    as (_ & _ & _ & Hkeep & Hadd).
  split; [reflexivity|]. split.
  - apply (Hadd [] "authorization" "Bearer t0" []); [reflexivity | constructor].
  - fold sent in Hkeep. rewrite Hkeep; [vm_compute; reflexivity|].
    repeat constructor. vm_compute. discriminate.
Defined.

(** ** The token URL *)

Lemma append_nil_r (s : string) : s +:+ "" = s.
Proof. induction s as [|a s IH]; [done|]. rewrite append_cons. by rewrite IH. Qed.

Lemma percent_format_plain p : forall rest arg,
  no_percent p = true ->
  percent_format (p +:+ rest) arg = map_result (String.append p) (percent_format rest arg).
Proof.
  induction p as [|a p IH]; intros rest arg Hp.
  - change ("" +:+ rest) with rest. by destruct (percent_format rest arg).
  - cbn [no_percent] in Hp. apply andb_true_iff in Hp as [Ha Hp].
    apply negb_true_iff in Ha. rewrite append_cons. cbn [percent_format].
    rewrite Ha, IH by done. by destruct (percent_format rest arg).
Qed.

Lemma percent_format_action p action :
  no_percent p = true ->
  percent_format (p +:+ "%s") (Some action) = Returns (p +:+ action).
Proof.
  intros Hp. rewrite percent_format_plain by done. cbn. by rewrite append_nil_r.
Qed.

(** X5. The token is asked for at [xsrf_url] with the action name in the
    place of its [%s]: when [xsrf_url] is a text without percent signs
    followed by [%s], every request of [_FetchXsrfToken] is a GET of that
    text followed by the action name, and with [MAX_TRIES > 0] there is at
    least one. *)
Theorem token_url_names_the_action (self : Client) (action p : string) (w : World) :
  xsrf_url self = p +:+ "%s" ->
  no_percent p = true ->
  exists delta,
    snd (_FetchXsrfToken self action w) = extend w delta /\
    Forall (fun r => req_url r = p +:+ action /\ req_method r = GET /\ req_data r = None)
      (opens delta) /\
    (0 < MAX_TRIES self -> opens delta <> []).
Proof.
  intros Hurl Hp.
  assert (percent_format (xsrf_url self) (Some action) = Returns (p +:+ action)) as Hfmt.
  { rewrite Hurl. by apply percent_format_action. }
  destruct (FetchXsrfToken_requests self action _ w Hfmt) as (delta & Hw & Hall).
  exists delta. split; [exact Hw|]. split.
  - eapply List.Forall_impl; [|exact Hall]. intros r ->.
    by rewrite add_headers_url, add_headers_method, add_headers_data.
  - intros Hmax Hnil.
    destruct (FetchXsrfToken_starts self action _ w Hfmt Hmax) as (rest & Hstart).
    rewrite Hw in Hstart. unfold extend in Hstart.
    injection Hstart as Heq. apply app_inv_head in Heq. subst delta. discriminate.
Qed.

Lemma token_url_names_the_action_witness :
  let self := Examples.new_client (Examples.answering "x") (Returns Examples.machine) in
  xsrf_url self = "https://cv.example.com/xsrf-token/" +:+ "%s" /\
  no_percent "https://cv.example.com/xsrf-token/" = true /\
  exists delta,
    snd (_FetchXsrfToken self "Maintenance" world0) = extend world0 delta /\
    Forall (fun r => req_url r = "https://cv.example.com/xsrf-token/" +:+ "Maintenance"
                     /\ req_method r = GET /\ req_data r = None) (opens delta) /\
    (0 < MAX_TRIES self -> opens delta <> []).
Proof.
  intros self. split; [reflexivity|]. split; [reflexivity|].
  apply (token_url_names_the_action self "Maintenance"
           "https://cv.example.com/xsrf-token/" world0); reflexivity.
Defined.

(** ** Memoised metadata *)

(** X7. Metadata is gathered once.  A call of [GetAndValidateMetadata] on a
    client whose metadata is unset or empty stores what [_GetMetadata]
    returns, whether or not validation passes, and touches nothing else;
    with metadata stored and not empty a call leaves the client as it is and
    does not consult [_GetMetadata], so a second call repeats the result of
    the first. *)
Theorem metadata_is_gathered_once (self : Client) (w : World)
    (md : gmap string PyVal) :
  (metadata_falsy (_metadata w) = true -> _GetMetadata self = Returns md ->
   snd (GetAndValidateMetadata self w) = with_metadata w md) /\
  (_metadata w = Some md -> md <> ∅ ->
   snd (GetAndValidateMetadata self w) = w /\
   forall other,
     REQUIRED_METADATA other = REQUIRED_METADATA self ->
     GetAndValidateMetadata other w = GetAndValidateMetadata self w) /\
  (metadata_falsy (_metadata w) = true -> _GetMetadata self = Returns md -> md <> ∅ ->
   GetAndValidateMetadata self (snd (GetAndValidateMetadata self w))
   = (fst (GetAndValidateMetadata self w), snd (GetAndValidateMetadata self w))).
Proof.
  split; [|split].
  - intros Hf Hg. by rewrite (GetAndValidateMetadata_gathers self w md Hf Hg).
  - intros Hmd Hne. split.
    + by rewrite (GetAndValidateMetadata_loaded self w md Hmd Hne).
    + intros other Hreq.
      rewrite (GetAndValidateMetadata_loaded self w md Hmd Hne),
        (GetAndValidateMetadata_loaded other w md Hmd Hne).
      by rewrite Hreq.
  - intros Hf Hg Hne. rewrite (GetAndValidateMetadata_gathers self w md Hf Hg). cbn [fst snd].
    rewrite (GetAndValidateMetadata_loaded self (with_metadata w md) md eq_refl Hne).
    f_equal. apply check_required_world.
Qed.

Lemma metadata_is_gathered_once_witness :
  let self := Examples.new_client Examples.down (Returns Examples.machine) in
  metadata_falsy (_metadata world0) = true /\
  _GetMetadata self = Returns Examples.machine /\
  snd (GetAndValidateMetadata self world0) = with_metadata world0 Examples.machine.
Proof.
  intros self. split; [reflexivity|]. split; [reflexivity|].
  destruct (metadata_is_gathered_once self world0 Examples.machine) as (Hfirst & _).
  apply Hfirst; reflexivity.
Defined.

(** ** Uploading *)

Section Uploading.
Context `{PyLib}.

Lemma FetchXsrfToken_keeps_metadata self action w token w1 :
  _FetchXsrfToken self action w = (Returns token, w1) ->
  _metadata w1 = _metadata w /\ top_frame w1 = top_frame w.
Proof.
  intros Hfetch.
  by destruct (FetchXsrfToken_returns _ _ _ _ _ Hfetch) as (url & before & _ & -> & _).
Qed.

(** X8. Validation is not repeated after it has failed.  When
    [GetAndValidateMetadata] raises [MetadataError] on metadata it has just
    gathered, that metadata stays stored; a following [UploadPassphrase]
    finds it set, skips validation, and once it has its token goes on to
    the PUT with the incomplete metadata in its URL. *)
Theorem upload_after_failed_validation_skips_it (self : Client) (w w' : World)
    (md : gmap string PyVal) (msg : string) :
  metadata_falsy (_metadata w) = true ->
  _GetMetadata self = Returns md ->
  md <> ∅ ->
  GetAndValidateMetadata self w = (Raises (MetadataError msg), w') ->
  _metadata w' = Some md /\
  forall target_id passphrase retry_4xx token w1,
    _FetchXsrfToken self settings.SET_PASSPHRASE_ACTION w' = (Returns token, w1) ->
    let put := PutRequest (upload_url self md token target_id) passphrase in
    UploadPassphrase self target_id passphrase retry_4xx w'
    = bind (_RetryRequest self put "Uploading passphrase" retry_4xx)
        (fun _ => ret tt) w1 /\
    (0 < MAX_TRIES self ->
     exists rest,
       trace (snd (UploadPassphrase self target_id passphrase retry_4xx w'))
       = trace w1 ++ EvOpen (add_headers self put) :: rest).
Proof.
  intros Hf Hg Hne Hval.
  rewrite (GetAndValidateMetadata_gathers self w md Hf Hg) in Hval.
  injection Hval as _ <-. split; [reflexivity|].
  intros target_id passphrase retry_4xx token w1 Hfetch put.
  destruct (FetchXsrfToken_keeps_metadata _ _ _ _ _ Hfetch) as [Hmd _].
  assert (UploadPassphrase self target_id passphrase retry_4xx (with_metadata w md)
          = bind (_RetryRequest self put "Uploading passphrase" retry_4xx)
              (fun _ => ret tt) w1) as Hrun.
  { unfold UploadPassphrase. rewrite (bind_returns _ _ _ _ _ Hfetch).
    by apply upload_with_loaded. }
  split; [exact Hrun|].
  intros Hmax. rewrite Hrun.
  destruct (bind_world (_RetryRequest self put "Uploading passphrase" retry_4xx)
              (fun _ => ret tt) w1) as (delta & ->).
  { intros a w2. exists []. by rewrite extend_nil. }
  destruct (RetryRequest_starts self put "Uploading passphrase" retry_4xx w1 Hmax)
    as (rest & ->).
  exists (rest ++ delta). by rewrite extend_extend.
Qed.

(** X9. A successful upload.  With metadata stored, once the token is
    fetched and the opener answers the PUT, [UploadPassphrase] returns
    after that one request: a PUT whose body is the passphrase, sent as
    [application/octet-stream], to the escrow URL with the query of the
    metadata plus the token and the volume.  The token and the volume
    override metadata of the same name, and neither is stored in the
    client's metadata. *)
Theorem upload_sends_one_put (self : Client) (target_id passphrase : string)
    (retry_4xx : bool) (w w1 : World) (token body : string) (md : gmap string PyVal) :
  let put := PutRequest (upload_url self md token target_id) passphrase in
  _metadata w = Some md -> md <> ∅ ->
  _FetchXsrfToken self settings.SET_PASSPHRASE_ACTION w = (Returns token, w1) ->
  opener self (trace w1) (add_headers self put) = Responds body ->
  UploadPassphrase self target_id passphrase retry_4xx w
  = (Returns tt, extend w1 [EvOpen (add_headers self put)]) /\
  _metadata (extend w1 [EvOpen (add_headers self put)]) = Some md /\
  req_method put = PUT /\
  req_data put = Some passphrase /\
  req_headers put !! "Content-type" = Some "application/octet-stream" /\
  req_url put
  = escrow_url self +:+ "?" +:+ urllib_urlencode (upload_parameters md token target_id) /\
  upload_parameters md token target_id !! "volume_uuid" = Some (PyStr target_id) /\
  upload_parameters md token target_id !! "xsrf-token" = Some (PyStr token) /\
  (forall key, key <> "volume_uuid" -> key <> "xsrf-token" ->
               upload_parameters md token target_id !! key = md !! key).
Proof.
  intros put Hmd Hne Hfetch Ho.
  destruct (FetchXsrfToken_keeps_metadata _ _ _ _ _ Hfetch) as [Hmd1 _].
  rewrite Hmd in Hmd1.
  split; [|split; [exact Hmd1|]].
  - unfold UploadPassphrase. rewrite (bind_returns _ _ _ _ _ Hfetch).
    rewrite (upload_with_loaded self target_id passphrase retry_4xx token w1 md Hmd1 Hne).
    fold put. unfold bind.
    assert (0 < MAX_TRIES self) as Hmax.
    { destruct (MAX_TRIES self) eqn:Hm; [|lia]. exfalso.
      destruct (FetchXsrfToken_returns _ _ _ _ _ Hfetch) as (url & before & Hfmt & _).
      rewrite (FetchXsrfToken_run self _ url w Hfmt) in Hfetch.
      unfold bind, _RetryRequest in Hfetch. rewrite Hm in Hfetch. discriminate. }
    unfold _RetryRequest.
    replace (MAX_TRIES self) with (S (MAX_TRIES self - 1)) at 1 by lia.
    cbn [seq]. rewrite retry_loop_cons.
    by rewrite (retry_body_success self (add_headers self put) "Uploading passphrase"
                  0 retry_4xx w1 body Ho).
  - repeat split.
    + unfold upload_parameters. apply lookup_insert_eq.
    + unfold upload_parameters. rewrite lookup_insert_ne by done. apply lookup_insert_eq.
    + intros key H1 H2. unfold upload_parameters.
      rewrite lookup_insert_ne by done. by rewrite lookup_insert_ne.
Qed.
End Uploading.

Lemma upload_after_failed_validation_skips_it_witness :
  let md : gmap string PyVal :=
    {[ "hdd_serial" := PyStr "WD-1"; "serial" := PyStr "C02X" ]} in
  let self := Examples.new_client (Examples.answering "ok") (Returns md) in
  let w' := snd (GetAndValidateMetadata self world0) in
  metadata_falsy (_metadata world0) = true /\
  _GetMetadata self = Returns md /\
  md <> ∅ /\
  GetAndValidateMetadata self world0
  = (Raises (MetadataError "Required metadata is not found: platform_uuid"), w') /\
  _metadata w' = Some md /\
  fst (UploadPassphrase self "vol-1" "p1" false w') = Returns tt.
Proof.
  intros md self w'.
  assert (md <> ∅) as Hne.
  { intros Hmd. apply (f_equal (fun m : gmap string PyVal => m !! "serial")) in Hmd.
    vm_compute in Hmd. discriminate Hmd. }
  assert (GetAndValidateMetadata self world0
          = (Raises (MetadataError "Required metadata is not found: platform_uuid"), w'))
    as Hval by (vm_compute; reflexivity).
  split; [reflexivity|]. split; [reflexivity|]. split; [exact Hne|]. split; [exact Hval|].
  destruct (upload_after_failed_validation_skips_it self world0 w' md _
              eq_refl eq_refl Hne Hval) as (Hstored & _).
  split; [exact Hstored|]. vm_compute. reflexivity.
Defined.

Lemma upload_sends_one_put_witness :
  let self := Examples.new_client (Examples.answering "ok") (Returns Examples.machine) in
  let w := with_metadata world0 Examples.machine in
  let w1 := snd (_FetchXsrfToken self settings.SET_PASSPHRASE_ACTION w) in
  let put := PutRequest (upload_url self Examples.machine "tok" "vol-1") "p1" in
  _metadata w = Some Examples.machine /\
  Examples.machine <> ∅ /\
  _FetchXsrfToken self settings.SET_PASSPHRASE_ACTION w = (Returns "tok", w1) /\
  opener self (trace w1) (add_headers self put) = Responds "ok" /\
  UploadPassphrase self "vol-1" "p1" false w
  = (Returns tt, extend w1 [EvOpen (add_headers self put)]).
Proof.
  intros self w w1 put.
  assert (Examples.machine <> ∅) as Hne.
  { intros Hmd. apply (f_equal (fun m : gmap string PyVal => m !! "serial")) in Hmd.
    vm_compute in Hmd. discriminate Hmd. }
  assert (_FetchXsrfToken self settings.SET_PASSPHRASE_ACTION w = (Returns "tok", w1))
    as Hfetch by (vm_compute; reflexivity).
  assert (opener self (trace w1) (add_headers self put) = Responds "ok") as Ho
    by (vm_compute; reflexivity).
  split; [reflexivity|]. split; [exact Hne|]. split; [exact Hfetch|]. split; [exact Ho|].
  apply (upload_sends_one_put self "vol-1" "p1" false w w1 "tok" "ok" Examples.machine
           eq_refl Hne Hfetch Ho).
Defined.

(** ** SetOwner *)

Section Owner.
Context `{PyLib}.

(** X10. [SetOwner] stores the owner under the key [owner] and keeps every
    other entry.  With metadata stored it does only that; with none stored
    it gathers and validates first, and when validation raises, the error
    is passed on and the owner is not stored.  The next upload carries the
    owner among its query parameters. *)
Theorem set_owner_stores_owner (self : Client) (owner : string) (w : World)
    (md : gmap string PyVal) :
  (_metadata w = Some md -> md <> ∅ ->
   SetOwner self owner w = (Returns tt, with_metadata w (<["owner" := PyStr owner]> md))) /\
  (metadata_falsy (_metadata w) = true -> _GetMetadata self = Returns md ->
   SetOwner self owner w
   = match fst (GetAndValidateMetadata self w) with
     | Returns _ => (Returns tt, with_metadata w (<["owner" := PyStr owner]> md))
     | Raises e => (Raises e, with_metadata w md)
     end) /\
  (<["owner" := PyStr owner]> md : gmap string PyVal) !! "owner" = Some (PyStr owner) /\
  (forall key, key <> "owner" ->
     (<["owner" := PyStr owner]> md : gmap string PyVal) !! key = md !! key) /\
  (forall token target_id,
     upload_parameters (<["owner" := PyStr owner]> md) token target_id !! "owner"
     = Some (PyStr owner)).
Proof.
  split; [|split; [|split; [|split]]].
  - intros Hmd Hne. unfold SetOwner, bind at 1, get_metadata.
    rewrite Hmd, (metadata_falsy_loaded md Hne).
    unfold bind at 1, ret. unfold bind, get_metadata. by rewrite Hmd.
  - intros Hf Hg. unfold SetOwner, bind at 1, get_metadata. rewrite Hf.
    unfold bind at 1.
    rewrite (GetAndValidateMetadata_gathers self w md Hf Hg). cbn [fst].
    destruct (fst (check_required md (REQUIRED_METADATA self) w)) as [[]|e]; reflexivity.
  - apply lookup_insert_eq.
  - intros key Hkey. by apply lookup_insert_ne.
  - intros token target_id. unfold upload_parameters.
    rewrite !lookup_insert_ne by done. apply lookup_insert_eq.
Qed.

Lemma set_owner_stores_owner_witness :
  let self := Examples.new_client Examples.down (Returns Examples.machine) in
  metadata_falsy (_metadata world0) = true /\
  _GetMetadata self = Returns Examples.machine /\
  SetOwner self "kim" world0
  = (Returns tt, with_metadata world0 (<["owner" := PyStr "kim"]> Examples.machine)).
Proof.
  intros self. split; [reflexivity|]. split; [reflexivity|].
  destruct (set_owner_stores_owner self "kim" world0 Examples.machine) as (_ & Hfresh & _).
  rewrite (Hfresh eq_refl eq_refl). vm_compute. reflexivity.
Defined.

(** ** IsKeyRotationNeeded *)

(** X11. [IsKeyRotationNeeded] sends one GET and follows the prefix contract
    of [RetrieveSecret], but returns the whole decoded value, of whatever
    JSON type.  A body without the prefix raises [RequestError]; a 404 is
    no special case and raises [RequestError] like any HTTP error; a body
    that does not decode raises [ValueError]. *)
Theorem rekey_check_contract (self : Client) (target_id tag : string) (w : World) :
  let get := Request_ (rekey_url self target_id tag) in
  (forall rest v,
     opener self (trace w) get = Responds (JSON_PREFIX +:+ rest) ->
     json_loads rest = Json v ->
     IsKeyRotationNeeded self target_id tag w = (Returns v, extend w [EvOpen get])) /\
  (forall content,
     opener self (trace w) get = Responds content ->
     startswith content JSON_PREFIX = false ->
     IsKeyRotationNeeded self target_id tag w
     = (Raises (RequestError "Expected JSON prefix missing."), extend w [EvOpen get])) /\
  (forall msg body,
     opener self (trace w) get = FailsHTTP 404 msg body ->
     IsKeyRotationNeeded self target_id tag w
     = (Raises (RequestError ("Failed to get status. HTTP Error 404: " +:+ msg +:+ ": "
                              +:+ body)), extend w [EvOpen get])) /\
  (forall rest why,
     opener self (trace w) get = Responds (JSON_PREFIX +:+ rest) ->
     json_loads rest = Malformed why ->
     IsKeyRotationNeeded self target_id tag w
     = (Raises (ValueError why), extend w [EvOpen get])).
Proof.
  intros get. split; [|split; [|split]].
  - intros rest v Ho Hj. rewrite IsKeyRotationNeeded_run. fold get. rewrite Ho.
    cbn [rekey_status]. unfold startswith. by rewrite prefix_app, slice_from_app, Hj.
  - intros content Ho Hp. rewrite IsKeyRotationNeeded_run. fold get. rewrite Ho.
    cbn [rekey_status]. by rewrite Hp.
  - intros msg body Ho. rewrite IsKeyRotationNeeded_run. fold get. by rewrite Ho.
  - intros rest why Ho Hj. rewrite IsKeyRotationNeeded_run. fold get. rewrite Ho.
    cbn [rekey_status]. unfold startswith. by rewrite prefix_app, slice_from_app, Hj.
Qed.

(** X6. The headers a client was built with go out only through
    [_RetryRequest]: the GET of [RetrieveSecret] and the GET of
    [IsKeyRotationNeeded] are sent with no header at all, whatever
    [self.headers] holds. *)
Theorem reads_carry_no_client_headers (self : Client) (target_id : string) (w : World) :
  (forall token w1,
     _FetchXsrfToken self settings.GET_PASSPHRASE_ACTION w = (Returns token, w1) ->
     exists r,
       snd (RetrieveSecret self target_id w) = extend w1 [EvOpen r] /\
       req_url r = retrieve_url self target_id token /\
       req_headers r = ∅ /\ req_method r = GET /\ req_data r = None) /\
  (forall tag,
     exists r,
       snd (IsKeyRotationNeeded self target_id tag w) = extend w [EvOpen r] /\
       req_url r = rekey_url self target_id tag /\
       req_headers r = ∅ /\ req_method r = GET /\ req_data r = None).
Proof.
  split.
  - intros token w1 Hfetch. exists (Request_ (retrieve_url self target_id token)).
    by rewrite (RetrieveSecret_run self target_id w token w1 Hfetch).
  - intros tag. exists (Request_ (rekey_url self target_id tag)).
    by rewrite IsKeyRotationNeeded_run.
Qed.
End Owner.

Lemma rekey_check_contract_witness :
  let self := Examples.new_client (Examples.answering (JSON_PREFIX +:+ "false"))
                (Returns Examples.machine) in
  let get := Request_ (rekey_url self "vol-1" "default") in
  opener self (trace world0) get = Responds (JSON_PREFIX +:+ "false") /\
  json_loads "false" = Json (PyBool false) /\
  IsKeyRotationNeeded self "vol-1" "default" world0
  = (Returns (PyBool false), extend world0 [EvOpen get]).
Proof.
  intros self get.
  assert (opener self (trace world0) get = Responds (JSON_PREFIX +:+ "false")) as Ho
    by (vm_compute; reflexivity).
  assert (json_loads "false" = Json (PyBool false)) as Hj by (vm_compute; reflexivity).
  split; [exact Ho|]. split; [exact Hj|].
  destruct (rekey_check_contract self "vol-1" "default" world0) as (Hok & _).
  exact (Hok "false" (PyBool false) Ho Hj).
Defined.

Lemma reads_carry_no_client_headers_witness :
  let self := Examples.new_client (Examples.answering "x") (Returns Examples.machine) in
  let w1 := snd (_FetchXsrfToken self settings.GET_PASSPHRASE_ACTION world0) in
  headers self = [("authorization", "Bearer t0")] /\
  _FetchXsrfToken self settings.GET_PASSPHRASE_ACTION world0 = (Returns "tok", w1) /\
  exists r,
    snd (RetrieveSecret self "vol-1" world0) = extend w1 [EvOpen r] /\
    req_url r = retrieve_url self "vol-1" "tok" /\
    req_headers r = ∅ /\ req_method r = GET /\ req_data r = None.
Proof.
  intros self w1.
  assert (_FetchXsrfToken self settings.GET_PASSPHRASE_ACTION world0 = (Returns "tok", w1))
    as Hfetch by (vm_compute; reflexivity).
  split; [reflexivity|]. split; [exact Hfetch|].
  destruct (reads_carry_no_client_headers self "vol-1" world0) as (Hget & _).
  exact (Hget "tok" w1 Hfetch).
Defined.

(** ** The workflows, beyond the upload failure *)

Lemma try_except_passed {A} (m : M A) catches handler w e w1 :
  m w = (Raises e, w1) -> catches e = false ->
  try_except m catches handler w = (Raises e, w1).
Proof. intros Hm Hc. unfold try_except. by rewrite Hm, Hc. Qed.

Lemma PrepTop_run message w :
  _PrepTop (Some message) w
  = (Returns tt,
     {| trace := trace w ++ (if negb (String.eqb message "") then [EvUpdate] else []);
        _metadata := _metadata w;
        top_frame := Some (if negb (String.eqb message "") then [Label message] else []) |}).
Proof.
  unfold _PrepTop, bind, set_top_frame, pack, emit, extend, ret. simpl.
  destruct (negb (message =? "")%string); simpl; [done|].
  by rewrite app_nil_r.
Qed.

Section Outcomes.
Context `{PyLib} `{Glue}.

(** X12. How [_RotateRecoveryKey] ends when the upload does not fail with a
    client error.  A [glue.Error] of the local rotation is logged as a
    warning and shown, and the upload is not attempted; any other exception
    of the rotation, and any exception of the upload outside
    [base_client.Error], escapes the workflow; when both steps succeed the
    screen says the key was rotated. *)
Theorem rotate_key_outcomes (self : Gui) (client_ : Client)
    (volume_uuid passwd : string) (w : World) :
  (forall msg w1,
     UpdateEscrowPassphrase (username self) passwd w = (Raises (GlueError msg), w1) ->
     _RotateRecoveryKey self client_ volume_uuid passwd w
     = (Returns tt, {| trace := trace w1 ++ EvLog LogWarning msg :: fatal_events msg;
                       _metadata := _metadata w1;
                       top_frame := Some (fatal_screen msg) |})) /\
  (forall e w1,
     UpdateEscrowPassphrase (username self) passwd w = (Raises e, w1) ->
     isinstance_glue_Error e = false ->
     _RotateRecoveryKey self client_ volume_uuid passwd w = (Raises e, w1)) /\
  (forall recovery_key w1 e w2,
     UpdateEscrowPassphrase (username self) passwd w = (Returns recovery_key, w1) ->
     UploadPassphrase client_ volume_uuid recovery_key false w1 = (Raises e, w2) ->
     isinstance_Error e = false ->
     _RotateRecoveryKey self client_ volume_uuid passwd w = (Raises e, w2)) /\
  (forall recovery_key w1 w2,
     UpdateEscrowPassphrase (username self) passwd w = (Returns recovery_key, w1) ->
     UploadPassphrase client_ volume_uuid recovery_key false w1 = (Returns tt, w2) ->
     _RotateRecoveryKey self client_ volume_uuid passwd w
     = (Returns tt, {| trace := trace w2 ++ [EvUpdate];
                       _metadata := _metadata w2;
                       top_frame := Some [Label "Key rotated successfully.";
                                          Button "OK" "quit"] |})).
Proof.
  split; [|split; [|split]].
  - intros msg w1 Hrot. unfold _RotateRecoveryKey. unfold bind at 1.
    erewrite try_except_caught; [| by rewrite (bind_raises _ _ _ _ _ Hrot) | done].
    cbn [str_of_exn]. unfold bind at 1, logging_warning, emit.
    unfold bind at 1. rewrite ShowFatalError_run. unfold ret, extend. cbn.
    by rewrite <- app_assoc.
  - intros e w1 Hrot He. unfold _RotateRecoveryKey. unfold bind at 1.
    erewrite try_except_passed; [done | by rewrite (bind_raises _ _ _ _ _ Hrot) | done].
  - intros recovery_key w1 e w2 Hrot Hup He. unfold _RotateRecoveryKey. unfold bind at 1.
    erewrite try_except_returns; [|by rewrite (bind_returns _ _ _ _ _ Hrot)].
    unfold bind at 1.
    erewrite try_except_passed; [done | by rewrite (bind_raises _ _ _ _ _ Hup) | done].
  - intros recovery_key w1 w2 Hrot Hup. unfold _RotateRecoveryKey. unfold bind at 1.
    erewrite try_except_returns; [|by rewrite (bind_returns _ _ _ _ _ Hrot)].
    unfold bind at 1.
    erewrite try_except_returns; [|by rewrite (bind_returns _ _ _ _ _ Hup)].
    cbn [negb]. unfold bind. rewrite PrepTop_run. reflexivity.
Qed.

(** X13. How [_PlainVolumeAction] ends before it uploads.  When
    [_Authenticate] returns no client, or raises [glue.Error], the action
    returns silently and leaves the window as authentication left it; when
    applying encryption raises [glue.Error] the encryption-failed message
    is shown, and nothing is uploaded. *)
Theorem plain_volume_stops_before_upload (self : Gui) (w : World) :
  (forall w0,
     _Authenticate self w = (Returns None, w0) ->
     _PlainVolumeAction self w = (Returns tt, w0)) /\
  (forall msg w0,
     _Authenticate self w = (Raises (GlueError msg), w0) ->
     _PlainVolumeAction self w = (Returns tt, w0)) /\
  (forall client_ w0 msg w1,
     _Authenticate self w = (Returns (Some client_), w0) ->
     ApplyEncryption client_ (input_user self) (input_pass self)
       (snd (_PrepTop (Some "Applying encryption...") w0))
     = (Raises (GlueError msg), w1) ->
     _PlainVolumeAction self w
     = (Returns tt, {| trace := trace w1 ++ fatal_events ENCRYPTION_FAILED_MESSAGE;
                       _metadata := _metadata w1;
                       top_frame := Some (fatal_screen ENCRYPTION_FAILED_MESSAGE) |})).
Proof.
  split; [|split].
  - intros w0 Hauth. unfold _PlainVolumeAction. unfold bind at 1.
    by rewrite (try_except_returns _ _ _ _ _ _ Hauth).
  - intros msg w0 Hauth. unfold _PlainVolumeAction. unfold bind at 1.
    by rewrite (try_except_caught _ _ _ _ _ _ Hauth eq_refl).
  - intros client_ w0 msg w1 Hauth Happly. unfold _PlainVolumeAction. unfold bind at 1.
    rewrite (try_except_returns _ _ _ _ _ _ Hauth).
    unfold bind at 1. rewrite PrepTop_run in *. cbn [snd] in Happly.
    unfold bind at 1.
    erewrite try_except_caught; [| by rewrite (bind_raises _ _ _ _ _ Happly) | done].
    unfold bind at 1. rewrite ShowFatalError_run. reflexivity.
Qed.

(** X14. After a successful encryption and upload [_PlainVolumeAction]
    offers a restart exactly when [ps] failed or its output lists the
    Finder; otherwise it offers OK.  The button's command and the
    countdown's callback are always the same one. *)
Theorem plain_volume_offers_restart (self : Gui) (w : World)
    (client_ : Client) (w0 w1 w2 : World) (volume_uuid recovery_token : string) :
  _Authenticate self w = (Returns (Some client_), w0) ->
  ApplyEncryption client_ (input_user self) (input_pass self)
    (snd (_PrepTop (Some "Applying encryption...") w0))
  = (Returns (volume_uuid, recovery_token), w1) ->
  UploadPassphrase client_ volume_uuid recovery_token false w1 = (Returns tt, w2) ->
  let process_list := fst (fst (RunProcess_result ["ps"; "auwx"])) in
  let rc := snd (RunProcess_result ["ps"; "auwx"]) in
  let restart := negb (rc =? 0)%Z || contains finder process_list in
  let command := if restart then "_RestartNow" else "quit" in
  let shown := negb (String.eqb ENCRYPTION_SUCCESS_MESSAGE "") in
  _PlainVolumeAction self w
  = (Returns tt,
     {| trace := trace w2 ++ (if shown then [EvUpdate] else []) ++
                 [EvRunProcess ["ps"; "auwx"]; EvCountdownStart command];
        _metadata := _metadata w2;
        top_frame := Some ((if shown then [Label ENCRYPTION_SUCCESS_MESSAGE] else []) ++
                           [Button (if restart then "Restart now" else "OK") command]) |}).
Proof.
  intros Hauth Happly Hup process_list rc restart command shown.
  unfold _PlainVolumeAction. unfold bind at 1.
  rewrite (try_except_returns _ _ _ _ _ _ Hauth).
  unfold bind at 1. rewrite PrepTop_run in *. cbn [snd] in Happly.
  unfold bind at 1.
  erewrite try_except_returns; [|by rewrite (bind_returns _ _ _ _ _ Happly)].
  unfold bind at 1.
  erewrite try_except_returns; [|by rewrite (bind_returns _ _ _ _ _ Hup)].
  cbn [negb]. unfold bind at 1. rewrite PrepTop_run. fold shown.
  unfold bind at 1, RunProcess. unfold bind at 1, emit, ret.
  subst process_list rc restart command.
  destruct (RunProcess_result ["ps"; "auwx"]) as [[pl err] code]. cbn [fst snd].
  assert (((code =? 0)%Z && negb (String.eqb pl "") && contains finder pl)
          || negb (code =? 0)%Z
          = negb (code =? 0)%Z || contains finder pl) as ->.
  { destruct (code =? 0)%Z; cbn; [|done]. rewrite orb_false_r.
    destruct pl as [|a pl]; [by vm_compute | done]. }
  destruct (negb (code =? 0)%Z || contains finder pl);
    unfold bind, pack, emit, extend, ret; cbn;
    by rewrite <- !app_assoc.
Qed.
End Outcomes.

Lemma rotate_key_outcomes_witness :
  let self := sample_gui (Examples.answering "ok") in
  let client_ := Examples.new_client (Examples.answering "ok") (Returns Examples.machine) in
  let w2 := snd (UploadPassphrase client_ "vol-1" "recovery-2" false world0) in
  UpdateEscrowPassphrase (username self) "pw" world0 = (Returns "recovery-2", world0) /\
  UploadPassphrase client_ "vol-1" "recovery-2" false world0 = (Returns tt, w2) /\
  top_frame (snd (_RotateRecoveryKey self client_ "vol-1" "pw" world0))
  = Some [Label "Key rotated successfully."; Button "OK" "quit"].
Proof.
  intros self client_ w2.
  assert (UploadPassphrase client_ "vol-1" "recovery-2" false world0 = (Returns tt, w2))
    as Hup by (vm_compute; reflexivity).
  split; [reflexivity|]. split; [exact Hup|].
  destruct (rotate_key_outcomes self client_ "vol-1" "pw" world0) as (_ & _ & _ & Hok).
  by rewrite (Hok "recovery-2" world0 w2 eq_refl Hup).
Defined.

Lemma plain_volume_stops_before_upload_witness :
  let self := {| username := "kim"; input_user := "kim"; input_pass := "pw";
                 _Authenticate := ret None |} in
  _Authenticate self world0 = (Returns None, world0) /\
  _PlainVolumeAction self world0 = (Returns tt, world0).
Proof.
  intros self. split; [reflexivity|].
  destruct (plain_volume_stops_before_upload self world0) as (Hnone & _).
  apply Hnone. reflexivity.
Defined.

Lemma plain_volume_offers_restart_witness :
  let self := sample_gui (Examples.answering "ok") in
  let client_ := Examples.new_client (Examples.answering "ok") (Returns Examples.machine) in
  let w1 := snd (_PrepTop (Some "Applying encryption...") world0) in
  let w2 := snd (UploadPassphrase client_ "vol-1" "recovery-1" false w1) in
  _Authenticate self world0 = (Returns (Some client_), world0) /\
  ApplyEncryption client_ (input_user self) (input_pass self) w1
  = (Returns ("vol-1", "recovery-1"), w1) /\
  UploadPassphrase client_ "vol-1" "recovery-1" false w1 = (Returns tt, w2) /\
  top_frame (snd (_PlainVolumeAction self world0))
  = Some [Label "Encryption enabled."; Button "OK" "quit"].
Proof.
  intros self client_ w1 w2.
  assert (UploadPassphrase client_ "vol-1" "recovery-1" false w1 = (Returns tt, w2))
    as Hup by (vm_compute; reflexivity).
  assert (_Authenticate self world0 = (Returns (Some client_), world0)) as Hauth
    by reflexivity.
  assert (ApplyEncryption client_ (input_user self) (input_pass self) w1
          = (Returns ("vol-1", "recovery-1"), w1)) as Happly by reflexivity.
  split; [exact Hauth|]. split; [exact Happly|]. split; [exact Hup|].
  by rewrite (plain_volume_offers_restart self world0 client_ world0 w1 w2
                "vol-1" "recovery-1" Hauth Happly Hup).
Defined.

(** ** The countdown *)

Lemma countdown_texts (f : Z -> string) (l : list Z) (tail : list Countdown.Step) :
  Countdown.texts (flat_map (fun r => [Countdown.SetText (f r); Countdown.Sleep 1]) l ++ tail)
  = map f l ++ Countdown.texts tail.
Proof.
  induction l as [|r l IH]; [done|].
  cbn [flat_map app map]. unfold Countdown.texts in *. cbn [flat_map app]. by rewrite IH.
Qed.

Lemma countdown_slept (f : Z -> string) (l : list Z) :
  Countdown.slept (flat_map (fun r => [Countdown.SetText (f r); Countdown.Sleep 1]) l
                   ++ [Countdown.Terminate])
  = length l.
Proof.
  induction l as [|r l IH]; [done|].
  change (Countdown.slept
            (flat_map (fun r => [Countdown.SetText (f r); Countdown.Sleep 1]) (r :: l)
             ++ [Countdown.Terminate]))
    with (S (Countdown.slept
               (flat_map (fun r => [Countdown.SetText (f r); Countdown.Sleep 1]) l
                ++ [Countdown.Terminate]))).
  by rewrite IH.
Qed.

Lemma countdown_no_terminate (f : Z -> string) (l : list Z) :
  ~ In Countdown.Terminate
      (flat_map (fun r => [Countdown.SetText (f r); Countdown.Sleep 1]) l).
Proof.
  induction l as [|r l IH]; [by intros []|].
  cbn [flat_map app]. intros [Hd|[Hd|Hin]]; [discriminate | discriminate | by apply IH].
Qed.

Lemma countdown_steps (f : Z -> string) (tail : list Countdown.Step) (l : list Z) :
  length (flat_map (fun r => [Countdown.SetText (f r); Countdown.Sleep 1]) l)
  = 2 * length l /\
  forall k r,
    l !! k = Some r ->
    (flat_map (fun r => [Countdown.SetText (f r); Countdown.Sleep 1]) l ++ tail) !! (2 * k)
    = Some (Countdown.SetText (f r)) /\
    (flat_map (fun r => [Countdown.SetText (f r); Countdown.Sleep 1]) l ++ tail)
      !! (2 * k + 1)
    = Some (Countdown.Sleep 1).
Proof.
  induction l as [|r0 l [IHlen IH]]; [split; [done | intros k r; discriminate]|].
  split; [cbn [flat_map app length]; lia|].
  intros k r Hk. destruct k as [|k].
  - injection Hk as <-. by split.
  - replace (2 * S k) with (S (S (2 * k))) by lia.
    replace (S (S (2 * k)) + 1) with (S (S (2 * k + 1))) by lia.
    exact (IH k r Hk).
Qed.

(** X15. [Countdown.run] counts down from [seconds] to 1, one step after
    the other: for each [k] below [seconds] it sets the text to the
    original text followed by [seconds - k] and then sleeps one second,
    before it goes on; after the last sleep it calls the termination
    callback, once, and that is its last step.  So it sleeps [seconds]
    seconds in all; with [seconds] zero or negative only the callback runs;
    and the label is never given back its original text. *)
Theorem countdown_run_counts_down (self : Countdown.t) :
  let n := Z.to_nat (Countdown.seconds self) in
  let shown (remaining : Z) :=
    Countdown.original_text self +:+ " (" +:+ pretty remaining +:+ ")" in
  length (Countdown.run self) = 2 * n + 1 /\
  (forall k, k < n ->
     Countdown.run self !! (2 * k)
     = Some (Countdown.SetText (shown (Countdown.seconds self - Z.of_nat k)%Z)) /\
     Countdown.run self !! (2 * k + 1) = Some (Countdown.Sleep 1)) /\
  Countdown.run self !! (2 * n) = Some Countdown.Terminate /\
  Countdown.slept (Countdown.run self) = n /\
  (exists steps,
     Countdown.run self = steps ++ [Countdown.Terminate] /\
     ~ In Countdown.Terminate steps) /\
  length (Countdown.texts (Countdown.run self)) = n /\
  (forall k, k < n ->
     Countdown.texts (Countdown.run self) !! k
     = Some (shown (Countdown.seconds self - Z.of_nat k)%Z)) /\
  ((Countdown.seconds self <= 0)%Z -> Countdown.run self = [Countdown.Terminate]) /\
  ((0 < Countdown.seconds self)%Z ->
   last (Countdown.texts (Countdown.run self))
   = Some (Countdown.original_text self +:+ " (1)")).
Proof.
  intros n shown.
  assert (Countdown.run self
          = flat_map (fun r => [Countdown.SetText (shown r); Countdown.Sleep 1])
              (Countdown.range_down (Countdown.seconds self)) ++ [Countdown.Terminate])
    as Hrun by reflexivity.
  rewrite Hrun. clear Hrun.
  assert (Countdown.texts
            (flat_map (fun r => [Countdown.SetText (shown r); Countdown.Sleep 1])
               (Countdown.range_down (Countdown.seconds self)) ++ [Countdown.Terminate])
          = map shown (Countdown.range_down (Countdown.seconds self))) as Htexts.
  { rewrite countdown_texts. apply app_nil_r. }
  assert (length (Countdown.range_down (Countdown.seconds self)) = n) as Hlen.
  { unfold Countdown.range_down. by rewrite length_map, length_seq. }
  destruct (countdown_steps shown [Countdown.Terminate]
              (Countdown.range_down (Countdown.seconds self))) as [Hsteps Hstep].
  rewrite Hlen in Hsteps.
  split; [rewrite length_app, Hsteps; reflexivity|].
  split.
  { intros k Hk. apply Hstep. unfold Countdown.range_down.
    rewrite list_lookup_fmap, lookup_seq_lt by exact Hk. reflexivity. }
  split; [apply list_lookup_middle; by rewrite Hsteps|].
  split; [by rewrite countdown_slept|].
  split; [eexists; split; [reflexivity | apply countdown_no_terminate]|].
  split; [by rewrite Htexts, length_map|].
  split; [|split].
  - intros k Hk. rewrite Htexts, list_lookup_fmap. unfold Countdown.range_down.
    rewrite list_lookup_fmap, lookup_seq_lt by exact Hk. reflexivity.
  - intros Hle. unfold Countdown.range_down.
    replace (Z.to_nat (Countdown.seconds self)) with 0 by lia. reflexivity.
  - intros Hpos. rewrite Htexts. unfold Countdown.range_down.
    replace (Z.to_nat (Countdown.seconds self)) with (S (n - 1)) by lia.
    rewrite seq_S, !map_app. cbn [map]. rewrite last_snoc. f_equal. unfold shown.
    replace (Countdown.seconds self - Z.of_nat (0 + (n - 1)))%Z with 1%Z by lia.
    reflexivity.
Qed.

Lemma countdown_run_counts_down_witness :
  let self := Countdown.mk 10 "Restart now" in
  (0 < Countdown.seconds self)%Z /\
  last (Countdown.texts (Countdown.run self)) = Some "Restart now (1)" /\
  Countdown.slept (Countdown.run self) = 10.
Proof.
  intros self.
  destruct (countdown_run_counts_down self)
    as (_ & _ & _ & Hslept & _ & _ & _ & _ & Hlast).
  split; [reflexivity|]. split; [apply Hlast; reflexivity | exact Hslept].
Defined.

(** ** GetOauthCredentials *)

(** X16. [GetOauthCredentials] checks its two settings before anything
    else: with the client id unset, as [settings.py] has it, or the client
    secret unset, it raises [RuntimeError] and has started no server and
    opened no browser.  Whenever the browser was opened both settings were
    set. *)
Theorem oauth_settings_are_checked_first (env : OAuth.Env) :
  (OAuth.OAUTH_CLIENT_ID env = OAuth.settings_OAUTH_CLIENT_ID ->
   OAuth.GetOauthCredentials env
   = (Raises (OAuth.RuntimeError "Missing OAUTH_CLIENT_ID setting!"), [])) /\
  (OAuth.OAUTH_CLIENT_ID env <> "" -> OAuth.OAUTH_CLIENT_SECRET env = "" ->
   OAuth.GetOauthCredentials env
   = (Raises (OAuth.RuntimeError "Missing OAUTH_CLIENT_SECRET setting!"), [])) /\
  (snd (OAuth.GetOauthCredentials env) <> [] ->
   OAuth.OAUTH_CLIENT_ID env <> "" /\ OAuth.OAUTH_CLIENT_SECRET env <> "" /\
   exists rest,
     snd (OAuth.GetOauthCredentials env)
     = OAuth.StartRedirectServer ::
       OAuth.OpenBrowser (OAuth.step1_get_authorize_url env (OAuth.redirect_uri env)) ::
       OAuth.HandleRequest :: rest).
Proof.
  unfold OAuth.GetOauthCredentials, OAuth.settings_OAUTH_CLIENT_ID.
  split; [|split].
  - intros ->. reflexivity.
  - intros Hid ->. apply String.eqb_neq in Hid. by rewrite Hid.
  - destruct (String.eqb_spec (OAuth.OAUTH_CLIENT_ID env) "") as [|Hid]; [done|].
    destruct (String.eqb_spec (OAuth.OAUTH_CLIENT_SECRET env) "") as [|Hsec]; [done|].
    intros _. split; [done|]. split; [done|].
    destruct (OAuth.query_params env !! "error"); [by eexists|].
    destruct (OAuth.step2_exchange env (OAuth.query_params env)) as [c|e];
      [by eexists|].
    destruct (OAuth.isinstance_FlowExchangeError e); by eexists.
Qed.

Lemma oauth_settings_are_checked_first_witness :
  let env := {| OAuth.OAUTH_CLIENT_ID := OAuth.settings_OAUTH_CLIENT_ID;
                OAuth.OAUTH_CLIENT_SECRET := "s3";
                OAuth.server_address := ("localhost", 8080%Z);
                OAuth.step1_get_authorize_url := fun uri => "https://idp.example.com/?r=" +:+ uri;
                OAuth.query_params := ∅;
                OAuth.step2_exchange := fun _ => Returns (OAuth.mkCredentials "t0") |} in
  OAuth.OAUTH_CLIENT_ID env = OAuth.settings_OAUTH_CLIENT_ID /\
  OAuth.GetOauthCredentials env
  = (Raises (OAuth.RuntimeError "Missing OAUTH_CLIENT_ID setting!"), []).
Proof.
  intros env. split; [reflexivity|].
  destruct (oauth_settings_are_checked_first env) as (Hid & _).
  apply Hid. reflexivity.
Defined.

(** X17. With both settings set, [GetOauthCredentials] raises
    [AuthenticationError] when the redirect carried an [error] parameter,
    without exchanging anything, and when the exchange raises
    [FlowExchangeError], with that error in its message; it returns
    credentials exactly when there was no [error] parameter and the
    exchange returned them. *)
Theorem oauth_rejection_is_authentication_error (env : OAuth.Env) :
  OAuth.OAUTH_CLIENT_ID env <> "" ->
  OAuth.OAUTH_CLIENT_SECRET env <> "" ->
  let steps := [OAuth.StartRedirectServer;
                OAuth.OpenBrowser (OAuth.step1_get_authorize_url env (OAuth.redirect_uri env));
                OAuth.HandleRequest] in
  (forall v,
     OAuth.query_params env !! "error" = Some v ->
     OAuth.GetOauthCredentials env
     = (Raises (AuthenticationError "Authentication request was rejected."), steps)) /\
  (forall msg,
     OAuth.query_params env !! "error" = None ->
     OAuth.step2_exchange env (OAuth.query_params env)
     = Raises (OtherException "FlowExchangeError" msg) ->
     OAuth.GetOauthCredentials env
     = (Raises (AuthenticationError ("Authentication has failed: " +:+ msg)),
        steps ++ [OAuth.Exchange (OAuth.redirect_uri env)])) /\
  (forall credentials,
     fst (OAuth.GetOauthCredentials env) = Returns credentials <->
     OAuth.query_params env !! "error" = None /\
     OAuth.step2_exchange env (OAuth.query_params env) = Returns credentials).
Proof.
  intros Hid Hsec steps. unfold OAuth.GetOauthCredentials.
  apply String.eqb_neq in Hid. apply String.eqb_neq in Hsec. rewrite Hid, Hsec.
  split; [|split].
  - by intros v ->.
  - by intros msg -> ->.
  - intros credentials.
    destruct (OAuth.query_params env !! "error") as [v|].
    + split; [discriminate | by intros [? _]].
    + destruct (OAuth.step2_exchange env (OAuth.query_params env)) as [c|e].
      * split; [by intros [= ->] | by intros [_ [= ->]]].
      * destruct (OAuth.isinstance_FlowExchangeError e);
          (split; [discriminate | by intros [_ ?]]).
Qed.

Lemma oauth_rejection_is_authentication_error_witness :
  let env := {| OAuth.OAUTH_CLIENT_ID := "cid";
                OAuth.OAUTH_CLIENT_SECRET := "s3";
                OAuth.server_address := ("localhost", 8080%Z);
                OAuth.step1_get_authorize_url := fun uri => "https://idp.example.com/?r=" +:+ uri;
                OAuth.query_params := {[ "error" := "access_denied" ]};
                OAuth.step2_exchange := fun _ => Returns (OAuth.mkCredentials "t0") |} in
  OAuth.OAUTH_CLIENT_ID env <> "" /\
  OAuth.OAUTH_CLIENT_SECRET env <> "" /\
  OAuth.query_params env !! "error" = Some "access_denied" /\
  fst (OAuth.GetOauthCredentials env)
  = Raises (AuthenticationError "Authentication request was rejected.").
Proof.
  intros env.
  assert (OAuth.OAUTH_CLIENT_ID env <> "") as Hid by discriminate.
  assert (OAuth.OAUTH_CLIENT_SECRET env <> "") as Hsec by discriminate.
  assert (OAuth.query_params env !! "error" = Some "access_denied") as Herr
    by (vm_compute; reflexivity).
  split; [exact Hid|]. split; [exact Hsec|]. split; [exact Herr|].
  destruct (oauth_rejection_is_authentication_error env Hid Hsec) as (Hrej & _).
  by rewrite (Hrej _ Herr).
Defined.

(** ** GuiOauth._Authenticate *)

Lemma check_required_passes md keys w :
  fst (check_required md keys w) = Returns tt ->
  Forall (fun key => ~ absent_or_falsy md key) keys.
Proof.
  intros Hok.
  destruct (check_required_first md keys w)
    as [_ [[_ Hall]|(earlier & key & later & _ & _ & _ & Hres)]]; [|congruence].
  eapply List.Forall_impl; [|exact Hall]. intros k Hk Habs.
  apply missing_absent_or_falsy in Habs. congruence.
Qed.

Section Authenticate.
Variable env : OAuth.Env.
Variable BuildOauth2Opener : OAuth.Credentials -> list Event -> Request -> Outcome.
Variable FileVaultClient : string -> (list Event -> Request -> Outcome) -> Client.
Variable server_url : string.
Variable error_func : string -> M unit.

Local Abbreviation authenticate :=
  (GuiOauth_Authenticate env BuildOauth2Opener FileVaultClient server_url error_func).

Lemma authenticate_run (w : World) :
  let login := snd (_PrepTop (Some "Logging in...") w) in
  let fresh := {| trace := trace login; _metadata := None;
                  top_frame := top_frame login |} in
  authenticate w
  = match fst (OAuth.GetOauthCredentials env) with
    | Returns credentials =>
        let client_ := FileVaultClient server_url (BuildOauth2Opener credentials) in
        match GetAndValidateMetadata client_ fresh with
        | (Returns _, w1) => (Returns (Some client_), w1)
        | (Raises e, w1) =>
            match e with
            | MetadataError _ => bind (error_func (str_of_exn e)) (fun _ => ret None) w1
            | _ => (Raises e, w1)
            end
        end
    | Raises e =>
        if OAuth.isinstance_RuntimeError e
           || match e with AuthenticationError _ => true | _ => false end
        then bind (error_func (str_of_exn e)) (fun _ => ret None) login
        else (Raises e, login)
    end.
Proof.
  intros login fresh. subst login fresh.
  unfold GuiOauth_Authenticate. rewrite PrepTop_run. cbn [snd].
  set (login := {| trace := _; _metadata := _metadata w; top_frame := _ |}).
  unfold bind at 1. rewrite PrepTop_run. fold login.
  unfold bind at 1, try_except. unfold bind at 1, lift.
  destruct (fst (OAuth.GetOauthCredentials env)) as [credentials|e].
  - unfold ret at 1. unfold bind at 1, new_object. unfold bind at 1, try_except.
    cbv zeta.
    set (built := FileVaultClient server_url (BuildOauth2Opener credentials)).
    set (fresh := {| trace := trace login; _metadata := None;
                     top_frame := top_frame login |}).
    unfold bind at 1.
    destruct (GetAndValidateMetadata built fresh) as [[[]|e] w1]; [done|].
    destruct e; try reflexivity.
    unfold bind. by destruct (error_func _ w1) as [[[]|?] ?].
  - destruct (OAuth.isinstance_RuntimeError e || _); [|done].
    unfold bind. by destruct (error_func _ login) as [[[]|?] ?].
Qed.

(** X18. [GuiOauth._Authenticate] hands back a client only with validated
    metadata: when it returns one, credentials were obtained, the client
    was built from them, and the metadata it gathered is stored and has
    every required key present and truthy.  When obtaining credentials
    raises [RuntimeError] or [AuthenticationError], or validation raises
    [MetadataError], [error_func] is called with the message and no client
    is returned. *)
Theorem oauth_authenticate_validates_metadata (w : World) :
  let login := snd (_PrepTop (Some "Logging in...") w) in
  let fresh := {| trace := trace login; _metadata := None;
                  top_frame := top_frame login |} in
  (forall client_ w',
     authenticate w = (Returns (Some client_), w') ->
     exists credentials md,
       fst (OAuth.GetOauthCredentials env) = Returns credentials /\
       client_ = FileVaultClient server_url (BuildOauth2Opener credentials) /\
       _GetMetadata client_ = Returns md /\
       w' = with_metadata login md /\
       Forall (fun key => ~ absent_or_falsy md key) (REQUIRED_METADATA client_)) /\
  (forall e,
     fst (OAuth.GetOauthCredentials env) = Raises e ->
     OAuth.isinstance_RuntimeError e = true \/ (exists msg, e = AuthenticationError msg) ->
     authenticate w = bind (error_func (str_of_exn e)) (fun _ => ret None) login) /\
  (forall credentials msg w1,
     fst (OAuth.GetOauthCredentials env) = Returns credentials ->
     GetAndValidateMetadata (FileVaultClient server_url (BuildOauth2Opener credentials))
       fresh = (Raises (MetadataError msg), w1) ->
     authenticate w = bind (error_func msg) (fun _ => ret None) w1).
Proof.
  intros login fresh. rewrite authenticate_run. fold login. fold fresh.
  split; [|split].
  - intros client_ w'.
    destruct (fst (OAuth.GetOauthCredentials env)) as [credentials|e].
    + cbv zeta.
      set (built := FileVaultClient server_url (BuildOauth2Opener credentials)).
      destruct (GetAndValidateMetadata built fresh) as [[[]|e] w1] eqn:Hval.
      * intros [= <- <-].
        destruct (_GetMetadata built) as [md|e] eqn:Hg.
        2:{ exfalso. revert Hval.
            unfold GetAndValidateMetadata, bind, get_metadata, load_metadata, lift.
            simpl. rewrite Hg. discriminate. }
        rewrite (GetAndValidateMetadata_gathers built fresh md eq_refl Hg) in Hval.
        injection Hval as Hok <-.
        exists credentials, md. repeat split; try done.
        by eapply check_required_passes.
      * destruct e; try discriminate.
        unfold bind. destruct (error_func _ w1) as [[[]|?] ?]; discriminate.
    + destruct (OAuth.isinstance_RuntimeError e || _); [|discriminate].
      unfold bind. destruct (error_func _ login) as [[[]|?] ?]; discriminate.
  - intros e -> He.
    assert (OAuth.isinstance_RuntimeError e
            || match e with AuthenticationError _ => true | _ => false end = true) as ->.
    { destruct He as [->|[msg ->]]; [done | apply orb_true_r]. }
    reflexivity.
  - intros credentials msg w1 -> Hval. cbv zeta. by rewrite Hval.
Qed.
End Authenticate.

Lemma oauth_authenticate_validates_metadata_witness :
  let env := {| OAuth.OAUTH_CLIENT_ID := "cid";
                OAuth.OAUTH_CLIENT_SECRET := "s3";
                OAuth.server_address := ("localhost", 8080%Z);
                OAuth.step1_get_authorize_url := fun uri => "https://idp.example.com/?r=" +:+ uri;
                OAuth.query_params := {[ "code" := "c0" ]};
                OAuth.step2_exchange := fun _ => Returns (OAuth.mkCredentials "t0") |} in
  let build := fun _ : OAuth.Credentials => Examples.answering "ok" in
  let new := fun (_ : string) o => Examples.new_client o (Returns Examples.machine) in
  let run := GuiOauth_Authenticate env build new "https://cv.example.com"
               ShowFatalError world0 in
  run = (Returns (Some (new "https://cv.example.com" (Examples.answering "ok"))), snd run) /\
  exists credentials md,
    fst (OAuth.GetOauthCredentials env) = Returns credentials /\
    new "https://cv.example.com" (Examples.answering "ok")
    = new "https://cv.example.com" (build credentials) /\
    _GetMetadata (new "https://cv.example.com" (Examples.answering "ok")) = Returns md /\
    snd run = with_metadata (snd (_PrepTop (Some "Logging in...") world0)) md /\
    Forall (fun key => ~ absent_or_falsy md key)
      (REQUIRED_METADATA (new "https://cv.example.com" (Examples.answering "ok"))).
Proof.
  intros env build new run.
  assert (run = (Returns (Some (new "https://cv.example.com" (Examples.answering "ok"))),
                 snd run)) as Hrun by (vm_compute; reflexivity).
  split; [exact Hrun|].
  destruct (oauth_authenticate_validates_metadata env build new "https://cv.example.com"
              ShowFatalError world0) as (Hok & _).
  exact (Hok _ _ Hrun).
Defined.
